(* ===== verification/_CoqProject ===== *)
-Q . S2P
Prelude.v
PyStr.v
PyInt.v
Effects.v
Discovery.v
Render.v
Pipeline.v
Refinement.v
RunErrors.v
Gui.v
Window.v
Concurrency.v
