(* ===== verification/Prelude.v ===== *)
(** * A verification library for GHEP-VIDEO-ANH.py

    The program (src/GHEP-VIDEO-ANH.py, 195 lines of Python) builds a
    slideshow video: it pairs [<key>.jpg] images with [<key>.mp3] sounds in
    a folder, gives a random choice of keys a motion effect (zoom, pan,
    shake), renders one clip per key with the external encoder and
    concatenates the clips in the numeric order of the keys.  A Tk form
    starts the work on a thread that reports through a log callback, a
    progress callback and message boxes.

    ** Parts of the program and where they are modelled

    - Python library functions the code calls ([PyStr.v], [PyInt.v]):
      [str.lower], [str.endswith], [os.path.splitext], [os.path.join],
      [str.join], [repr], and [int()] in base 10 with CPython's syntax
      (whitespace, sign, underscores, the 4300-digit limit, the message of
      its [ValueError]).  They are not code of the repository: these two
      files model the library after CPython, for the components below.
    - Segment discovery, lines 15-19 ([Discovery.v]): the two dict
      comprehensions [build_map], the key intersection [common_keys] and
      [sorted(..., key=int)] as [py_sorted_int] (keys computed in
      enumeration order, then a stable insertion sort).
    - Effect assignment, lines 23-28 ([Effects.v]): Python slicing
      [py_slice] with its negative-index rules, and [assign_effects].
    - The render step, lines 40-97 ([Render.v]): [choose_effect], the filter
      graphs and the argument lists [effect_cmd] given to the encoder, the
      log lines.
    - The worker [create_video_with_ffmpeg], lines 13-117 ([Pipeline.v]):
      [process_segment] is the loop body, [create_video_body] the [try]
      block, [create_video_with_ffmpeg] adds the [except] handler.
    - An abstract machine of a completed run ([Refinement.v]): [seg_step]
      is one segment (effect from [choose_effect], one block of events
      [segment_events], the clip kept when its path exists right after its
      render), [segs] the loop and [run_spec] lines 15-114; [refines]
      relates the worker's state to the machine's.
    - The runs that raise ([RunErrors.v]): [seg_raise] a segment that
      raises (a missing dict key, mutagen, the encoder not starting),
      [segs_raise] the loop, [run_raise] the try block raising at the
      listing, discovery, [os.makedirs], a segment, [open] or the
      concatenation; [error_events] the [except] handler.
    - Two workers started by two clicks ([Concurrency.v]): a worker cut
      into atomic steps [thread_step] (start; per segment, the render and
      the existence check; end; or the step that raises and runs the
      [except] handler) over the shared file system and widgets, each
      worker with the counts read at its click, [conc_step] the
      interleaving of two of them, [thread_exec] and [run_schedule] the
      same steps computed.
    - The form handler [start_process] and the callbacks, lines 121-146
      ([Gui.v]): [start_process], [gui_apply] for [progress_callback] and
      [log_callback], and [click], a click followed by the whole run.
    - The window, lines 153-196 ([Window.v]): [window_script], the Tk
      calls of the GUI setup in order, run by [tk_exec], a model of the Tk
      widget tree; [form_of] and [gui_of] read what the handlers use.

    ** How the program's state and effects are represented

    This file defines the state-and-exception monad [PyM S A = S -> pyres A
    * S] in which Python statements run: [pyres] is a value or a raised
    [py_exc] (class and [str(e)]), and a raised exception keeps the state
    reached, as Python keeps the log lines already sent.  [try_except] is
    [try]/[except Exception], [for_enum] is [for i, x in enumerate(l)].  The
    worker's state [Pipeline.worker] is the file system the code writes
    and tests (a [gmap] from path to contents and a [gset] of directories),
    the list of events the GUI receives, in order, and the local list
    [video_parts].  What the program does not compute is an interface, the
    class [Pipeline.MediaEnv]: the directory listing, mutagen's length of an
    MP3 file, the effect of one encoder run on the file system, the order
    in which a set is enumerated, the permutation [random.shuffle] picks and
    [str()] of a float; [Pipeline.MediaEnvLaws] states that the two orders
    are permutations.  The theorems about a whole run hold for every
    environment (with its laws where stated); witnesses use concrete ones.
    Integers are Python [int]s ([Z], unbounded); durations are the exact
    rationals of mutagen's floats ([Q]); progress values are computed
    exactly in [Q] where the code divides floats.  Every loop is structural
    recursion over a list, so no fuel is needed and every function of the
    model is total; concrete runs are evaluated by [vm_compute].

    ** What is proved

    - Worker ([Pipeline]): a run that completes concatenates, through a
      manifest, the clips of a sublist of the keys in their sorted order,
      and reports the progress values [(j+1)/n*100], which increase
      strictly and end at 100 ([create_video_manifest],
      [create_video_progress], [progress_trace]);
      the worker never lets an exception out and ends with the success box
      or with the error line and box ([create_video_outcome]); what it can
      raise is an error of the environment, a [ValueError], a
      [FileExistsError] or an error of [open], never a [KeyError]
      ([create_video_body_errors]); two keys never share a clip
      ([part_path_inj]).
    - Refinement: [create_video_body] completes exactly when [run_spec]
      does, in related states, by a forward and a backward simulation of
      each segment ([create_video_body_refinement]); with readable MP3
      files and an encoder that writes its output, every run whose
      listing and discovery succeed completes and keeps every key in
      order ([create_video_completes]); with an encoder that renders some
      outputs and touches nothing else, the manifest lists exactly the keys
      whose clip was rendered or existed before the run
      ([encoder_by_output_manifest]), the spec's scenario of a failed render
      among them ([failed_render_scenario]).
    - Errors: the try block raises [e] exactly when [run_raise] does, in
      the same files and events ([create_video_body_raise_refinement]);
      [create_video_with_ffmpeg] as a whole is a completed [run_spec] or a
      [run_raise] followed by the handler's events, and every such
      abstract run is one the worker makes ([worker_spec]).
    - Concurrency: one thread alone ends exactly where
      [create_video_with_ffmpeg] does, whether the run completes or
      raises ([thread_alone_worker]); two clicks one after the other end
      where two successive calls of the worker do ([clicks_in_sequence]);
      with two clicks the shared progress bar goes 50, 100, 50, 100 and
      the first success box shows with the bar at 50
      ([two_clicks_progress]); a worker whose own render failed can keep
      the clip the other worker rendered, log no failure and report
      success ([foreign_clip_kept]); every interleaving of two workers
      ends, in at most as many steps as their starts, two per key and
      their ends ([conc_terminates], by a measure that each step
      decreases: [sn_measure] of this file), and none gets stuck before
      both workers have ended ([conc_finishes]); in every interleaving
      each worker keeps its own discovery, effect groups and a manifest in
      key order ([conc_wf], a well-formedness invariant [thread_wf]
      preserved by every step).
    - Discovery: a segment exists exactly for the stems with both an image
      and an audio file, keys are duplicate-free and ascending by [int]
      ([discover_keys]); a non-numeric stem aborts the run with a
      [ValueError] ([discover_non_numeric]); the order is independent of
      the set's enumeration when [int] values are distinct
      ([py_sorted_int_perm]); every stable sort gives the modelled
      [sorted] result ([py_sorted_int_stable]).
    - Effects: with non-negative counts the groups are disjoint and have
      the sizes [min(count, remaining)] ([assign_effects_disjoint],
      [assign_effects_sizes]); negative counts, which the form accepts,
      count from the end ([assign_effects_negative_zoom]) and can make
      groups overlap ([assign_effects_overlap]).
    - Render: with disjoint groups a key gets its group's effect, a zoom
      key of at most 6 s no effect ([choose_effect_disjoint]); every command
      reads the image and the audio, cuts to [-t duration] and writes its
      last argument ([effect_cmd_contract]).
    - Names and literals: in a folder of pairs [k.jpg], [k.mp3] discovery
      gives back exactly the stems, in [int] order ([discover_pairs]); the
      manifest the worker writes reads back line by line as its entries
      ([manifest_roundtrip]); a click with three decimal literals starts
      the run with their values ([start_process_digits]).
    - Form: the handler starts a run exactly when the folder is set and
      the counts parse, and never raises ([start_process_spec]); after a
      completed run the bar shows 100, or 0 for a folder without pairs
      ([click_progress_bar]); the window the GUI setup builds holds the
      initial form and widgets, wires each button to its handler, lays
      the options out in distinct cells, and starts a run with the
      default counts once a folder is chosen ([window_start]).
    - What the model shows against the spec: a stale clip of an earlier
      run is concatenated as if rendered ([stale_clip_in_manifest]); the
      success box appears whatever the encoder did
      ([success_without_output]); without pairs no progress is reported
      ([empty_folder_no_progress]); stems of equal value such as [7] and
      [07] are ordered by set enumeration ([py_sorted_int_tie]); a stem
      ending in a newline is numeric and breaks its manifest line
      ([newline_key_breaks_manifest]); the form starts a run with a
      negative count ([Gui.start_process_negative_count]).

    ** Not modelled

    Tk's geometry management (pixel sizes, padding, colours) and its
    event loop beyond one click followed by its thread's run; thread switches inside a
    render or a check (two threads interleave between the start, the
    renders, the checks and the end of each worker, and the step that
    raises); the encoder's filter semantics and encoding (its effect on the file system is the
    environment); mutagen's parsing of MP3 headers; CPython's [repr] of a
    float and the rounding of float arithmetic; Unicode whitespace and
    digits in [int()]; file permissions.

    ** Open work

    Interleavings that raise are in the model ([Concurrency.thread_step])
    and covered by its general theorems; no concrete schedule in which
    one worker raises while the other completes is worked out, nor what
    the widgets then show. *)

From stdpp Require Import base list gmap sets strings relations.
From Stdlib Require Import ZArith.

Declare Scope py_scope.
Delimit Scope py_scope with py.

(** ** Python exceptions

    The classes of the exceptions that can reach the [except Exception]
    handler of [create_video_with_ffmpeg]: [int()] raises [ValueError],
    [os.listdir], [os.makedirs] and [open] raise the [OSError] family,
    [mutagen.mp3.MP3] raises its own error on a file it cannot read, and a
    dict lookup [d[k]] raises [KeyError]. *)
Inductive exc_class :=
  | ValueError
  | FileNotFoundError
  | NotADirectoryError
  | FileExistsError
  | IsADirectoryError
  | PermissionError
  | OSError
  | MutagenError
  | KeyError.

#[export] Instance exc_class_eq_dec : EqDecision exc_class.
Proof. solve_decision. Defined.

(** An exception object; [exc_msg] is what [str(e)] returns. *)
Record py_exc := PyExc { exc_cls : exc_class; exc_msg : string }.

#[export] Instance py_exc_eq_dec : EqDecision py_exc.
Proof. solve_decision. Defined.

(** The result of a Python computation: a value or a raised exception. *)
Inductive pyres (A : Type) : Type :=
  | Ok (a : A)
  | Raise (e : py_exc).
Arguments Ok {A} a.
Arguments Raise {A} e.

(** Sequencing of pure fallible code (an expression that may raise). *)
Definition rbind {A B} (r : pyres A) (k : A -> pyres B) : pyres B :=
  match r with
  | Ok a => k a
  | Raise e => Raise e
  end.

Notation "x <-! r ;; k" := (rbind r (fun x => k))
  (at level 100, r at next level, right associativity) : py_scope.

(** ** The state-and-exception monad of the worker thread

    A Python statement runs on a state [S] and either completes or raises.
    Unlike a state transformer over a sum type, a raised exception keeps
    the state reached so far: the log lines emitted and the files written
    before the exception stay, exactly as in Python. *)
Definition PyM (S A : Type) : Type := S -> pyres A * S.

Section PyM.
Context {S : Type}.

Definition ret {A} (a : A) : PyM S A := fun s => (Ok a, s).

Definition bind {A B} (m : PyM S A) (k : A -> PyM S B) : PyM S B :=
  fun s =>
    match m s with
    | (Ok a, s') => k a s'
    | (Raise e, s') => (Raise e, s')
    end.

Definition raise {A} (e : py_exc) : PyM S A := fun s => (Raise e, s).

(** An expression that may raise, evaluated in a statement. *)
Definition lift {A} (r : pyres A) : PyM S A := fun s => (r, s).

Definition modify (f : S -> S) : PyM S unit := fun s => (Ok tt, f s).

Definition gets {A} (f : S -> A) : PyM S A := fun s => (Ok (f s), s).

(** [try: m except Exception as e: h(e)] *)
Definition try_except {A} (m : PyM S A) (h : py_exc -> PyM S A) : PyM S A :=
  fun s =>
    match m s with
    | (Raise e, s') => h e s'
    | r => r
    end.

(** [for i, x in enumerate(l, start=i0): body(i, x)] *)
Fixpoint for_enum {A} (i : nat) (l : list A) (body : nat -> A -> PyM S unit)
    : PyM S unit :=
  match l with
  | [] => ret tt
  | x :: l' => bind (body i x) (fun _ => for_enum (Datatypes.S i) l' body)
  end.
End PyM.

Notation "x <- m ;; k" := (bind m (fun x => k))
  (at level 100, m at next level, right associativity) : py_scope.
Notation "m ;;; k" := (bind m (fun _ => k))
  (at level 100, right associativity) : py_scope.

Open Scope py_scope.

(** ** Automation *)
Create HintDb pyvid discriminated.
Create Rewrite HintDb pyvid_rw.

(** Unfold the monad down to the matches on intermediate results. *)
Ltac py_unfold :=
  cbv [bind ret raise lift modify gets try_except rbind] in *.

(** ** Monad laws, pointwise in the state *)
Section PyMLaws.
Context {S : Type}.

Lemma bind_ret_l {A B} (a : A) (k : A -> PyM S B) s :
  bind (ret a) k s = k a s.
Proof. reflexivity. Qed.

Lemma bind_ret_r {A} (m : PyM S A) s : bind m ret s = m s.
Proof. unfold bind, ret. by destruct (m s) as [[] ?]. Qed.

Lemma bind_assoc {A B C} (m : PyM S A) (k : A -> PyM S B) (h : B -> PyM S C) s :
  bind (bind m k) h s = bind m (fun a => bind (k a) h) s.
Proof. unfold bind. by destruct (m s) as [[] ?]. Qed.

Lemma bind_raise {A B} e (k : A -> PyM S B) s :
  bind (raise e) k s = (Raise e, s).
Proof. reflexivity. Qed.

(** One iteration of the loop: the body completes and the loop goes on,
    or the body raises and the loop stops there. *)
Lemma for_enum_cons_inv {A} (i : nat) (x : A) (l : list A)
    (body : nat -> A -> PyM S unit) s r s' :
  for_enum i (x :: l) body s = (r, s') ->
  (exists s1, body i x s = (Ok tt, s1) /\ for_enum (Datatypes.S i) l body s1 = (r, s'))
  \/ (exists e, body i x s = (Raise e, s') /\ r = Raise e).
Proof.
  simpl. unfold bind. destruct (body i x s) as [[[]|e] s1]; intros H; [left | right]; eauto.
  injection H as <- <-. eauto.
Qed.
End PyMLaws.

#[export] Hint Rewrite @bind_ret_l @bind_ret_r @bind_assoc @bind_raise : pyvid_rw.


(** ** Generic lemmas on lists *)

Lemma filter_all {A} (P : A -> Prop) `{!forall x, Decision (P x)} (l : list A) :
  Forall P l -> filter P l = l.
Proof.
  induction 1 as [|x l Hx _ IH]; [done |].
  rewrite filter_cons_True by done. by rewrite IH.
Qed.

(** [filter] only looks at the elements of the list. *)
Lemma filter_ext_in {A} (P1 P2 : A -> Prop) `{!forall x, Decision (P1 x)}
    `{!forall x, Decision (P2 x)} (l : list A) :
  (forall x, x ∈ l -> (P1 x <-> P2 x)) -> filter P1 l = filter P2 l.
Proof.
  induction l as [|x l IH]; intros Hext; [done |].
  rewrite !filter_cons, IH by (intros y Hy; apply Hext; by right).
  destruct (Hext x ltac:(by left)).
  destruct (decide (P1 x)), (decide (P2 x)); naive_solver.
Qed.

(** ** Termination by a measure *)

Section Measure.
Context {A : Type} (R : relation A) (m : A -> nat).
Hypothesis decreases : forall x y, R x y -> m y < m x.

(** A relation whose steps decrease a natural number has no infinite
    path. *)
(** Induction along the measure. *)
Lemma measure_ind (P : A -> Prop) :
  (forall x, (forall y, m y < m x -> P y) -> P x) -> forall x, P x.
Proof.
  intros Hstep x. remember (m x) as n eqn:Hn. revert x Hn.
  induction (lt_wf n) as [n _ IH]; intros x ->.
  apply Hstep. intros y Hy. by eapply IH.
Qed.

Lemma sn_measure (x : A) : sn R x.
Proof.
  remember (m x) as n eqn:Hn. revert x Hn.
  induction (lt_wf n) as [n _ IH]; intros x ->.
  constructor. intros y Hxy. eapply IH; [apply decreases, Hxy | done].
Qed.

(** And a path of [n] steps is at most as long as the measure allows. *)
Lemma nsteps_measure (n : nat) (x y : A) : nsteps R n x y -> n + m y <= m x.
Proof. induction 1 as [|n x y z Hxy _ IH]; [lia |]. specialize (decreases _ _ Hxy). lia. Qed.
End Measure.
