(* ===== verification/PyStr.v ===== *)
(** * Python string and path builtins, on byte strings

    The builtins [create_video_with_ffmpeg] applies to file names and paths
    (src/GHEP-VIDEO-ANH.py, lines 16-17, 20, 38, 100, 106-110):
    [str.lower], [str.endswith], [os.path.splitext] and [os.path.join] of
    [posixpath], [str.join], and [repr] of a string as it appears in the
    message of a [ValueError].  A Python [str] is a Rocq [string] whose
    characters are the bytes of its UTF-8 encoding; every definition below
    is exact on ASCII, and a non-ASCII character is kept as it is (it is
    never one of the ASCII characters the code tests for). *)

From stdpp Require Import base list strings.
From Stdlib Require Import Ascii String ZArith.
From S2P Require Import Prelude.

Local Open Scope Z_scope.

Abbreviation chars := list_ascii_of_string.
Abbreviation of_chars := string_of_list_ascii.

(** ** [str.lower()] *)
Definition ascii_lower (c : ascii) : ascii :=
  let n := nat_of_ascii c in
  if (65 <=? n)%nat && (n <=? 90)%nat then ascii_of_nat (n + 32) else c.

Fixpoint lower (s : string) : string :=
  match s with
  | EmptyString => EmptyString
  | String c s' => String (ascii_lower c) (lower s')
  end.

(** ** [s.endswith(suffix)] and [s.startswith(prefix)] *)
Definition endswith (s suffix : string) : bool :=
  let n := String.length s in
  let m := String.length suffix in
  (m <=? n)%nat && String.eqb (substring (n - m) m s) suffix.

Definition startswith (s pre : string) : bool := String.prefix pre s.

(** ** [s.rfind(c)]: the index of the last occurrence, [-1] if none *)
Fixpoint rfind_from (c : ascii) (i best : Z) (cs : list ascii) : Z :=
  match cs with
  | [] => best
  | x :: cs' => rfind_from c (i + 1) (if Ascii.eqb x c then i else best) cs'
  end.

Definition rfind (c : ascii) (s : string) : Z := rfind_from c 0 (-1) (chars s).

(** ** [os.path.splitext(p)]

    [posixpath.splitext] is [genericpath._splitext(p, '/', None, '.')]:
<<
    sepIndex = p.rfind(sep)
    dotIndex = p.rfind(extsep)
    if dotIndex > sepIndex:
        filenameIndex = sepIndex + 1
        while filenameIndex < dotIndex:
            if p[filenameIndex:filenameIndex+1] != extsep:
                return p[:dotIndex], p[dotIndex:]
            filenameIndex += 1
    return p, p[:0]
>>
    The loop returns the split as soon as it meets a character other than
    a dot between the last separator and the last dot, so the split
    happens exactly when such a character exists. *)
Definition splitext (p : string) : string * string :=
  let cs := chars p in
  let sepIndex := rfind "/" p in
  let dotIndex := rfind "." p in
  if sepIndex <? dotIndex then
    let filenameIndex := Z.to_nat (sepIndex + 1) in
    let d := Z.to_nat dotIndex in
    if existsb (fun c => negb (Ascii.eqb c "."))
         (take (d - filenameIndex) (drop filenameIndex cs))
    then (of_chars (take d cs), of_chars (drop d cs))
    else (p, "")
  else (p, "").

(** ** [os.path.join(a, b)] of [posixpath], for two components
<<
    if b.startswith(sep): path = b
    elif not path or path.endswith(sep): path += b
    else: path += sep + b
>> *)
Definition path_join (a b : string) : string :=
  if startswith b "/" then b
  else if String.eqb a "" || endswith a "/" then a +:+ b
  else a +:+ "/" +:+ b.

(** ** [sep.join(l)] *)
Definition str_join (sep : string) (l : list string) : string := String.concat sep l.

(** ** [repr(s)] of a string

    CPython picks the double quote when the string holds a single quote and
    no double quote, and the single quote otherwise; it escapes the
    backslash, the chosen quote, tab, newline and carriage return by name
    and the other control characters as [\xNN]. *)
Definition dquote : ascii := ascii_of_nat 34.
Definition squote : ascii := "'".
Definition backslash : ascii := ascii_of_nat 92.

Definition hex_digit (n : nat) : ascii :=
  ascii_of_nat (if (n <? 10)%nat then 48 + n else 87 + n).

Definition repr_char (q c : ascii) : string :=
  let n := nat_of_ascii c in
  if Ascii.eqb c backslash then String backslash (String backslash EmptyString)
  else if Ascii.eqb c q then String backslash (String q EmptyString)
  else if (n =? 9)%nat then String backslash "t"
  else if (n =? 10)%nat then String backslash "n"
  else if (n =? 13)%nat then String backslash "r"
  else if (n <? 32)%nat || (n =? 127)%nat then
    String backslash (String "x" (String (hex_digit (n / 16)) (String (hex_digit (n mod 16)) EmptyString)))
  else String c EmptyString.

Definition has_char (c : ascii) (s : string) : bool := existsb (Ascii.eqb c) (chars s).

Definition py_repr (s : string) : string :=
  let q := if has_char squote s && negb (has_char dquote s) then dquote else squote in
  String q (String.concat "" (map (repr_char q) (chars s)) +:+ String q EmptyString).

(** ** Reading the lines of a text file

    Not a builtin the program calls: the way the concatenation step of the
    encoder reads back the manifest [str_join "\n" parts], one entry per
    line, so that the manifest can be shown to hold exactly the parts. *)
Definition newline : ascii := ascii_of_nat 10.

Fixpoint lines_aux (cur : list ascii) (cs : list ascii) : list string :=
  match cs with
  | [] => [of_chars (rev cur)]
  | c :: cs' =>
      if Ascii.eqb c newline then of_chars (rev cur) :: lines_aux [] cs'
      else lines_aux (c :: cur) cs'
  end.

Definition lines (s : string) : list string := lines_aux [] (chars s).

(** ** Helper lemmas on byte strings *)

Lemma chars_app (a b : string) : chars (a +:+ b) = chars a ++ chars b.
Proof. induction a as [|c a IH]; simpl; [done | by rewrite IH]. Qed.

Lemma of_chars_app (l1 l2 : list ascii) :
  of_chars (l1 ++ l2) = of_chars l1 +:+ of_chars l2.
Proof. induction l1 as [|c l1 IH]; simpl; [done | by rewrite IH]. Qed.

Lemma of_chars_chars (s : string) : of_chars (chars s) = s.
Proof. apply string_of_list_ascii_of_string. Qed.

Lemma chars_of_chars (l : list ascii) : chars (of_chars l) = l.
Proof. apply list_ascii_of_string_of_list_ascii. Qed.

Lemma chars_length (s : string) : List.length (chars s) = String.length s.
Proof. induction s as [|c s IH]; simpl; [done | by rewrite IH]. Qed.

Lemma string_app_inv_l (a b1 b2 : string) : a +:+ b1 = a +:+ b2 -> b1 = b2.
Proof. induction a as [|c a IH]; simpl; [done | intros [= ?]; auto]. Qed.

Lemma chars_inj (s1 s2 : string) : chars s1 = chars s2 -> s1 = s2.
Proof. intros H. by rewrite <- (of_chars_chars s1), H, of_chars_chars. Qed.

#[export] Hint Rewrite chars_app of_chars_app of_chars_chars chars_of_chars chars_length
  : pyvid_rw.

Lemma has_char_app (c : ascii) (a b : string) :
  has_char c (a +:+ b) = has_char c a || has_char c b.
Proof. unfold has_char. by rewrite chars_app, existsb_app. Qed.

Lemma rfind_from_app (c : ascii) (i best : Z) (l1 l2 : list ascii) :
  rfind_from c i best (l1 ++ l2)
  = rfind_from c (i + Z.of_nat (List.length l1)) (rfind_from c i best l1) l2.
Proof.
  revert i best. induction l1 as [|x l1 IH]; intros i best; simpl.
  - by rewrite Z.add_0_r.
  - rewrite IH. f_equal. lia.
Qed.

Lemma rfind_from_absent (c : ascii) (i best : Z) (l : list ascii) :
  existsb (Ascii.eqb c) l = false -> rfind_from c i best l = best.
Proof.
  revert i. induction l as [|x l IH]; intros i; simpl; [done |].
  intros [Hx Hl]%orb_false_iff. rewrite Ascii.eqb_sym, Hx. auto.
Qed.

Lemma lower_app (a b : string) : lower (a +:+ b) = lower a +:+ lower b.
Proof. induction a as [|c a IH]; simpl; [done | by rewrite IH]. Qed.

Lemma substring_app_r (s t : string) (m : nat) :
  substring (String.length s) m (s +:+ t) = substring 0 m t.
Proof. induction s as [|c s IH]; simpl; auto. Qed.

Lemma substring_full (t : string) : substring 0 (String.length t) t = t.
Proof. induction t as [|c t IH]; simpl; [done | by rewrite IH]. Qed.

Lemma length_append (a b : string) :
  String.length (a +:+ b) = (String.length a + String.length b)%nat.
Proof. induction a as [|c a IH]; simpl; auto. Qed.

Lemma append_empty_r (s : string) : s +:+ "" = s.
Proof. induction s as [|c s IH]; [done | exact (f_equal (String c) IH)]. Qed.

(** ** Properties of the builtins *)

(** [s + t] ends with [t]. *)
Lemma endswith_app (s t : string) : endswith (s +:+ t) t = true.
Proof.
  unfold endswith. rewrite length_append.
  replace (String.length s + String.length t - String.length t)%nat
    with (String.length s) by lia.
  rewrite substring_app_r, substring_full, String.eqb_refl.
  apply andb_true_intro; split; [apply Nat.leb_le; lia | done].
Qed.

(** [splitext] splits: root and extension concatenate back to the path. *)
Theorem splitext_concat (p : string) : (splitext p).1 +:+ (splitext p).2 = p.
Proof.
  unfold splitext. repeat case_match; simpl.
  - by rewrite <- of_chars_app, take_drop, of_chars_chars.
  - apply append_empty_r.
  - apply append_empty_r.
Qed.

(** A file name [k.e] whose stem [k] has no separator and some character
    other than a dot, and whose extension [e] has no dot or separator,
    splits into [k] and [.e]: the key the code takes is the stem. *)
Theorem splitext_name (k e : string) :
  has_char "/" k = false -> has_char "/" e = false -> has_char "." e = false ->
  existsb (fun c => negb (Ascii.eqb c ".")) (chars k) = true ->
  splitext (k +:+ String "." e) = (k, String "." e).
Proof.
  intros Hk He1 He2 Hdot. unfold splitext, rfind.
  rewrite chars_app. cbn [list_ascii_of_string].
  rewrite !rfind_from_app, (rfind_from_absent "/" _ _ (chars k)) by done.
  cbn [rfind_from Ascii.eqb Bool.eqb].
  rewrite (rfind_from_absent "/" _ _ (chars e)), (rfind_from_absent "." _ _ (chars e))
    by done.
  destruct (Z.ltb_spec (-1) (0 + Z.of_nat (List.length (chars k)))) as [_|]; [| lia].
  replace (Z.to_nat (-1 + 1)) with 0%nat by lia.
  rewrite Z.add_0_l, Nat2Z.id, Nat.sub_0_r, drop_0, take_app_length, Hdot.
  rewrite drop_app_length, of_chars_chars. cbn [string_of_list_ascii]. by rewrite of_chars_chars.
Qed.

(** Joining a directory with two relative names gives equal paths only for
    equal names. *)
Lemma path_join_inj_r (a b1 b2 : string) :
  startswith b1 "/" = false -> startswith b2 "/" = false ->
  path_join a b1 = path_join a b2 -> b1 = b2.
Proof.
  unfold path_join. intros -> ->.
  case_match; [apply string_app_inv_l |].
  intros Hj. apply string_app_inv_l in Hj. by apply (string_app_inv_l "/").
Qed.

Lemma lines_aux_app (cur l rest : list ascii) :
  existsb (Ascii.eqb newline) l = false ->
  lines_aux cur (l ++ rest) = lines_aux (rev l ++ cur) rest.
Proof.
  revert cur. induction l as [|c l IH]; intros cur H; simpl; [done |].
  apply orb_false_iff in H as [H1 H2]. rewrite Ascii.eqb_sym, H1, IH by done.
  by rewrite <- app_assoc.
Qed.

(** Reading back the lines of [str_join "\n" l]
    gives [l], when [l] is not empty and no entry holds a newline. *)
Theorem lines_str_join (l : list string) :
  l <> [] -> Forall (fun p => has_char newline p = false) l ->
  lines (str_join (String newline EmptyString) l) = l.
Proof.
  unfold lines. induction l as [|p l IH]; intros Hne HF; [done |].
  apply Forall_cons in HF as [Hp HF].
  destruct l as [|q l].
  - change (str_join _ [p]) with p.
    rewrite <- (app_nil_r (chars p)), lines_aux_app by done.
    cbn [lines_aux]. by rewrite !app_nil_r, rev_involutive, of_chars_chars.
  - change (str_join ?sep (p :: q :: l)) with (p +:+ sep +:+ str_join sep (q :: l)).
    rewrite chars_app, lines_aux_app by done.
    change (chars (String newline EmptyString +:+ ?x)) with (newline :: chars x).
    cbn [lines_aux]. rewrite Ascii.eqb_refl, app_nil_r, rev_involutive, of_chars_chars.
    f_equal. by apply IH.
Qed.

Lemma string_app_inv_r (a1 a2 b : string) : a1 +:+ b = a2 +:+ b -> a1 = a2.
Proof.
  intros H. apply (f_equal chars) in H. rewrite !chars_app in H.
  apply app_inv_tail in H. by apply chars_inj.
Qed.

(** Joining a relative, non-empty name gives a different path. *)
Lemma path_join_neq_l (a b : string) :
  startswith b "/" = false -> b <> "" -> path_join a b <> a.
Proof.
  unfold path_join. intros Hs Hb. rewrite Hs.
  assert (0 < String.length b)%nat by (destruct b; [done | simpl; lia]).
  destruct (_ || _); intros Heq; apply (f_equal String.length) in Heq;
    rewrite ?length_append in Heq; simpl in Heq; rewrite ?length_append in Heq; lia.
Qed.

(** [os.path.join] adds no character that neither part holds, but ["/"]. *)
Lemma has_char_path_join (c : ascii) (a b : string) :
  has_char c a = false -> has_char c b = false -> has_char c "/" = false ->
  has_char c (path_join a b) = false.
Proof.
  intros Ha Hb Hs. unfold path_join.
  repeat case_match; rewrite ?has_char_app, ?Ha, ?Hb, ?Hs; done.
Qed.
