(* ===== verification/PyInt.v ===== *)
(** * [int(s)] of a string, in base 10

    The sort key of the discovered segments, [lambda x: int(x)]
    (src/GHEP-VIDEO-ANH.py, line 19), and the reading of the three effect
    counts typed in the form, [int(zoom_entry.get())] (lines 128-130).
    CPython's [PyLong_FromString] with base 10:
    - leading whitespace is skipped (ASCII space, \t \n \v \f \r, and the
      separators 0x1c-0x1f that [str.isspace] also accepts);
    - one optional sign [+] or [-];
    - a run of digits and underscores: no leading, trailing or doubled
      underscore, at least one digit;
    - trailing whitespace, then the end of the string;
    - at most [sys.get_int_max_str_digits()] = 4300 digits, else a
      [ValueError] with its own message (checked after the syntax, and
      also when the text stops at an embedded NUL);
    - any other text raises [ValueError("invalid literal for int() with
      base 10: %.200R")].
    Unicode whitespace and Unicode decimal digits, which CPython first
    maps to ASCII, are not modelled: a non-ASCII byte is an invalid
    character here. *)

From stdpp Require Import base list strings pretty.
From Stdlib Require Import Ascii String ZArith.
From S2P Require Import Prelude PyStr.

Definition is_py_space (c : ascii) : bool :=
  let n := nat_of_ascii c in
  (n =? 32)%nat || ((9 <=? n)%nat && (n <=? 13)%nat) || ((28 <=? n)%nat && (n <=? 31)%nat).

Definition is_digit (c : ascii) : bool :=
  let n := nat_of_ascii c in (48 <=? n)%nat && (n <=? 57)%nat.

Definition is_underscore (c : ascii) : bool := Ascii.eqb c "_".

Definition is_nul (c : ascii) : bool := (nat_of_ascii c =? 0)%nat.

Definition int_max_str_digits : nat := 4300.

Fixpoint drop_spaces (cs : list ascii) : list ascii :=
  match cs with
  | c :: cs' => if is_py_space c then drop_spaces cs' else cs
  | [] => []
  end.

(** The optional sign; [true] for a minus. *)
Definition take_sign (cs : list ascii) : bool * list ascii :=
  match cs with
  | c :: cs' =>
      if Ascii.eqb c "+" then (false, cs')
      else if Ascii.eqb c "-" then (true, cs')
      else (false, cs)
  | [] => (false, [])
  end.

(** The validation loop of [long_from_string_base]: the longest prefix of
    digits and underscores, and what follows it. *)
Fixpoint span_digits (cs : list ascii) : list ascii * list ascii :=
  match cs with
  | c :: cs' =>
      if is_digit c || is_underscore c then
        let '(run, rest) := span_digits cs' in (c :: run, rest)
      else ([], cs)
  | [] => ([], [])
  end.

(** The underscore rules on that run, [prev] telling whether the previous
    character was an underscore.  Starting with [prev = true] rejects a
    leading underscore as CPython's separate check does; ending with
    [prev = true] is a trailing underscore. *)
Fixpoint underscores_ok (prev : bool) (run : list ascii) : bool :=
  match run with
  | [] => negb prev
  | c :: run' =>
      if is_underscore c then negb prev && underscores_ok true run'
      else underscores_ok false run'
  end.

Definition valid_run (run : list ascii) : bool :=
  negb (bool_decide (run = [])) && underscores_ok true run.

Definition digits_value (ds : list ascii) : Z :=
  foldl (fun acc c => 10 * acc + (Z.of_nat (nat_of_ascii c) - 48))%Z 0%Z ds.

Definition invalid_literal (s : string) : py_exc :=
  PyExc ValueError ("invalid literal for int() with base 10: " +:+ substring 0 200 (py_repr s)).

Definition too_many_digits (n : nat) : py_exc :=
  PyExc ValueError ("Exceeds the limit (4300 digits) for integer string conversion: value has "
    +:+ pretty n +:+ " digits; use sys.set_int_max_str_digits() to increase the limit").

(** [int(s)] *)
Definition py_int (s : string) : pyres Z :=
  let '(neg, body) := take_sign (drop_spaces (chars s)) in
  let '(run, rest) := span_digits body in
  let ds := filter (fun c => is_digit c = true) run in
  if negb (valid_run run) then Raise (invalid_literal s)
  else
    match drop_spaces rest with
    | [] =>
        if (int_max_str_digits <? List.length ds)%nat then Raise (too_many_digits (List.length ds))
        else Ok (if neg then - digits_value ds else digits_value ds)%Z
    | c :: _ =>
        if is_nul c && (int_max_str_digits <? List.length ds)%nat
        then Raise (too_many_digits (List.length ds))
        else Raise (invalid_literal s)
    end.

(** ** Properties of [int()] *)

(** A literal [int()] reads as its digits: some ASCII digits, within the
    limit on their number. *)
Definition decimal_literal (ds : list ascii) : Prop :=
  ds <> [] /\ Forall (fun c => is_digit c = true) ds /\ (List.length ds <= int_max_str_digits)%nat.

Lemma digit_classes (c : ascii) :
  is_digit c = true ->
  is_py_space c = false /\ is_underscore c = false /\
  Ascii.eqb c "+" = false /\ Ascii.eqb c "-" = false.
Proof.
  unfold is_digit, is_py_space, is_underscore. intros Hd.
  apply andb_prop in Hd as [H1 H2]. apply Nat.leb_le in H1, H2.
  repeat split.
  - repeat apply orb_false_intro; try apply andb_false_iff;
      rewrite ?Nat.eqb_neq, ?Nat.leb_gt; lia.
  - destruct (Ascii.eqb_spec c "_"); [subst; cbv in H1, H2; lia | done].
  - destruct (Ascii.eqb_spec c "+"); [subst; cbv in H1, H2; lia | done].
  - destruct (Ascii.eqb_spec c "-"); [subst; cbv in H1, H2; lia | done].
Qed.

Lemma span_digits_all (ds : list ascii) :
  Forall (fun c => is_digit c = true) ds -> span_digits ds = (ds, []).
Proof. induction 1 as [|c ds Hc _ IH]; simpl; [done |]. by rewrite Hc, IH. Qed.

Lemma underscores_ok_digits (prev : bool) (ds : list ascii) :
  Forall (fun c => is_digit c = true) ds -> ds <> [] -> underscores_ok prev ds = true.
Proof.
  intros Hall. revert prev. induction Hall as [|c ds Hc Hds IH]; intros prev Hne; [done |].
  simpl. destruct (digit_classes c Hc) as (_ & -> & _).
  destruct ds; [done | by apply IH].
Qed.

(** [int()] raises nothing but [ValueError]. *)
Theorem py_int_raises_ValueError (s : string) (e : py_exc) :
  py_int s = Raise e -> exc_cls e = ValueError.
Proof. unfold py_int. intros H. repeat case_match; simplify_eq; done. Qed.

(** A non-empty string of at most 4300 ASCII digits is read as its decimal
    value. *)
Lemma py_int_digits (ds : list ascii) :
  decimal_literal ds -> py_int (of_chars ds) = Ok (digits_value ds).
Proof.
  intros (Hne & Hall & Hlen). unfold py_int. rewrite chars_of_chars.
  destruct ds as [|c ds']; [done |].
  pose proof (Forall_inv Hall) as Hc. destruct (digit_classes c Hc) as (Hs & _ & Hp & Hm).
  simpl drop_spaces. rewrite Hs. simpl take_sign. rewrite Hp, Hm.
  rewrite span_digits_all by done.
  rewrite (filter_all _ _ Hall). unfold valid_run.
  rewrite underscores_ok_digits by done. simpl.
  destruct (Nat.ltb_spec int_max_str_digits (S (List.length ds'))); [simpl in *; lia | done].
Qed.
