(* ===== verification/Effects.v ===== *)
(** * Effect assignment: Python slicing of the shuffled keys

    Lines 23-28 of src/GHEP-VIDEO-ANH.py:
<<
    available_keys = keys.copy()
    random.shuffle(available_keys)
    zoom_keys = set(str(k) for k in available_keys[:zoom_count])
    pan_keys = set(str(k) for k in available_keys[zoom_count:zoom_count + pan_count])
    shake_keys = set(str(k) for k in available_keys[zoom_count + pan_count:
                                                    zoom_count + pan_count + shake_count])
>>
    The counts are Python [int]s ([Z]) read from the form; nothing checks
    their sign, and a slice bound below zero counts from the end of the
    list, as [PySlice_AdjustIndices] does.  The shuffle is the caller's
    argument here (any permutation; see [Pipeline]).  [str(k)] of a [str]
    is [k]. *)

From stdpp Require Import base list gmap sets strings.
From Stdlib Require Import ZArith.
From S2P Require Import Prelude.

Local Open Scope Z_scope.

(** ** [l[start:stop]] *)

(** [PySlice_AdjustIndices] for one bound: a negative index counts from the
    end, and the result is clamped to [0, len]. *)
Definition adjust_index (len i : Z) : Z :=
  if i <? 0 then Z.max 0 (i + len) else Z.min i len.

Definition py_slice {A} (l : list A) (start stop : option Z) : list A :=
  let n := Z.of_nat (length l) in
  let b := match start with None => 0 | Some i => adjust_index n i end in
  let e := match stop with None => n | Some j => adjust_index n j end in
  take (Z.to_nat (e - b)) (drop (Z.to_nat b) l).

(** ** The three effect groups *)
Record effect_groups := EffectGroups {
  zoom_keys : gset string;
  pan_keys : gset string;
  shake_keys : gset string
}.

Definition assign_effects (available_keys : list string) (zoom_count pan_count shake_count : Z)
    : effect_groups :=
  {| zoom_keys := list_to_set (py_slice available_keys None (Some zoom_count));
     pan_keys := list_to_set (py_slice available_keys (Some zoom_count)
                                (Some (zoom_count + pan_count)));
     shake_keys := list_to_set (py_slice available_keys (Some (zoom_count + pan_count))
                                  (Some (zoom_count + pan_count + shake_count))) |}.

(** ** Slicing with non-negative bounds *)

Lemma take_min_length {A} (k : nat) (l : list A) : take (k `min` length l) l = take k l.
Proof.
  destruct (decide (k <= length l)%nat).
  - by rewrite Nat.min_l.
  - rewrite Nat.min_r by lia. rewrite take_ge, take_ge by lia. done.
Qed.

(** With [0 <= i <= j], [l[i:j]] is the [j - i] elements after the first [i]. *)
Lemma py_slice_nonneg {A} (l : list A) (i j : Z) :
  0 <= i <= j ->
  py_slice l (Some i) (Some j) = take (Z.to_nat (j - i)) (drop (Z.to_nat i) l).
Proof.
  intros Hij. unfold py_slice, adjust_index.
  destruct (Z.ltb_spec i 0); [lia |]. destruct (Z.ltb_spec j 0); [lia |].
  destruct (decide (Z.of_nat (length l) <= i)).
  - rewrite (Z.min_r j), (Z.min_r i) by lia.
    rewrite Z.sub_diag, (drop_ge l (Z.to_nat i)), drop_ge by lia. by rewrite !take_nil.
  - rewrite (Z.min_l i) by lia.
    rewrite <- (take_min_length (Z.to_nat (j - i))), length_drop. f_equal. lia.
Qed.

Lemma py_slice_prefix {A} (l : list A) (j : Z) :
  0 <= j -> py_slice l None (Some j) = take (Z.to_nat j) l.
Proof.
  intros Hj. unfold py_slice, adjust_index.
  destruct (Z.ltb_spec j 0); [lia |].
  rewrite drop_0, <- (take_min_length (Z.to_nat j)). f_equal. lia.
Qed.

(** With non-negative counts the shuffled list is cut into the zoom group,
    the pan group, the shake group and the unassigned rest, in that order. *)
Lemma assign_effects_split (l : list string) (z p s : Z) :
  0 <= z -> 0 <= p -> 0 <= s ->
  l = py_slice l None (Some z) ++ py_slice l (Some z) (Some (z + p))
      ++ py_slice l (Some (z + p)) (Some (z + p + s)) ++ drop (Z.to_nat (z + p + s)) l.
Proof.
  intros Hz Hp Hs.
  rewrite py_slice_prefix, !py_slice_nonneg by lia.
  replace (Z.to_nat (z + p + s)) with (Z.to_nat (z + p) + Z.to_nat (z + p + s - (z + p)))%nat
    by lia.
  rewrite <- drop_drop, take_drop.
  replace (Z.to_nat (z + p)) with (Z.to_nat z + Z.to_nat (z + p - z))%nat by lia.
  rewrite <- drop_drop, take_drop, take_drop. done.
Qed.

(** ** The groups are disjoint and as large as the keys allow *)

(** The slices of a duplicate-free list, split as above, have no element in
    common. *)
Lemma NoDup_app4 {A} (l1 l2 l3 l4 : list A) :
  NoDup (l1 ++ l2 ++ l3 ++ l4) ->
  (forall x, x ∈ l1 -> (x ∉ l2) /\ (x ∉ l3)) /\ (forall x, x ∈ l2 -> x ∉ l3).
Proof.
  intros (H1 & H12 & (H2 & H23 & _)%NoDup_app)%NoDup_app.
  split; intros x Hx; [| set_solver]. specialize (H12 x Hx). set_solver.
Qed.

(** C6. With non-negative counts and duplicate-free keys (they come from a
    set), no key is in two effect groups. *)
Theorem assign_effects_disjoint (l : list string) (z p s : Z) :
  NoDup l -> 0 <= z -> 0 <= p -> 0 <= s ->
  zoom_keys (assign_effects l z p s) ## pan_keys (assign_effects l z p s) /\
  zoom_keys (assign_effects l z p s) ## shake_keys (assign_effects l z p s) /\
  pan_keys (assign_effects l z p s) ## shake_keys (assign_effects l z p s).
Proof.
  intros Hnd Hz Hp Hs. rewrite (assign_effects_split l z p s) in Hnd by done.
  apply NoDup_app4 in Hnd as [H1 H2]. simpl.
  split_and!; intros x Hx1 Hx2; rewrite elem_of_list_to_set in Hx1, Hx2;
    [apply (proj1 (H1 x Hx1)) | apply (proj2 (H1 x Hx1)) | apply (H2 x Hx1)]; done.
Qed.

Lemma py_slice_NoDup (l : list string) (start stop : option Z) :
  NoDup l -> NoDup (py_slice l start stop).
Proof.
  intros Hnd. unfold py_slice. eapply sublist_NoDup; [exact Hnd |].
  etrans; [apply sublist_take | apply sublist_drop].
Qed.

(** C7. The sizes the spec states: the zoom group has [min(zoom_count, n)]
    keys, the pan group [min(pan_count, n - zoom_count)], the shake group
    [min(shake_count, n - zoom_count - pan_count)] (truncated at zero). *)
Theorem assign_effects_sizes (l : list string) (z p s : Z) :
  NoDup l -> 0 <= z -> 0 <= p -> 0 <= s ->
  size (zoom_keys (assign_effects l z p s)) = (Z.to_nat z `min` length l)%nat /\
  size (pan_keys (assign_effects l z p s)) = (Z.to_nat p `min` (length l - Z.to_nat z))%nat /\
  size (shake_keys (assign_effects l z p s))
    = (Z.to_nat s `min` (length l - Z.to_nat (z + p)))%nat.
Proof.
  intros Hnd Hz Hp Hs. simpl.
  rewrite !size_list_to_set by (apply py_slice_NoDup, Hnd).
  rewrite py_slice_prefix, !py_slice_nonneg by lia.
  rewrite !length_take, !length_drop. split_and!; lia.
Qed.

(** ** Negative counts *)

(** C31. The form accepts any integer, and a negative count is a bound from
    the end of the list: a zoom count of [-k] puts all keys but the last [k]
    in the zoom group. *)
Theorem assign_effects_negative_zoom (l : list string) (k : Z) (p s : Z) :
  0 < k <= Z.of_nat (length l) ->
  zoom_keys (assign_effects l (- k) p s) = list_to_set (take (length l - Z.to_nat k) l).
Proof.
  intros Hk. simpl. unfold py_slice, adjust_index.
  destruct (Z.ltb_spec (- k) 0); [| lia].
  rewrite drop_0. do 2 f_equal. lia.
Qed.


(** ** Witnesses *)

Lemma assign_effects_disjoint_witness :
  zoom_keys (assign_effects ["1"; "2"; "3"] 1 1 1) ## pan_keys (assign_effects ["1"; "2"; "3"] 1 1 1) /\
  zoom_keys (assign_effects ["1"; "2"; "3"] 1 1 1) ## shake_keys (assign_effects ["1"; "2"; "3"] 1 1 1) /\
  pan_keys (assign_effects ["1"; "2"; "3"] 1 1 1) ## shake_keys (assign_effects ["1"; "2"; "3"] 1 1 1).
Proof.
  apply assign_effects_disjoint; [apply (bool_decide_unpack _); vm_compute; reflexivity | lia ..].
Defined.

(** The spec's scenario: two keys, five zooms requested. *)
Lemma assign_effects_sizes_witness :
  size (zoom_keys (assign_effects ["1"; "2"] 5 0 0)) = (Z.to_nat 5 `min` length ["1"; "2"])%nat /\
  size (pan_keys (assign_effects ["1"; "2"] 5 0 0)) = (Z.to_nat 0 `min` (length ["1"; "2"] - Z.to_nat 5))%nat /\
  size (shake_keys (assign_effects ["1"; "2"] 5 0 0))
    = (Z.to_nat 0 `min` (length ["1"; "2"] - Z.to_nat (5 + 0)))%nat.
Proof.
  apply assign_effects_sizes; [apply (bool_decide_unpack _); vm_compute; reflexivity | lia ..].
Defined.

Lemma assign_effects_negative_zoom_witness :
  zoom_keys (assign_effects ["1"; "2"; "3"] (- 1) 0 0)
  = list_to_set (take (length ["1"; "2"; "3"] - Z.to_nat 1) ["1"; "2"; "3"]).
Proof. apply (assign_effects_negative_zoom _ 1). simpl. lia. Defined.
