(* ===== verification/Discovery.v ===== *)
(** * Segment discovery: pairing images with audio and sorting the keys

    Lines 15-19 of src/GHEP-VIDEO-ANH.py:
<<
    files = os.listdir(input_folder)
    images = {os.path.splitext(f)[0]: os.path.join(input_folder, f)
              for f in files if f.lower().endswith('.jpg')}
    audios = {os.path.splitext(f)[0]: os.path.join(input_folder, f)
              for f in files if f.lower().endswith('.mp3')}
    keys = sorted(set(images.keys()) & set(audios.keys()), key=lambda x: int(x))
>>
    A dict comprehension is a left fold of insertions (a later file with the
    same stem replaces an earlier one); the intersection is a set whose
    iteration order CPython does not fix, so it is an argument [set_iter]
    of the discovery, any enumeration of the set; [sorted] computes every
    key with [int] in that order, raising the first [ValueError], and then
    sorts stably.  The stable sort is an insertion sort here, and
    [py_sorted_int_stable] shows that every stable sort (CPython's Timsort
    among them) returns the same list.  [discover_pairs] reads the
    discovery on a folder laid out as the tool expects. *)

From stdpp Require Import base list gmap sets strings sorting.
From Stdlib Require Import Ascii String ZArith.
From S2P Require Import Prelude PyStr PyInt.

Local Open Scope Z_scope.

(** ** Classifying directory entries *)
Definition is_image (f : string) : bool := endswith (lower f) ".jpg".
Definition is_audio (f : string) : bool := endswith (lower f) ".mp3".

(** [{splitext(f)[0]: join(input_folder, f) for f in files if pred(f)}] *)
Definition build_map (input_folder : string) (pred : string -> bool) (files : list string)
    : gmap string string :=
  foldl (fun m f => if pred f then <[(splitext f).1 := path_join input_folder f]> m else m)
    ∅ files.

Definition images_of (input_folder : string) (files : list string) : gmap string string :=
  build_map input_folder is_image files.

Definition audios_of (input_folder : string) (files : list string) : gmap string string :=
  build_map input_folder is_audio files.

(** [set(images.keys()) & set(audios.keys())] *)
Definition common_keys (images audios : gmap string string) : gset string :=
  dom images ∩ dom audios.

(** ** [sorted(it, key=lambda x: int(x))] *)

(** The keys, computed in iteration order; the first failure is raised. *)
Fixpoint decorate (l : list string) : pyres (list (Z * string)) :=
  match l with
  | [] => Ok []
  | x :: l' =>
      z <-! py_int x ;;
      rest <-! decorate l' ;;
      Ok ((z, x) :: rest)
  end.

(** Stable insertion: [p] goes before the first element whose key is not
    smaller, so an element stays ahead of the later ones with its key. *)
Fixpoint insert_key (p : Z * string) (l : list (Z * string)) : list (Z * string) :=
  match l with
  | [] => [p]
  | q :: l' => if p.1 <=? q.1 then p :: l else q :: insert_key p l'
  end.

Fixpoint sort_by_key (l : list (Z * string)) : list (Z * string) :=
  match l with
  | [] => []
  | p :: l' => insert_key p (sort_by_key l')
  end.

Definition py_sorted_int (l : list string) : pyres (list string) :=
  dl <-! decorate l ;; Ok (map snd (sort_by_key dl)).

(** ** Discovery, from the directory listing to the sorted keys *)
Record discovery := Discovery {
  images : gmap string string;
  audios : gmap string string;
  keys : list string
}.

Definition discover (set_iter : gset string -> list string) (input_folder : string)
    (files : list string) : pyres discovery :=
  let images := images_of input_folder files in
  let audios := audios_of input_folder files in
  keys <-! py_sorted_int (set_iter (common_keys images audios)) ;;
  Ok {| images := images; audios := audios; keys := keys |}.

(** The value of [int(x)] when it has one. *)
Definition int_val (x : string) : Z :=
  match py_int x with Ok z => z | Raise _ => 0 end.

Definition sample_listing : list string := ["2.jpg"; "1.mp3"; "1.JPG"; "2.mp3"; "3.jpg"].

Definition sample_discovery : discovery :=
  {| images := images_of "/in" sample_listing;
     audios := audios_of "/in" sample_listing;
     keys := ["1"; "2"] |}.

(** A folder laid out as the tool expects: for each stem [k], the pair
    [k.jpg], [k.mp3]; a stem holds no separator and is not only dots. *)
Definition stem_ok (k : string) : bool :=
  negb (has_char "/" k) && existsb (fun c => negb (Ascii.eqb c ".")) (chars k).

Definition pair_listing (ks : list string) : list string :=
  flat_map (fun k => [k +:+ ".jpg"; k +:+ ".mp3"]) ks.

(** ** The stable sort *)

Definition key_le (a b : Z * string) : Prop := a.1 <= b.1.

#[export] Instance key_le_trans : Transitive key_le.
Proof. unfold key_le. intros ???. lia. Qed.

Lemma insert_key_perm (p : Z * string) (l : list (Z * string)) : insert_key p l ≡ₚ p :: l.
Proof.
  induction l as [|q l IH]; simpl; [done |].
  case_match; [done |]. rewrite IH. constructor.
Qed.

Lemma sort_by_key_perm (l : list (Z * string)) : sort_by_key l ≡ₚ l.
Proof. induction l as [|p l IH]; simpl; [done |]. by rewrite insert_key_perm, IH. Qed.

Lemma insert_key_HdRel (q p : Z * string) (l : list (Z * string)) :
  key_le q p -> HdRel key_le q l -> HdRel key_le q (insert_key p l).
Proof.
  intros Hqp Hl. destruct l as [|r l]; simpl; [by constructor |].
  case_match; constructor; [done | by inversion Hl].
Qed.

Lemma insert_key_sorted (p : Z * string) (l : list (Z * string)) :
  Sorted key_le l -> Sorted key_le (insert_key p l).
Proof.
  induction 1 as [|q l Hl IH Hhd]; simpl; [by repeat constructor |].
  destruct (Z.leb_spec p.1 q.1).
  - constructor; [by constructor | by constructor].
  - constructor; [done |]. apply insert_key_HdRel; [unfold key_le; lia | done].
Qed.

Lemma sort_by_key_sorted (l : list (Z * string)) : Sorted key_le (sort_by_key l).
Proof. induction l; simpl; [constructor | by apply insert_key_sorted]. Qed.

(** Inserting keeps, for every key value, the order of the elements with
    that value: the elements [p] is moved past have smaller keys. *)
Lemma insert_key_filter (p : Z * string) (l : list (Z * string)) (v : Z) :
  filter (fun x => x.1 = v) (insert_key p l) = filter (fun x => x.1 = v) (p :: l).
Proof.
  induction l as [|q l IH]; simpl; [done |].
  destruct (Z.leb_spec p.1 q.1); [done |].
  rewrite !filter_cons, IH, filter_cons.
  repeat case_decide; simplify_eq/=; try done; lia.
Qed.

(** Stability: per key value, the sorted list keeps the input order. *)
Lemma sort_by_key_stable (l : list (Z * string)) (v : Z) :
  filter (fun x => x.1 = v) (sort_by_key l) = filter (fun x => x.1 = v) l.
Proof.
  induction l as [|p l IH]; simpl; [done |].
  by rewrite insert_key_filter, !filter_cons, IH.
Qed.

(** Two lists sorted by key that agree, for every key value, on the
    sequence of elements with that value, are equal. *)
Lemma sorted_stable_unique (r s : list (Z * string)) :
  Sorted key_le r -> Sorted key_le s ->
  (forall v, filter (fun x => x.1 = v) r = filter (fun x => x.1 = v) s) -> r = s.
Proof.
  intros Hr%Sorted_StronglySorted Hs%Sorted_StronglySorted; [| apply _ ..].
  revert s Hs. induction Hr as [|a r' Hr' IH Ha]; intros s Hs Hf.
  - destruct s as [|b s']; [done |]. specialize (Hf b.1).
    by rewrite filter_cons_True in Hf.
  - destruct Hs as [|b s' Hs' Hb].
    + specialize (Hf a.1). by rewrite filter_cons_True in Hf.
    + assert (key_le a b) as Hab.
      { assert (b ∈ filter (fun x => x.1 = b.1) (a :: r')) as [_ Hin]%list_elem_of_filter.
        { rewrite Hf. apply list_elem_of_filter. by split; [| left]. }
        apply elem_of_cons in Hin as [->|Hin]; [unfold key_le; lia |].
        by apply (proj1 (Forall_forall _ _) Ha). }
      assert (key_le b a) as Hba.
      { assert (a ∈ filter (fun x => x.1 = a.1) (b :: s')) as [_ Hin]%list_elem_of_filter.
        { rewrite <- Hf. apply list_elem_of_filter. by split; [| left]. }
        apply elem_of_cons in Hin as [->|Hin]; [unfold key_le; lia |].
        by apply (proj1 (Forall_forall _ _) Hb). }
      unfold key_le in Hab, Hba.
      pose proof (Hf a.1) as Ha1. rewrite !filter_cons_True in Ha1 by (simpl; lia).
      injection Ha1 as <- _. f_equal. apply IH; [done |]. intros v.
      specialize (Hf v). rewrite !filter_cons in Hf. case_decide; [by simplify_eq | done].
Qed.

(** Any stable sort returns the list this insertion sort returns: a list
    sorted by key that keeps the input order within each key value is
    [sort_by_key l]. *)
Lemma sort_by_key_unique (l r : list (Z * string)) :
  Sorted key_le r ->
  (forall v, filter (fun x => x.1 = v) r = filter (fun x => x.1 = v) l) ->
  r = sort_by_key l.
Proof.
  intros Hr Hf. apply sorted_stable_unique; [done | apply sort_by_key_sorted |].
  intros v. by rewrite Hf, sort_by_key_stable.
Qed.

(** ** [sorted(..., key=int)] on the keys *)

Lemma decorate_Ok (l : list string) (dl : list (Z * string)) :
  decorate l = Ok dl ->
  dl = map (fun x => (int_val x, x)) l /\ Forall (fun x => exists z, py_int x = Ok z) l.
Proof.
  revert dl. induction l as [|x l IH]; intros dl H; simpl in H; [by simplify_eq |].
  unfold rbind in H. destruct (py_int x) as [z|] eqn:Hx; [| done].
  destruct (decorate l) as [dl'|]; [| done]. simplify_eq.
  destruct (IH dl' eq_refl) as [-> Hall]. simpl map.
  assert (int_val x = z) as -> by (unfold int_val; by rewrite Hx).
  split; [done | constructor; eauto].
Qed.

Lemma decorate_Raise (l : list string) :
  (exists x, x ∈ l /\ exists e, py_int x = Raise e) ->
  exists e, decorate l = Raise e /\ exc_cls e = ValueError.
Proof.
  induction l as [|y l IH]; intros (x & Hin & e & He); [set_solver |]. simpl. unfold rbind.
  destruct (py_int y) as [z|e'] eqn:Hy.
  - apply elem_of_cons in Hin as [->|Hin]; [congruence |].
    destruct IH as (e'' & -> & Hc); [eauto | eauto].
  - exists e'. split; [done |]. by eapply py_int_raises_ValueError.
Qed.

(** A permutation of copies of one element is the list itself. *)
Lemma perm_const {A} (l1 l2 : list A) (a : A) :
  l1 ≡ₚ l2 -> Forall (fun b => b = a) l1 -> l1 = l2.
Proof.
  intros Hp Hall. assert (Forall (fun b => b = a) l2) as Hall2 by (by rewrite <- Hp).
  rewrite Forall_forall in Hall, Hall2.
  transitivity (replicate (List.length l1) a).
  - symmetry. by apply replicate_as_elem_of.
  - apply replicate_as_elem_of. split; [by rewrite Hp | done].
Qed.

Lemma sorted_snd (l : list (Z * string)) :
  Sorted key_le l -> Forall (fun p => p.1 = int_val p.2) l ->
  Sorted (fun a b => int_val a <= int_val b) (map snd l).
Proof.
  induction 1 as [|p l Hl IH Hhd]; intros Hall; simpl; [constructor |].
  apply Forall_cons in Hall as [Hp Hall]. constructor; [by apply IH |].
  destruct Hhd as [|q l' Hq]; simpl; constructor.
  apply Forall_cons in Hall as [Hq' _]. unfold key_le in Hq. lia.
Qed.

(** The sorted keys are the input keys, in ascending order of [int]. *)
Theorem py_sorted_int_spec (l r : list string) :
  py_sorted_int l = Ok r ->
  r ≡ₚ l /\ Sorted (fun a b => int_val a <= int_val b) r.
Proof.
  unfold py_sorted_int, rbind. destruct (decorate l) as [dl|] eqn:Hd; [| done].
  intros [= <-]. destruct (decorate_Ok l dl Hd) as [-> _]. split.
  - rewrite sort_by_key_perm, map_map. simpl. by rewrite map_id.
  - apply sorted_snd; [apply sort_by_key_sorted |].
    rewrite sort_by_key_perm. apply Forall_map, Forall_forall. done.
Qed.

(** C21. When no two keys have the same [int] value, the sorted list does not
    depend on the order in which the set of keys was enumerated. *)
Theorem py_sorted_int_perm (l1 l2 r1 r2 : list string) :
  l1 ≡ₚ l2 ->
  (forall x y, x ∈ l1 -> y ∈ l1 -> int_val x = int_val y -> x = y) ->
  py_sorted_int l1 = Ok r1 -> py_sorted_int l2 = Ok r2 -> r1 = r2.
Proof.
  intros Hp Hinj. unfold py_sorted_int, rbind.
  destruct (decorate l1) as [d1|] eqn:H1, (decorate l2) as [d2|] eqn:H2; try done.
  intros [= <-] [= <-].
  destruct (decorate_Ok _ _ H1) as [-> _], (decorate_Ok _ _ H2) as [-> _].
  f_equal. apply sorted_stable_unique; [apply sort_by_key_sorted .. |]. intros v.
  rewrite !sort_by_key_stable.
  destruct (filter (fun x => x.1 = v) (map (fun x => (int_val x, x)) l1)) as [|a f] eqn:Hf.
  - symmetry. apply (Permutation_nil_r). rewrite <- Hf. by rewrite Hp.
  - rewrite <- Hf. apply (perm_const _ _ a); [by rewrite Hp |].
    apply Forall_forall. intros b Hb.
    assert (a ∈ filter (fun x => x.1 = v) (map (fun x => (int_val x, x)) l1)) as Ha
      by (rewrite Hf; left).
    apply list_elem_of_filter in Ha as [Hav (xa & -> & Hxa)%list_elem_of_fmap].
    apply list_elem_of_filter in Hb as [Hbv (xb & -> & Hxb)%list_elem_of_fmap].
    simpl in *. f_equal; [lia |]. apply Hinj; [done | done | lia].
Qed.


(** The keys as [sorted] decorates them. *)
Lemma filter_decorated (r : list string) (v : Z) :
  filter (fun x => x.1 = v) (map (fun x => (int_val x, x)) r)
  = map (fun x => (int_val x, x)) (filter (fun x => int_val x = v) r).
Proof.
  induction r as [|x r IH]; [done |]. cbn [map]. rewrite !filter_cons. cbn [fst].
  case_decide; by rewrite IH.
Qed.

Lemma sorted_decorated (r : list string) :
  Sorted (fun a b => int_val a <= int_val b) r -> Sorted key_le (map (fun x => (int_val x, x)) r).
Proof.
  induction 1 as [|x r Hr IH Hhd]; cbn [map]; constructor; [done |].
  destruct Hhd; constructor. done.
Qed.

(** C22. [sorted(keys, key=int)] is the one list that every stable sort
    gives: a list of the keys in ascending [int] value that keeps the
    input order among keys of equal value is what the model returns, so
    modelling Python's sort by an insertion sort loses nothing. *)
Theorem py_sorted_int_stable (l out r : list string) :
  py_sorted_int l = Ok out ->
  Sorted (fun a b => int_val a <= int_val b) r ->
  (forall v, filter (fun x => int_val x = v) r = filter (fun x => int_val x = v) l) ->
  r = out.
Proof.
  unfold py_sorted_int, rbind. destruct (decorate l) as [dl|] eqn:Hd; [| done].
  intros [= <-] Hr Hf. destruct (decorate_Ok _ _ Hd) as [-> _].
  rewrite <- (sort_by_key_unique (map (fun x => (int_val x, x)) l)
                                 (map (fun x => (int_val x, x)) r)).
  - rewrite map_map. symmetry. apply map_id.
  - by apply sorted_decorated.
  - intros v. by rewrite !filter_decorated, Hf.
Qed.

(** ** The dict comprehensions *)

(** The entry of a stem is the path of the last listed file with that stem
    that the predicate accepts: a later file replaces an earlier one. *)
Lemma build_map_lookup (input_folder : string) (pred : string -> bool) (files : list string)
    (k : string) :
  build_map input_folder pred files !! k
  = path_join input_folder <$> last (filter (fun f => pred f = true /\ (splitext f).1 = k) files).
Proof.
  unfold build_map. induction files as [|f files IH] using rev_ind; [done |].
  rewrite foldl_app, filter_app. simpl. rewrite filter_cons.
  destruct (pred f) eqn:Hf.
  - rewrite lookup_insert.
    repeat case_decide; cbn [filter list_filter]; rewrite ?app_nil_r;
      first [by rewrite last_snoc | done | naive_solver].
  - repeat case_decide; cbn [filter list_filter]; rewrite ?app_nil_r; first [done | naive_solver].
Qed.

Lemma build_map_dom (input_folder : string) (pred : string -> bool) (files : list string)
    (k : string) :
  k ∈ dom (build_map input_folder pred files)
  <-> exists f, f ∈ files /\ pred f = true /\ (splitext f).1 = k.
Proof.
  rewrite elem_of_dom, build_map_lookup, fmap_is_Some, last_is_Some.
  split.
  - intros Hne. destruct (filter _ files) as [|f l] eqn:Hfl; [done |].
    assert (f ∈ filter (fun f => pred f = true /\ (splitext f).1 = k) files) as Hin
      by (rewrite Hfl; left).
    apply list_elem_of_filter in Hin. naive_solver.
  - intros (f & Hin & Hp & Hk) Hnil.
    assert (f ∈ filter (fun f => pred f = true /\ (splitext f).1 = k) files) as Hin'
      by (apply list_elem_of_filter; naive_solver).
    rewrite Hnil in Hin'. by apply not_elem_of_nil in Hin'.
Qed.

(** ** A folder of pairs *)

Lemma pair_listing_elem (ks : list string) (f : string) :
  f ∈ pair_listing ks <-> exists k, k ∈ ks /\ (f = k +:+ ".jpg" \/ f = k +:+ ".mp3").
Proof.
  unfold pair_listing. rewrite list_elem_of_In, in_flat_map.
  split; intros (k & Hk & Hf); exists k; split;
    rewrite ?list_elem_of_In in *; simpl in *; naive_solver.
Qed.

Lemma splitext_pair (k e : string) :
  stem_ok k = true -> has_char "/" e = false -> has_char "." e = false ->
  (splitext (k +:+ String "." e)).1 = k.
Proof.
  unfold stem_ok. intros [Hs Hd]%andb_true_iff He1 He2.
  rewrite splitext_name; [done | by apply negb_true_iff | done ..].
Qed.

(** ** The discovery contract

    [set_iter] enumerates a set in some order: the keys of the run are the
    same whatever that order is. *)
Section DiscoverSpec.
Variable set_iter : gset string -> list string.
Hypothesis set_iter_perm : forall X, set_iter X ≡ₚ elements X.

(** C5. A segment exists exactly for the stems that have both an image and an
    audio file; the keys have no duplicate and ascend by [int] value. *)
Theorem discover_keys (input_folder : string) (files : list string) (d : discovery) :
  discover set_iter input_folder files = Ok d ->
  (forall k, k ∈ keys d <->
     (exists f, f ∈ files /\ is_image f = true /\ (splitext f).1 = k) /\
     (exists g, g ∈ files /\ is_audio g = true /\ (splitext g).1 = k)) /\
  NoDup (keys d) /\ Sorted (fun a b => int_val a <= int_val b) (keys d).
Proof.
  unfold discover, rbind.
  destruct (py_sorted_int _) as [ks|] eqn:Hs; [| done]. intros [= <-]. simpl.
  destruct (py_sorted_int_spec _ _ Hs) as [Hperm Hsorted].
  rewrite set_iter_perm in Hperm. split_and!; [| | done].
  - intros k. rewrite Hperm, elem_of_elements. unfold common_keys, images_of, audios_of.
    by rewrite elem_of_intersection, !build_map_dom.
  - rewrite Hperm. apply NoDup_elements.
Qed.

(** C23. A stem present among both images and audio that [int] rejects stops
    the whole run with a [ValueError], before any segment is rendered. *)
Theorem discover_non_numeric (input_folder : string) (files : list string) (k : string) (e : py_exc) :
  k ∈ common_keys (images_of input_folder files) (audios_of input_folder files) ->
  py_int k = Raise e ->
  exists e', discover set_iter input_folder files = Raise e' /\ exc_cls e' = ValueError.
Proof.
  intros Hk He. unfold discover, py_sorted_int, rbind.
  destruct (decorate_Raise (set_iter (common_keys (images_of input_folder files)
                                        (audios_of input_folder files))))
    as (e' & -> & Hc).
  { exists k. split; [| eauto]. by rewrite set_iter_perm, elem_of_elements. }
  eauto.
Qed.

(** Every key has an image and an audio entry: the lookups [images[key]]
    and [audios[key]] of the loop succeed. *)
Lemma discover_keys_dom (input_folder : string) (files : list string) (d : discovery) :
  discover set_iter input_folder files = Ok d ->
  forall k, k ∈ keys d -> k ∈ dom (images d) /\ k ∈ dom (audios d).
Proof.
  unfold discover, rbind.
  destruct (py_sorted_int _) as [ks|] eqn:Hs; [| done]. intros [= <-] k Hk. simpl in *.
  destruct (py_sorted_int_spec _ _ Hs) as [Hperm _].
  rewrite Hperm, set_iter_perm, elem_of_elements in Hk.
  unfold common_keys in Hk. by apply elem_of_intersection in Hk.
Qed.

Lemma discover_keys_NoDup (input_folder : string) (files : list string) (d : discovery) :
  discover set_iter input_folder files = Ok d -> NoDup (keys d).
Proof.
  unfold discover, rbind.
  destruct (py_sorted_int _) as [ks|] eqn:Hs; [| done]. intros [= <-]. simpl.
  destruct (py_sorted_int_spec _ _ Hs) as [Hperm _].
  rewrite Hperm, set_iter_perm. apply NoDup_elements.
Qed.
(** C29. In a folder of pairs [k.jpg], [k.mp3] of distinct stems, [.lower()],
    [.endswith] and [os.path.splitext] give back the stems: the segments
    are exactly the stems, in ascending [int] order. *)
Theorem discover_pairs (input_folder : string) (ks : list string) (d : discovery) :
  Forall (fun k => stem_ok k = true) ks -> NoDup ks ->
  discover set_iter input_folder (pair_listing ks) = Ok d ->
  keys d ≡ₚ ks /\ Sorted (fun a b => int_val a <= int_val b) (keys d).
Proof.
  intros Hok Hnd Hd. destruct (discover_keys _ _ _ Hd) as (Hk & Hnd' & Hs).
  split; [| done]. apply NoDup_Permutation; [done | done |]. intros k. rewrite Hk.
  rewrite Forall_forall in Hok. split.
  - intros [(f & Hf & _ & <-) _]. apply pair_listing_elem in Hf as (k' & Hk' & [-> | ->]);
      by rewrite splitext_pair by auto.
  - intros Hin. split; [exists (k +:+ ".jpg") | exists (k +:+ ".mp3")];
      (split_and!; [apply pair_listing_elem; eauto | | by apply splitext_pair; auto]);
      unfold is_image, is_audio; rewrite lower_app; apply endswith_app.
Qed.
End DiscoverSpec.

(** Discovery raises nothing but the [ValueError] of [int()]. *)
Lemma discover_raises_ValueError (set_iter : gset string -> list string)
    (input_folder : string) (files : list string) (e : py_exc) :
  discover set_iter input_folder files = Raise e -> exc_cls e = ValueError.
Proof.
  unfold discover, py_sorted_int, rbind.
  generalize (set_iter (common_keys (images_of input_folder files) (audios_of input_folder files))).
  intros l. destruct (decorate l) eqn:Hd; [done | intros [= ->]].
  revert e Hd. induction l as [|x l IH]; intros e Hd; simpl in Hd; [done |].
  unfold rbind in Hd. destruct (py_int x) eqn:Hx.
  - destruct (decorate l) eqn:Hl; [done |]. injection Hd as ->. by apply IH.
  - injection Hd as ->. by eapply py_int_raises_ValueError.
Qed.

(** ** Witnesses *)

Lemma elements_perm (X : gset string) : elements X ≡ₚ elements X.
Proof. reflexivity. Qed.

Lemma discover_keys_witness :
  (forall k, k ∈ keys sample_discovery <->
     (exists f, f ∈ sample_listing /\ is_image f = true /\ (splitext f).1 = k) /\
     (exists g, g ∈ sample_listing /\ is_audio g = true /\ (splitext g).1 = k)) /\
  NoDup (keys sample_discovery) /\
  Sorted (fun a b => int_val a <= int_val b) (keys sample_discovery).
Proof. apply (discover_keys elements elements_perm "/in"). vm_compute. reflexivity. Defined.

Lemma discover_pairs_witness :
  exists d, discover elements "/in" (pair_listing ["10"; "2"; "1"]) = Ok d /\
    keys d ≡ₚ ["10"; "2"; "1"] /\ Sorted (fun a b => int_val a <= int_val b) (keys d).
Proof.
  destruct (discover elements "/in" (pair_listing ["10"; "2"; "1"])) as [d|e] eqn:E;
    pose proof E as E0; vm_compute in E; [| discriminate].
  exists d. split; [done |]. apply (discover_pairs elements elements_perm "/in"); [| | exact E0].
  - apply (bool_decide_unpack _). vm_compute. reflexivity.
  - apply (bool_decide_unpack _). vm_compute. reflexivity.
Defined.

Lemma discover_non_numeric_witness :
  exists e', discover elements "/in" ["a.jpg"; "a.mp3"] = Raise e' /\ exc_cls e' = ValueError.
Proof.
  apply (discover_non_numeric elements elements_perm "/in" ["a.jpg"; "a.mp3"] "a"
           (invalid_literal "a")).
  - apply (bool_decide_unpack _). vm_compute. reflexivity.
  - vm_compute. reflexivity.
Defined.

Lemma py_sorted_int_perm_witness : ["1"; "2"; "10"] = ["1"; "2"; "10"].
Proof.
  apply (py_sorted_int_perm ["10"; "1"; "2"] ["2"; "10"; "1"]).
  - apply (bool_decide_unpack _). vm_compute. reflexivity.
  - intros x y Hx Hy Hxy. apply list_elem_of_In in Hx, Hy. simpl in Hx, Hy.
    destruct Hx as [<-|[<-|[<-|[]]]]; destruct Hy as [<-|[<-|[<-|[]]]];
      vm_compute in Hxy; congruence.
  - reflexivity.
  - reflexivity.
Defined.

Lemma py_sorted_int_stable_witness : ["1"; "02"; "2"] = ["1"; "02"; "2"].
Proof.
  apply (py_sorted_int_stable ["02"; "1"; "2"]); [reflexivity | |].
  - repeat constructor; vm_compute; discriminate.
  - intros v. rewrite !filter_cons, filter_nil.
    repeat case_decide; simplify_eq/=; done.
Defined.
