(* ===== verification/Render.v ===== *)
(** * The render step of one segment

    Lines 40-97 of src/GHEP-VIDEO-ANH.py: which effect a key gets, the log
    line that announces it and the encoder command line that renders the
    still image with the paired audio.  The chain of the code is
<<
    if key in zoom_keys and duration > 6:   ...ZOOM...
    elif key in pan_keys:                  ...PAN...
    elif key in shake_keys:                ...SHAKE...
    if not effect_applied:                 ...no effect...
>>
    so exactly one command runs per segment; [choose_effect] names the
    branch taken and [effect_cmd] the argument list given to
    [subprocess.run].  The duration is the [float] of mutagen, a rational
    here (every float is one, and [duration > 6] compares exactly); the
    text [str(duration)] is an argument [dur] of the command. *)

From stdpp Require Import base list gmap sets strings.
From Stdlib Require Import Ascii String ZArith QArith.
From S2P Require Import Prelude PyStr Effects.

Inductive effect := Zoom | Pan | Shake | NoEffect.

#[export] Instance effect_eq_dec : EqDecision effect.
Proof. solve_decision. Defined.

(** [duration > 6] *)
Definition longer_than_6 (duration : Q) : bool := negb (Qle_bool duration 6).

(** The branch of the [if]/[elif] chain a key takes. *)
Definition choose_effect (g : effect_groups) (key : string) (duration : Q) : effect :=
  if bool_decide (key ∈ zoom_keys g) && longer_than_6 duration then Zoom
  else if bool_decide (key ∈ pan_keys g) then Pan
  else if bool_decide (key ∈ shake_keys g) then Shake
  else NoEffect.

(** ** The filter graphs *)
Definition zoom_filter : string :=
  "[0:v]scale=1400:788,zoompan=z='min(zoom+0.0015,1.2)':x='iw/2-(iw/zoom/2)':y='ih/2-(ih/zoom/2)':d=1:s=1280x720,format=yuv420p[v]".

Definition pan_filter (dur : string) : string :=
  "[0:v]scale=1500:720,crop=1280:720:x='(in_w-out_w)*t/" +:+ dur +:+ "':y=0,format=yuv420p[v]".

Definition shake_filter : string :=
  "[0:v]scale=1280:720,crop=1280:720:x='5*sin(2*PI*t*3)':y='5*cos(2*PI*t*3)',format=yuv420p[v]".

(** ** The command lines *)

(** The three effects share one command shape, with their filter graph. *)
Definition filter_cmd (img mp3 filt dur output_part : string) : list string :=
  ["ffmpeg"; "-y";
   "-loop"; "1"; "-i"; img;
   "-i"; mp3;
   "-filter_complex"; filt;
   "-map"; "[v]"; "-map"; "1:a";
   "-t"; dur;
   "-c:v"; "libx264"; "-pix_fmt"; "yuv420p"; "-c:a"; "aac"; output_part].

(** Without effect: a plain scale. *)
Definition plain_cmd (img mp3 dur output_part : string) : list string :=
  ["ffmpeg"; "-y";
   "-loop"; "1"; "-i"; img;
   "-i"; mp3;
   "-t"; dur;
   "-vf"; "scale=1280:720";
   "-c:v"; "libx264"; "-pix_fmt"; "yuv420p"; "-c:a"; "aac"; output_part].

Definition effect_cmd (e : effect) (img mp3 dur output_part : string) : list string :=
  match e with
  | Zoom => filter_cmd img mp3 zoom_filter dur output_part
  | Pan => filter_cmd img mp3 (pan_filter dur) dur output_part
  | Shake => filter_cmd img mp3 shake_filter dur output_part
  | NoEffect => plain_cmd img mp3 dur output_part
  end.

(** ** The log lines *)
Definition effect_log (e : effect) (key : string) : string :=
  match e with
  | Zoom => "👉 Applying ZOOM to segment " +:+ key
  | Pan => "👉 Applying PAN to segment " +:+ key
  | Shake => "👉 Applying SHAKE to segment " +:+ key
  | NoEffect => "⚪ No effect applied to segment " +:+ key
  end.

(** ** Properties of the render step *)

Lemma longer_than_6_spec (d : Q) : longer_than_6 d = true <-> 6 < d.
Proof.
  unfold longer_than_6. rewrite negb_true_iff.
  split; intros H.
  - apply Qnot_le_lt. intros Hle. apply Qle_bool_iff in Hle. congruence.
  - destruct (Qle_bool d 6) eqn:Hb; [| done]. apply Qle_bool_iff in Hb.
    exfalso. by apply (Qlt_not_le 6 d).
Qed.

(** C32. The zoom branch is taken only for a zoom key longer than six seconds. *)
Lemma choose_effect_Zoom (g : effect_groups) (key : string) (d : Q) :
  choose_effect g key d = Zoom <-> key ∈ zoom_keys g /\ 6 < d.
Proof.
  unfold choose_effect. rewrite <- longer_than_6_spec.
  destruct (bool_decide_reflect (key ∈ zoom_keys g)), (longer_than_6 d); simpl;
    repeat case_bool_decide; naive_solver.
Qed.


(** The output of every command is its last argument. *)
Lemma effect_cmd_last (e : effect) (img mp3 dur out : string) :
  last (effect_cmd e img mp3 dur out) = Some out.
Proof. by destruct e. Qed.

(** C27. Every command overwrites ([-y]) one output, the last argument, from the
    looped image and the audio, cut to the audio's duration ([-t dur]). *)
Theorem effect_cmd_contract (e : effect) (img mp3 dur out : string) :
  exists mid1 mid2,
    effect_cmd e img mp3 dur out
    = ["ffmpeg"; "-y"; "-loop"; "1"; "-i"; img; "-i"; mp3] ++ mid1 ++ ["-t"; dur] ++ mid2
      ++ ["-c:v"; "libx264"; "-pix_fmt"; "yuv420p"; "-c:a"; "aac"; out].
Proof.
  destruct e; simpl.
  - exists ["-filter_complex"; zoom_filter; "-map"; "[v]"; "-map"; "1:a"], []; reflexivity.
  - exists ["-filter_complex"; pan_filter dur; "-map"; "[v]"; "-map"; "1:a"], []; reflexivity.
  - exists ["-filter_complex"; shake_filter; "-map"; "[v]"; "-map"; "1:a"], []; reflexivity.
  - exists [], ["-vf"; "scale=1280:720"]; reflexivity.
Qed.

(** ** Witnesses *)

