(* ===== verification/Pipeline.v ===== *)
(** * The worker thread: [create_video_with_ffmpeg]

    Lines 13-117 of src/GHEP-VIDEO-ANH.py.  The worker runs discovery,
    effect assignment, one render per segment and the concatenation, and
    reports through two callbacks and the message boxes.

    - The state [worker] holds the file system the code writes and tests
      ([os.makedirs], [open], [os.path.exists]), the sequence of events the
      GUI receives (log lines, progress values, message boxes, in the
      order the worker emits them) and the local list [video_parts].
    - What the program does not compute is the environment, a class
      [MediaEnv]: the directory listing, the length mutagen reads from an
      MP3 file, the effect of running the encoder on the file system, the
      order in which a set is enumerated, the permutation [random.shuffle]
      picks and the text [str()] of a float.  Its laws [MediaEnvLaws] say
      that the last two orders are permutations.
    - Statements run in the state-and-exception monad of the Prelude, so
      an exception keeps the events emitted before it, and the top-level
      [try]/[except Exception] is [try_except]. *)

From stdpp Require Import base list gmap sets strings sorting.
From Stdlib Require Import Ascii String ZArith QArith.
From S2P Require Import Prelude PyStr PyInt Effects Discovery Render.

(** ** State *)

(** What the GUI receives from the worker. *)
Inductive ui_event :=
  | Log (msg : string)
  | Progress (percent : Q)
  | ShowInfo (title msg : string)
  | ShowError (title msg : string)
  | ShowWarning (title msg : string).

(** Syntactic equality of rationals (numerator and denominator). *)
#[export] Instance Q_syntactic_eq_dec : EqDecision Q.
Proof.
  intros [a b] [c d]. destruct (decide (a = c)), (decide (b = d));
    [left; congruence | right; congruence ..].
Defined.

#[export] Instance ui_event_eq_dec : EqDecision ui_event.
Proof. solve_decision. Defined.

(** The files (path to contents) and directories the run sees. *)
Record fsys := FSys { fs_files : gmap string string; fs_dirs : gset string }.

Record worker := Worker {
  w_fs : fsys;
  w_events : list ui_event;
  video_parts : list string
}.

Definition set_fs (w : worker) (fs : fsys) : worker :=
  {| w_fs := fs; w_events := w_events w; video_parts := video_parts w |}.

Definition add_event (w : worker) (ev : ui_event) : worker :=
  {| w_fs := w_fs w; w_events := w_events w ++ [ev]; video_parts := video_parts w |}.

Definition set_parts (w : worker) (parts : list string) : worker :=
  {| w_fs := w_fs w; w_events := w_events w; video_parts := parts |}.

(** ** The environment *)
Class MediaEnv := {
  env_listdir : string -> pyres (list string);
  env_mp3_length : string -> pyres Q;
  env_run : list string -> fsys -> pyres fsys;
  env_set_iter : gset string -> list string;
  env_shuffle : list string -> list string;
  env_float_str : Q -> string
}.

Class MediaEnvLaws `{!MediaEnv} := {
  set_iter_perm : forall X, env_set_iter X ≡ₚ elements X;
  shuffle_perm : forall l, env_shuffle l ≡ₚ l
}.

Section Worker.
Context `{!MediaEnv}.

(** ** Primitive statements *)

Definition emit (ev : ui_event) : PyM worker unit := modify (fun w => add_event w ev).

(** [log_callback(msg)] and [progress_callback(p)] *)
Definition log_callback (msg : string) : PyM worker unit := emit (Log msg).
Definition progress_callback (p : Q) : PyM worker unit := emit (Progress p).

Definition messagebox_showinfo (title msg : string) : PyM worker unit :=
  emit (ShowInfo title msg).
Definition messagebox_showerror (title msg : string) : PyM worker unit :=
  emit (ShowError title msg).

(** [os.path.exists(p)] *)
Definition path_exists (fs : fsys) (p : string) : bool :=
  bool_decide (p ∈ dom (fs_files fs)) || bool_decide (p ∈ fs_dirs fs).

(** [os.listdir(p)] *)
Definition os_listdir (p : string) : PyM worker (list string) := lift (env_listdir p).

(** [os.makedirs(p, exist_ok=True)]: an existing directory is fine, an
    existing file is a [FileExistsError]. *)
Definition os_makedirs_exist_ok (p : string) : PyM worker unit :=
  fun w =>
    let fs := w_fs w in
    if bool_decide (p ∈ dom (fs_files fs)) then
      (Raise (PyExc FileExistsError ("[Errno 17] File exists: " +:+ py_repr p)), w)
    else (Ok tt, set_fs w {| fs_files := fs_files fs; fs_dirs := {[p]} ∪ fs_dirs fs |}).

(** [with open(p, 'w') as f: f.write(content)], [p] in directory [parent] *)
Definition write_text (parent p content : string) : PyM worker unit :=
  fun w =>
    let fs := w_fs w in
    if bool_decide (p ∈ fs_dirs fs) then
      (Raise (PyExc IsADirectoryError ("[Errno 21] Is a directory: " +:+ py_repr p)), w)
    else if bool_decide (parent ∉ fs_dirs fs) then
      (Raise (PyExc FileNotFoundError
                ("[Errno 2] No such file or directory: " +:+ py_repr p)), w)
    else (Ok tt, set_fs w {| fs_files := <[p := content]> (fs_files fs);
                             fs_dirs := fs_dirs fs |}).

(** [subprocess.run(cmd)]: the exit status is not looked at; only a
    missing executable raises. *)
Definition subprocess_run (cmd : list string) : PyM worker unit :=
  fun w =>
    match env_run cmd (w_fs w) with
    | Ok fs' => (Ok tt, set_fs w fs')
    | Raise e => (Raise e, w)
    end.

(** [get_duration(mp3_path)] = [MP3(mp3_path).info.length] *)
Definition get_duration (mp3 : string) : PyM worker Q := lift (env_mp3_length mp3).

(** [d[k]] *)
Definition dict_get (m : gmap string string) (k : string) : pyres string :=
  match m !! k with
  | Some v => Ok v
  | None => Raise (PyExc KeyError (py_repr k))
  end.

Definition append_part (line : string) : PyM worker unit :=
  modify (fun w => set_parts w (video_parts w ++ [line])).

(** ** One segment: lines 34-104 *)

(** The [if]/[elif] chain and its commands, lines 40-85; [true] when an
    effect was applied. *)
Definition apply_effect (g : effect_groups) (key img mp3 : string) (duration : Q)
    (output_part : string) : PyM worker bool :=
  if bool_decide (key ∈ zoom_keys g) && longer_than_6 duration then
    log_callback (effect_log Zoom key) ;;;
    subprocess_run (effect_cmd Zoom img mp3 (env_float_str duration) output_part) ;;;
    ret true
  else if bool_decide (key ∈ pan_keys g) then
    log_callback (effect_log Pan key) ;;;
    subprocess_run (effect_cmd Pan img mp3 (env_float_str duration) output_part) ;;;
    ret true
  else if bool_decide (key ∈ shake_keys g) then
    log_callback (effect_log Shake key) ;;;
    subprocess_run (effect_cmd Shake img mp3 (env_float_str duration) output_part) ;;;
    ret true
  else ret false.

(** Lines 40-97: the effect, or the plain render when none applied. *)
Definition render_segment (g : effect_groups) (key img mp3 : string) (duration : Q)
    (output_part : string) : PyM worker unit :=
  effect_applied <- apply_effect g key img mp3 duration output_part ;;
  if effect_applied then ret tt
  else
    log_callback (effect_log NoEffect key) ;;;
    subprocess_run (effect_cmd NoEffect img mp3 (env_float_str duration) output_part).

Definition part_path (temp_folder key : string) : string :=
  path_join temp_folder ("part_" +:+ key +:+ ".mp4").

(** [f"file '{output_part}'"] *)
Definition part_line (temp_folder key : string) : string :=
  "file '" +:+ part_path temp_folder key +:+ "'".

(** [(i + 1) / total * 100], exactly. *)
Definition progress_value (i total : nat) : Q :=
  inject_Z (Z.of_nat (S i)) / inject_Z (Z.of_nat total) * 100.

(** The body of [for i, key in enumerate(keys)]. *)
Definition process_segment (images audios : gmap string string) (g : effect_groups)
    (temp_folder : string) (total : nat) (i : nat) (key : string) : PyM worker unit :=
  log_callback (String newline ("🎞️ Processing segment: " +:+ key)) ;;;
  img <- lift (dict_get images key) ;;
  mp3 <- lift (dict_get audios key) ;;
  duration <- get_duration mp3 ;;
  render_segment g key img mp3 duration (part_path temp_folder key) ;;;
  produced <- gets (fun w => path_exists (w_fs w) (part_path temp_folder key)) ;;
  (if produced then append_part (part_line temp_folder key)
   else log_callback ("❌ Failed to create video for segment " +:+ key)) ;;;
  progress_callback (progress_value i total).

(** ** The whole run: lines 14-117 *)

Definition concat_cmd (concat_list output_path : string) : list string :=
  ["ffmpeg"; "-y"; "-f"; "concat"; "-safe"; "0"; "-i"; concat_list; "-c"; "copy"; output_path].

Definition create_video_body (input_folder : string) (zoom_count pan_count shake_count : Z)
    : PyM worker unit :=
  files <- os_listdir input_folder ;;
  d <- lift (discover env_set_iter input_folder files) ;;
  let temp_folder := path_join input_folder "temp" in
  os_makedirs_exist_ok temp_folder ;;;
  let available_keys := env_shuffle (keys d) in
  let g := assign_effects available_keys zoom_count pan_count shake_count in
  modify (fun w => set_parts w []) ;;;
  for_enum 0 (keys d)
    (process_segment (images d) (audios d) g temp_folder (List.length (keys d))) ;;;
  let concat_list := path_join temp_folder "file_list.txt" in
  parts <- gets video_parts ;;
  write_text temp_folder concat_list (str_join (String newline EmptyString) parts) ;;;
  let output_path := path_join input_folder "output_video.mp4" in
  subprocess_run (concat_cmd concat_list output_path) ;;;
  log_callback (String newline "✅ Done! Output video created: output_video.mp4") ;;;
  messagebox_showinfo "Success" "Video created successfully!".

Definition create_video_with_ffmpeg (input_folder : string)
    (zoom_count pan_count shake_count : Z) : PyM worker unit :=
  try_except (create_video_body input_folder zoom_count pan_count shake_count)
    (fun e => log_callback ("Error: " +:+ exc_msg e) ;;;
              messagebox_showerror "Error" (exc_msg e)).
(** The paths of a run. *)
Definition temp_of (input_folder : string) : string := path_join input_folder "temp".
Definition manifest_of (input_folder : string) : string :=
  path_join (temp_of input_folder) "file_list.txt".
Definition output_of (input_folder : string) : string :=
  path_join input_folder "output_video.mp4".

(** The exceptions that come from outside the program: the listing of the
    folder, mutagen, and starting the encoder. *)
Definition env_error (input_folder : string) (e : py_exc) : Prop :=
  env_listdir input_folder = Raise e \/
  (exists mp3, env_mp3_length mp3 = Raise e) \/
  (exists cmd fs, env_run cmd fs = Raise e).

End Worker.

(** ** Observations of a run *)

Definition progress_of (ev : ui_event) : option Q :=
  match ev with Progress p => Some p | _ => None end.

(** The values [progress_callback] received, in order. *)
Definition progress_events (evs : list ui_event) : list Q := omap progress_of evs.

(** ** Concrete folders and environments *)

Definition sample_files : list string := ["1.jpg"; "1.mp3"; "2.jpg"; "2.mp3"].

(** An environment whose encoder starts but writes nothing. *)
Definition silent_encoder_env (files : list string) : MediaEnv := {|
  env_listdir := fun _ => Ok files;
  env_mp3_length := fun _ => Ok 10%Q;
  env_run := fun _ fs => Ok fs;
  env_set_iter := elements;
  env_shuffle := fun l => l;
  env_float_str := fun _ => "10.0"
|}.

Definition start_worker (fs : fsys) : worker :=
  {| w_fs := fs; w_events := []; video_parts := [] |}.

Definition no_files : fsys := {| fs_files := ∅; fs_dirs := ∅ |}.

(** A clip left by an earlier run. *)
Definition stale_clip : fsys := {| fs_files := {[ "/in/temp/part_1.mp4" := "" ]}; fs_dirs := ∅ |}.

(** An encoder that writes the file named by its last argument. *)
Definition writing_encoder (cmd : list string) (fs : fsys) : pyres fsys :=
  match last cmd with
  | Some out => Ok {| fs_files := <[out := ""]> (fs_files fs); fs_dirs := fs_dirs fs |}
  | None => Ok fs
  end.

Definition sample_env : MediaEnv := {|
  env_listdir := fun _ => Ok sample_files;
  env_mp3_length := fun _ => Ok 8%Q;
  env_run := writing_encoder;
  env_set_iter := elements;
  env_shuffle := reverse;
  env_float_str := fun _ => "8.0"
|}.

Definition sample_final : worker := snd (@create_video_body sample_env "/in" 1 0 0 (start_worker no_files)).

Definition sample_outcome : worker := snd (@create_video_with_ffmpeg sample_env "/in" 1 0 0 (start_worker no_files)).

(** A file named [temp] in the folder: [os.makedirs] raises. *)
Definition temp_is_file : fsys := {| fs_files := {[ "/in/temp" := "" ]}; fs_dirs := ∅ |}.

Definition temp_exc : py_exc := PyExc FileExistsError "[Errno 17] File exists: '/in/temp'".

(** A stem that ends in a newline. *)
Definition newline_key : string := String "1" (String newline EmptyString).

(** Unfold a statement of the worker down to the calls of the environment,
    and case on their results. *)
Ltac worker_crush :=
  unfold process_segment, render_segment, apply_effect, append_part, get_duration,
    log_callback, progress_callback, messagebox_showinfo, messagebox_showerror, emit,
    subprocess_run, os_listdir, os_makedirs_exist_ok, write_text in *;
  py_unfold; repeat (case_match; simplify_eq/=).

(** Close [exists new, events = events0 ++ new /\ ...] once the state is
    explicit. *)
Ltac new_events :=
  eexists; split; [rewrite <- ?app_assoc; reflexivity | simpl].

Section Segment.
Context `{!MediaEnv}.

(** One segment only adds events, adds at most its own manifest line
    (and only when it completes), and reports exactly one progress value
    when it completes, none when it raises. *)
Lemma process_segment_spec (images audios : gmap string string) (g : effect_groups)
    (temp_folder : string) (total i : nat) (key : string) (s s' : worker) r :
  process_segment images audios g temp_folder total i key s = (r, s') ->
  exists new, w_events s' = w_events s ++ new /\
    (video_parts s' = video_parts s \/
     (r = Ok tt /\ video_parts s' = video_parts s ++ [part_line temp_folder key])) /\
    progress_events new = match r with Ok _ => [progress_value i total] | Raise _ => [] end.
Proof. intros Hrun. worker_crush; new_events; auto. Qed.

(** The loop over the keys: the manifest lines are those of a sublist of
    the keys, in the keys' order; the progress values are a prefix of
    [(j + 1) / total * 100] for the positions [j] of the keys, all of
    them when no segment raised. *)
Lemma loop_spec (images audios : gmap string string) (g : effect_groups)
    (temp_folder : string) (total : nat) (ks : list string) (i : nat) (s s' : worker) r :
  for_enum i ks (process_segment images audios g temp_folder total) s = (r, s') ->
  exists new kept, w_events s' = w_events s ++ new /\ kept `sublist_of` ks /\
    video_parts s' = video_parts s ++ map (part_line temp_folder) kept /\
    progress_events new `prefix_of` map (fun j => progress_value j total) (seq i (List.length ks)) /\
    (r = Ok tt ->
     progress_events new = map (fun j => progress_value j total) (seq i (List.length ks))).
Proof.
  revert i s. induction ks as [|key ks IH]; intros i s Hrun.
  - simpl in Hrun. injection Hrun as <- <-. exists [], [].
    rewrite !app_nil_r. split_and!; done.
  - apply for_enum_cons_inv in Hrun as [(s1 & H1 & Hrest) | (e & H1 & ->)].
    + destruct (process_segment_spec _ _ _ _ _ _ _ _ _ _ H1) as (new1 & Hev1 & Hp1 & Hpr1).
      destruct (IH _ _ Hrest) as (new2 & kept2 & Hev2 & Hsub & Hp2 & Hpre & Hall).
      simpl in Hpr1.
      assert (exists k1, k1 `sublist_of` [key] /\
                video_parts s1 = video_parts s ++ map (part_line temp_folder) k1)
        as (k1 & Hk1 & Hv1).
      { destruct Hp1 as [Hv | [_ Hv]]; [exists [] | exists [key]];
          rewrite ?app_nil_r; split; auto using sublist_nil_l. }
      exists (new1 ++ new2), (k1 ++ kept2). split_and!.
      * by rewrite Hev2, Hev1, app_assoc.
      * change (key :: ks) with ([key] ++ ks). by apply sublist_app.
      * by rewrite Hp2, Hv1, map_app, app_assoc.
      * unfold progress_events in *. rewrite omap_app, Hpr1. simpl.
        by apply prefix_cons.
      * intros ->. unfold progress_events in *. rewrite omap_app, Hpr1, Hall by done.
        done.
    + destruct (process_segment_spec _ _ _ _ _ _ _ _ _ _ H1) as (new1 & Hev1 & Hp1 & Hpr1).
      exists new1, []. split_and!; [done | apply sublist_nil_l | | | done].
      * destruct Hp1 as [Hv | [? _]]; [by rewrite Hv, app_nil_r | done].
      * rewrite Hpr1. apply prefix_nil.
Qed.
End Segment.

(** ** The progress values

    [(j + 1) / n * 100] is computed exactly; the float of the code rounds
    each of these values, and correctly rounded division and product are
    monotone, so the order facts carry over (not modelled). *)

Lemma progress_value_eq (j m : nat) :
  progress_value j (S m) = Qmake (Z.of_nat (S j) * 100) (Pos.of_succ_nat m).
Proof.
  unfold progress_value, Qdiv, Qmult, Qinv, inject_Z. simpl. f_equal; lia.
Qed.

Lemma progress_value_lt (j k m : nat) :
  (j < k)%nat -> progress_value j (S m) < progress_value k (S m).
Proof.
  intros Hjk. rewrite !progress_value_eq. unfold Qlt. simpl.
  pose proof (Pos2Z.is_pos (Pos.of_succ_nat m)). nia.
Qed.

Lemma progress_value_bounds (j m : nat) :
  (j <= m)%nat -> 0 < progress_value j (S m) /\ progress_value j (S m) <= 100.
Proof.
  intros Hj. rewrite progress_value_eq. unfold Qlt, Qle. simpl.
  rewrite Zpos_P_of_succ_nat. lia.
Qed.

Lemma progress_value_last (m : nat) : progress_value m (S m) == 100.
Proof. rewrite progress_value_eq. unfold Qeq. simpl. rewrite Zpos_P_of_succ_nat. lia. Qed.

Lemma last_map_seq {B} (f : nat -> B) (m : nat) : last (map f (seq 0 (S m))) = Some (f m).
Proof. rewrite seq_S, map_app. change (map ?f [?x]) with [f x]. by rewrite last_snoc. Qed.

Lemma StronglySorted_map_seq (R : relation Q) (f : nat -> Q) (a k : nat) :
  (forall i j, (a <= i < j)%nat -> R (f i) (f j)) ->
  StronglySorted R (map f (seq a k)).
Proof.
  revert a. induction k as [|k IH]; intros a Hf; simpl; constructor.
  - apply IH. intros i j ?. apply Hf. lia.
  - apply Forall_map, Forall_forall. intros j Hj%elem_of_seq. apply Hf. lia.
Qed.

(** C20. The progress values of a run over [n > 0] segments increase strictly,
    stay in [(0, 100]] and end at 100. *)
Theorem progress_trace (n : nat) :
  (0 < n)%nat ->
  StronglySorted Qlt (map (fun j => progress_value j n) (seq 0 n)) /\
  Forall (fun q => 0 < q /\ q <= 100) (map (fun j => progress_value j n) (seq 0 n)) /\
  exists q, last (map (fun j => progress_value j n) (seq 0 n)) = Some q /\ q == 100.
Proof.
  destruct n as [|m]; [lia |]. intros _. split_and!.
  - apply StronglySorted_map_seq. intros i j ?. apply progress_value_lt; lia.
  - apply Forall_map, Forall_forall. intros j Hj%elem_of_seq.
    apply progress_value_bounds. lia.
  - exists (progress_value m (S m)). rewrite last_map_seq.
    split; [done | apply progress_value_last].
Qed.

(** ** The whole run *)

Ltac body_crush :=
  unfold create_video_body, create_video_with_ffmpeg, os_listdir, os_makedirs_exist_ok,
    write_text, subprocess_run, log_callback, messagebox_showinfo, messagebox_showerror,
    emit in *;
  py_unfold; repeat (case_match; simplify_eq/=).

Section Run.
Context `{!MediaEnv}.

(** What a run that reaches its end has done: it listed and discovered,
    rendered every key, wrote the manifest of a sublist of the keys, in
    their order, and ran the concatenation on it; the progress values
    are [(j + 1) / n * 100] for [j < n]. *)
Lemma create_video_body_spec (input_folder : string) (z p s : Z) (w w' : worker) :
  create_video_body input_folder z p s w = (Ok tt, w') ->
  exists files d kept fs_m new,
    env_listdir input_folder = Ok files /\
    discover env_set_iter input_folder files = Ok d /\
    kept `sublist_of` keys d /\
    fs_files fs_m !! manifest_of input_folder
      = Some (str_join (String newline EmptyString)
                (map (part_line (temp_of input_folder)) kept)) /\
    env_run (concat_cmd (manifest_of input_folder) (output_of input_folder)) fs_m
      = Ok (w_fs w') /\
    w_events w' = w_events w ++ new /\
    progress_events new
      = map (fun j => progress_value j (List.length (keys d))) (seq 0 (List.length (keys d))).
Proof.
  intros Hrun. body_crush.
  match goal with
  | H : for_enum _ _ _ _ = (Ok _, _) |- _ =>
      destruct (loop_spec _ _ _ _ _ _ _ _ _ _ H)
        as (new & kept & Hev & Hsub & Hparts & _ & Hall)
  end.
  simpl in Hparts. unfold manifest_of, output_of, temp_of.
  eexists _, _, kept, _, (new ++ _).
  split_and!; [done | done | done | | eassumption | |].
  - cbn [fs_files]. by rewrite lookup_insert_eq, Hparts.
  - rewrite Hev. cbn [w_events set_parts set_fs]. by rewrite <- !app_assoc.
  - unfold progress_events in *. rewrite omap_app, Hall.
    + simpl. by rewrite app_nil_r.
    + match goal with |- Ok ?u = Ok () => by destruct u end.
Qed.

(** C1. The order of the output: a run that completes writes the manifest of
    the clips of a sublist of the sorted keys, in that order (the keys
    whose render failed are left out, the others keep their places), and
    runs the concatenation on it. *)
Theorem create_video_manifest (input_folder : string) (z p s : Z) (w w' : worker) :
  create_video_body input_folder z p s w = (Ok tt, w') ->
  exists files d kept fs_m,
    env_listdir input_folder = Ok files /\
    discover env_set_iter input_folder files = Ok d /\
    kept `sublist_of` keys d /\
    fs_files fs_m !! manifest_of input_folder
      = Some (str_join (String newline EmptyString)
                (map (part_line (temp_of input_folder)) kept)) /\
    env_run (concat_cmd (manifest_of input_folder) (output_of input_folder)) fs_m
      = Ok (w_fs w').
Proof.
  intros Hb. destruct (create_video_body_spec _ _ _ _ _ _ Hb)
    as (files & d & kept & fs_m & _ & ? & ? & ? & ? & ? & _). eauto 10.
Qed.

(** C2. The progress of a run that completes over [n] keys: the values
    [(j + 1) / n * 100] for [j < n], in order, the last one equal to 100
    when [n > 0]. *)
Theorem create_video_progress (input_folder : string) (z p s : Z) (w w' : worker) :
  create_video_body input_folder z p s w = (Ok tt, w') ->
  exists files d new,
    env_listdir input_folder = Ok files /\
    discover env_set_iter input_folder files = Ok d /\
    w_events w' = w_events w ++ new /\
    progress_events new
      = map (fun j => progress_value j (List.length (keys d))) (seq 0 (List.length (keys d))) /\
    ((0 < List.length (keys d))%nat ->
     exists q, last (progress_events new) = Some q /\ q == 100).
Proof.
  intros Hb. destruct (create_video_body_spec _ _ _ _ _ _ Hb)
    as (files & d & _ & _ & new & ? & ? & _ & _ & _ & ? & Hpr).
  exists files, d, new. split_and!; [done .. |]. intros Hn.
  rewrite Hpr. destruct (List.length (keys d)) as [|m]; [lia |].
  rewrite last_map_seq. eexists; split; [done | apply progress_value_last].
Qed.

Lemma create_video_with_ffmpeg_ok (input_folder : string) (z p s : Z) (w w' : worker) :
  create_video_body input_folder z p s w = (Ok tt, w') ->
  create_video_with_ffmpeg input_folder z p s w = (Ok tt, w').
Proof. intros Hb. unfold create_video_with_ffmpeg, try_except. by rewrite Hb. Qed.

(** C3. The top-level [except Exception] catches everything: the worker never
    raises, and it ends either with the success message after the last
    log line, or with the error line and the error box after the events
    of the body that raised. *)
Theorem create_video_outcome (input_folder : string) (z p s : Z) (w w' : worker) r :
  create_video_with_ffmpeg input_folder z p s w = (r, w') ->
  r = Ok tt /\
  ((create_video_body input_folder z p s w = (Ok tt, w') /\
    exists pre, w_events w'
      = pre ++ [Log (String newline "✅ Done! Output video created: output_video.mp4");
                ShowInfo "Success" "Video created successfully!"]) \/
   (exists e w1, create_video_body input_folder z p s w = (Raise e, w1) /\
    w_events w' = w_events w1 ++ [Log ("Error: " +:+ exc_msg e); ShowError "Error" (exc_msg e)])).
Proof.
  unfold create_video_with_ffmpeg, try_except. intros Hrun.
  destruct (create_video_body input_folder z p s w) as [[[]|e] w1] eqn:Hb;
    injection Hrun as <- <-.
  - split; [done |]. left. split; [done |].
    unfold create_video_body in Hb. body_crush.
    match goal with |- exists pre, (?X ++ _) ++ _ = _ => exists X end.
    by rewrite <- app_assoc.
  - split; [done |]. right. exists e, w1. split; [done |].
    unfold log_callback, messagebox_showerror, emit. py_unfold. cbn [add_event w_events].
    by rewrite <- app_assoc.
Qed.
End Run.

(** ** Error paths *)
Section Errors.
Context `{!MediaEnv}.

Lemma process_segment_raise (images audios : gmap string string) (g : effect_groups)
    (temp_folder : string) (total i : nat) (key : string) (s s' : worker) (e : py_exc) :
  key ∈ dom images -> key ∈ dom audios ->
  process_segment images audios g temp_folder total i key s = (Raise e, s') ->
  (exists mp3, env_mp3_length mp3 = Raise e) \/ (exists cmd fs, env_run cmd fs = Raise e).
Proof.
  intros [? Hi]%elem_of_dom [? Ha]%elem_of_dom Hrun.
  worker_crush; unfold dict_get in *; rewrite ?Hi, ?Ha in *; simplify_eq/=;
    first [by left; eauto | by right; eauto].
Qed.

Lemma loop_raise (images audios : gmap string string) (g : effect_groups)
    (temp_folder : string) (total : nat) (ks : list string) (i : nat) (s s' : worker)
    (e : py_exc) :
  (forall k, k ∈ ks -> k ∈ dom images /\ k ∈ dom audios) ->
  for_enum i ks (process_segment images audios g temp_folder total) s = (Raise e, s') ->
  (exists mp3, env_mp3_length mp3 = Raise e) \/ (exists cmd fs, env_run cmd fs = Raise e).
Proof.
  revert i s. induction ks as [|k ks IH]; intros i s Hdom Hrun; [simpl in Hrun; unfold ret in Hrun; congruence |].
  apply for_enum_cons_inv in Hrun as [(s1 & _ & Hrest) | (e' & H1 & Heq)].
  - eapply IH; [| exact Hrest]. intros k' Hk'. apply Hdom. apply elem_of_cons; by right.
  - injection Heq as ->. destruct (Hdom k) as [Hi Ha]; [apply elem_of_cons; by left |].
    exact (process_segment_raise _ _ _ _ _ _ _ _ _ _ Hi Ha H1).
Qed.

(** C4. What the worker can raise (and its [except] then reports): an error of
    the environment, the [ValueError] of a non-numeric key, the
    [FileExistsError] of a file named [temp], or an error of [open] on the
    manifest.  In particular no [KeyError]: every key has both files. *)
Theorem create_video_body_errors `{!MediaEnvLaws} (input_folder : string) (z p s : Z)
    (w w' : worker) (e : py_exc) :
  create_video_body input_folder z p s w = (Raise e, w') ->
  env_error input_folder e \/
  exc_cls e ∈ [ValueError; FileExistsError; IsADirectoryError; FileNotFoundError].
Proof.
  intros Hrun. body_crush.
  all: try (by left; left).
  all: try (by left; right; right; eauto).
  all: try (by right; set_solver).
  all: try (right; erewrite discover_raises_ValueError by eassumption; set_solver).
  all: match goal with
    | Hd : discover _ _ _ = Ok ?d, Hl : for_enum _ _ _ _ = (Raise _, _) |- _ =>
        apply loop_raise in Hl;
          [destruct Hl as [Hl | Hl]; left; right; [left | right]; done
          | by apply (discover_keys_dom env_set_iter set_iter_perm _ _ _ Hd)]
    end.
Qed.
End Errors.

(** ** Clip paths *)

Lemma part_path_eq (temp_folder k1 k2 : string) :
  part_path temp_folder k1 = part_path temp_folder k2 <-> k1 = k2.
Proof.
  split; [| by intros ->].
  unfold part_path. intros Hp. apply path_join_inj_r in Hp; [| done | done].
  apply (string_app_inv_l "part_") in Hp. by apply string_app_inv_r in Hp.
Qed.

(** C26. Two keys never share a clip file: [part_<key>.mp4] in the temporary
    folder determines the key. *)
Theorem part_path_inj (temp_folder k1 k2 : string) :
  part_path temp_folder k1 = part_path temp_folder k2 -> k1 = k2.
Proof. apply part_path_eq. Qed.

(** ** Runs on concrete folders *)

(** Evaluate a closed run once, then reason on its final state. *)
Ltac run_concrete :=
  match goal with
  | |- match ?t with (_, _) => _ end =>
      let E := fresh "E" in
      destruct t as [? ?] eqn:E; vm_compute in E; injection E as <- <-
  end.




(** ** Witnesses *)

#[local] Existing Instance sample_env.

Lemma sample_env_laws : @MediaEnvLaws sample_env.
Proof. split; [reflexivity | intros l; apply reverse_Permutation]. Qed.

#[local] Existing Instance sample_env_laws.

Lemma create_video_manifest_witness :
  exists files d kept fs_m,
    env_listdir "/in" = Ok files /\
    discover env_set_iter "/in" files = Ok d /\
    kept `sublist_of` keys d /\
    fs_files fs_m !! manifest_of "/in"
      = Some (str_join (String newline EmptyString) (map (part_line (temp_of "/in")) kept)) /\
    env_run (concat_cmd (manifest_of "/in") (output_of "/in")) fs_m = Ok (w_fs sample_final).
Proof.
  apply (create_video_manifest "/in" 1 0 0 (start_worker no_files) sample_final).
  vm_compute. reflexivity.
Defined.

Lemma create_video_progress_witness :
  exists files d new,
    env_listdir "/in" = Ok files /\
    discover env_set_iter "/in" files = Ok d /\
    w_events sample_final = w_events (start_worker no_files) ++ new /\
    progress_events new
      = map (fun j => progress_value j (List.length (keys d))) (seq 0 (List.length (keys d))) /\
    ((0 < List.length (keys d))%nat ->
     exists q, last (progress_events new) = Some q /\ q == 100).
Proof.
  apply (create_video_progress "/in" 1 0 0 (start_worker no_files) sample_final).
  vm_compute. reflexivity.
Defined.

Lemma create_video_outcome_witness :
  Ok tt = Ok tt /\
  ((create_video_body "/in" 1 0 0 (start_worker no_files) = (Ok tt, sample_outcome) /\
    exists pre, w_events sample_outcome
      = pre ++ [Log (String newline "✅ Done! Output video created: output_video.mp4");
                ShowInfo "Success" "Video created successfully!"]) \/
   (exists e w1, create_video_body "/in" 1 0 0 (start_worker no_files) = (Raise e, w1) /\
    w_events sample_outcome
      = w_events w1 ++ [Log ("Error: " +:+ exc_msg e); ShowError "Error" (exc_msg e)])).
Proof.
  apply (create_video_outcome "/in" 1 0 0 (start_worker no_files) sample_outcome (Ok tt)).
  vm_compute. reflexivity.
Defined.

Lemma progress_trace_witness :
  StronglySorted Qlt (map (fun j => progress_value j 3) (seq 0 3)) /\
  Forall (fun q => 0 < q /\ q <= 100) (map (fun j => progress_value j 3) (seq 0 3)) /\
  exists q, last (map (fun j => progress_value j 3) (seq 0 3)) = Some q /\ q == 100.
Proof. apply progress_trace. lia. Defined.

Lemma create_video_body_errors_witness :
  env_error "/in" temp_exc \/
  exc_cls temp_exc ∈ [ValueError; FileExistsError; IsADirectoryError; FileNotFoundError].
Proof.
  apply (create_video_body_errors "/in" 1 0 0 (start_worker temp_is_file)
           (snd (create_video_body "/in" 1 0 0 (start_worker temp_is_file)))).
  vm_compute. reflexivity.
Defined.

Lemma part_path_inj_witness : "7" = "7".
Proof. apply (part_path_inj "/in/temp"). reflexivity. Defined.

