(* ===== verification/Refinement.v ===== *)
(** * An abstract specification of a run, and its refinement

    [Pipeline] proves properties of [create_video_with_ffmpeg] one at a
    time.  This file states what a completed run does as an abstract
    machine, and proves that the worker implements it exactly.

    - The abstract state [astate] keeps the file system, the events and
      the keys whose clip went into the manifest, instead of the manifest
      lines.
    - One segment is one rule of [seg_step]: the effect is [choose_effect]
      of the key and its duration, the encoder runs [effect_cmd] of that
      effect, and the events of the segment are the block
      [segment_events].  The clip is kept exactly when its path exists
      right after that run.
    - [segs] chains the segments in the order of the sorted keys, and
      [run_spec] is the whole run of lines 15-114.

    [refines w a] relates the worker's state to an abstract state: the same
    files and events, and [video_parts] the manifest lines of the kept
    keys.  [create_video_body_refinement] shows that the worker completes
    from [w] in [w'] exactly when the abstract machine goes from [w] to a
    state that [w'] refines (a forward and a backward simulation, segment
    by segment).  Two uses of the machine follow: a working environment
    always completes the run with every key in the manifest
    ([create_video_completes]), and an encoder that renders some outputs
    only keeps the keys rendered or left by an earlier run
    ([encoder_by_output_manifest]). *)

From stdpp Require Import base list gmap sets strings.
From Stdlib Require Import Ascii String ZArith QArith.
From S2P Require Import Prelude PyStr PyInt Effects Discovery Render Pipeline.

(** ** The abstract machine *)

Record astate := AState {
  a_fs : fsys;
  a_events : list ui_event;
  a_kept : list string
}.

(** The events of one segment that completes, lines 34-104. *)
Definition segment_events (key : string) (e : effect) (produced : bool) (p : Q)
    : list ui_event :=
  [Log (String newline ("🎞️ Processing segment: " +:+ key)); Log (effect_log e key)] ++
  (if produced then [] else [Log ("❌ Failed to create video for segment " +:+ key)]) ++
  [Progress p].

Section SegmentSpec.
Context `{!MediaEnv}.
Variables (images audios : gmap string string) (g : effect_groups)
  (temp_folder : string) (total : nat).

(** The state after segment [i], [key], rendered with effect [e] into the
    file system [fs']. *)
Definition seg_after (i : nat) (key : string) (e : effect) (fs' : fsys) (a : astate)
    : astate :=
  let produced := path_exists fs' (part_path temp_folder key) in
  {| a_fs := fs';
     a_events := a_events a ++ segment_events key e produced (progress_value i total);
     a_kept := a_kept a ++ (if produced then [key] else []) |}.

Inductive seg_step (i : nat) (key : string) (a : astate) : astate -> Prop :=
  | SegRendered img mp3 dur fs' :
      images !! key = Some img ->
      audios !! key = Some mp3 ->
      env_mp3_length mp3 = Ok dur ->
      env_run (effect_cmd (choose_effect g key dur) img mp3 (env_float_str dur)
                 (part_path temp_folder key)) (a_fs a) = Ok fs' ->
      seg_step i key a (seg_after i key (choose_effect g key dur) fs' a).

(** The segments from position [i] on, in order. *)
Inductive segs : nat -> list string -> astate -> astate -> Prop :=
  | SegsNil i a : segs i [] a a
  | SegsCons i key ks a a1 a2 :
      seg_step i key a a1 -> segs (S i) ks a1 a2 -> segs i (key :: ks) a a2.

(** The worker's state implements the abstract one. *)
Definition refines (w : worker) (a : astate) : Prop :=
  w_fs w = a_fs a /\ w_events w = a_events a /\
  video_parts w = map (part_line temp_folder) (a_kept a).
End SegmentSpec.

(** ** The whole run *)

Section RunSpec.
Context `{!MediaEnv}.

(** The state the loop starts from: [os.makedirs] has added the temporary
    folder, and [video_parts] is empty. *)
Definition loop_start (input_folder : string) (a : astate) : astate :=
  {| a_fs := {| fs_files := fs_files (a_fs a);
                fs_dirs := {[temp_of input_folder]} ∪ fs_dirs (a_fs a) |};
     a_events := a_events a;
     a_kept := [] |}.

(** The manifest the run writes for the kept keys. *)
Definition manifest_text (input_folder : string) (kept : list string) : string :=
  str_join (String newline EmptyString) (map (part_line (temp_of input_folder)) kept).

Definition done_events : list ui_event :=
  [Log (String newline "✅ Done! Output video created: output_video.mp4");
   ShowInfo "Success" "Video created successfully!"].

(** A completed run of lines 15-114, from [a] to the final state. *)
Inductive run_spec (input_folder : string) (z p s : Z) (a : astate) : astate -> Prop :=
  | RunCompleted files d a1 fs' :
      env_listdir input_folder = Ok files ->
      discover env_set_iter input_folder files = Ok d ->
      temp_of input_folder ∉ dom (fs_files (a_fs a)) ->
      segs (images d) (audios d) (assign_effects (env_shuffle (keys d)) z p s)
        (temp_of input_folder) (List.length (keys d)) 0 (keys d) (loop_start input_folder a) a1 ->
      manifest_of input_folder ∉ fs_dirs (a_fs a1) ->
      temp_of input_folder ∈ fs_dirs (a_fs a1) ->
      env_run (concat_cmd (manifest_of input_folder) (output_of input_folder))
        {| fs_files := <[manifest_of input_folder := manifest_text input_folder (a_kept a1)]>
                         (fs_files (a_fs a1));
           fs_dirs := fs_dirs (a_fs a1) |} = Ok fs' ->
      run_spec input_folder z p s a
        {| a_fs := fs'; a_events := a_events a1 ++ done_events; a_kept := a_kept a1 |}.
End RunSpec.

Definition start_of (w : worker) : astate :=
  {| a_fs := w_fs w; a_events := w_events w; a_kept := [] |}.

(** ** Concrete environments *)

Definition sample_keys_discovery : discovery :=
  {| images := images_of "/in" sample_files; audios := audios_of "/in" sample_files;
     keys := ["1"; "2"] |}.

(** The spec's scenario of a failed render (section 8): three pairs, the
    encoder fails to write the clip of key 2 only. *)
Definition failing_encoder (bad : string) (cmd : list string) (fs : fsys) : pyres fsys :=
  match last cmd with
  | Some out =>
      if String.eqb out bad then Ok fs
      else Ok {| fs_files := <[out := ""]> (fs_files fs); fs_dirs := fs_dirs fs |}
  | None => Ok fs
  end.

Definition bad_clip : string := "/in/temp/part_2.mp4".

Definition failing_env : MediaEnv := {|
  env_listdir := fun _ => Ok ["1.jpg"; "1.mp3"; "2.jpg"; "2.mp3"; "3.jpg"; "3.mp3"];
  env_mp3_length := fun _ => Ok 8%Q;
  env_run := failing_encoder bad_clip;
  env_set_iter := elements;
  env_shuffle := fun l => l;
  env_float_str := fun _ => "8.0"
|}.

Definition renders_but_bad (out : string) : bool := negb (String.eqb out bad_clip).

(** The keys whose clip exists after their render, for an encoder that
    renders the outputs [renders] accepts: rendered now, or left in [fs]
    by an earlier run. *)
Definition kept_by_output (renders : string -> bool) (temp_folder : string) (fs : fsys)
    (ks : list string) : list string :=
  filter (fun k => renders (part_path temp_folder k)
                   || path_exists fs (part_path temp_folder k) = true) ks.


(** ** The render step dispatches on [choose_effect] *)

Section RenderRun.
Context `{!MediaEnv}.

(** The [if]/[elif] chain of lines 42-97 logs the line of the effect
    [choose_effect] picks and runs the command of that effect. *)
Lemma render_segment_run (g : effect_groups) (key img mp3 : string) (d : Q)
    (out : string) (w : worker) :
  render_segment g key img mp3 d out w =
  match env_run (effect_cmd (choose_effect g key d) img mp3 (env_float_str d) out) (w_fs w) with
  | Ok fs' => (Ok tt, set_fs (add_event w (Log (effect_log (choose_effect g key d) key))) fs')
  | Raise ex => (Raise ex, add_event w (Log (effect_log (choose_effect g key d) key)))
  end.
Proof.
  unfold render_segment, apply_effect, choose_effect, subprocess_run, log_callback, emit.
  py_unfold.
  destruct (bool_decide (key ∈ zoom_keys g) && longer_than_6 d);
    [| destruct (bool_decide (key ∈ pan_keys g));
       [| destruct (bool_decide (key ∈ shake_keys g))]];
    cbn [w_fs add_event]; by destruct (env_run _ _).
Qed.
End RenderRun.

(** Close [refines w' (seg_after ...)] once both states are explicit. *)
Ltac refines_close Hev Hp :=
  unfold refines, seg_after, segment_events;
  cbn [w_fs w_events video_parts a_fs a_events a_kept add_event set_parts set_fs];
  match goal with H : path_exists _ _ = _ |- _ => rewrite H end;
  rewrite Hev, Hp, ?map_app, <- ?app_assoc; simpl; by rewrite ?app_nil_r.

(** ** Forward simulation: the worker's completed steps are abstract steps *)

Section Simulation.
Context `{!MediaEnv}.
Variables (images audios : gmap string string) (g : effect_groups)
  (temp_folder : string) (total : nat).

Lemma process_segment_refines (i : nat) (key : string) (w w' : worker) (a : astate) :
  refines temp_folder w a ->
  process_segment images audios g temp_folder total i key w = (Ok tt, w') ->
  exists a', seg_step images audios g temp_folder total i key a a' /\
             refines temp_folder w' a'.
Proof.
  intros (Hfs & Hev & Hp) Hrun.
  unfold process_segment, log_callback, progress_callback, emit, append_part, get_duration,
    dict_get in Hrun.
  py_unfold. repeat (rewrite render_segment_run in Hrun || case_match); simplify_eq/=.
  all: rewrite Hfs in *; eexists; split; [by econstructor |].
  all: refines_close Hev Hp.
Qed.

(** The abstract steps are the worker's: a segment the machine completes,
    the worker completes too. *)
Lemma process_segment_complete (i : nat) (key : string) (w : worker) (a a' : astate) :
  refines temp_folder w a ->
  seg_step images audios g temp_folder total i key a a' ->
  exists w', process_segment images audios g temp_folder total i key w = (Ok tt, w') /\
             refines temp_folder w' a'.
Proof.
  intros (Hfs & Hev & Hp) [img mp3 dur fs' Hi Ha Hd He].
  unfold process_segment, log_callback, progress_callback, emit, append_part, get_duration,
    dict_get.
  py_unfold. rewrite Hi, Ha, Hd, render_segment_run. cbn [w_fs add_event].
  rewrite Hfs, He. cbn [w_fs set_fs].
  destruct (path_exists fs' (part_path temp_folder key)) eqn:Hx;
    (eexists; split; [reflexivity |]); refines_close Hev Hp.
Qed.

(** The loop over the keys, both ways. *)
Lemma loop_refines (ks : list string) (i : nat) (w w' : worker) (a : astate) :
  refines temp_folder w a ->
  for_enum i ks (process_segment images audios g temp_folder total) w = (Ok tt, w') ->
  exists a', segs images audios g temp_folder total i ks a a' /\ refines temp_folder w' a'.
Proof.
  revert i w a. induction ks as [|key ks IH]; intros i w a Hr Hrun.
  - injection Hrun as <-. exists a. split; [constructor | done].
  - apply for_enum_cons_inv in Hrun as [(w1 & H1 & Hrest) | (e & _ & [=])].
    destruct (process_segment_refines _ _ _ _ _ Hr H1) as (a1 & Hs1 & Hr1).
    destruct (IH _ _ _ Hr1 Hrest) as (a2 & Hs2 & Hr2).
    exists a2. split; [econstructor; eauto | done].
Qed.

Lemma loop_complete (ks : list string) (i : nat) (w : worker) (a a' : astate) :
  segs images audios g temp_folder total i ks a a' ->
  refines temp_folder w a ->
  exists w', for_enum i ks (process_segment images audios g temp_folder total) w = (Ok tt, w')
             /\ refines temp_folder w' a'.
Proof.
  intros Hs. revert w. induction Hs as [i a|i key ks a a1 a2 H1 _ IH]; intros w Hr.
  - by exists w.
  - destruct (process_segment_complete _ _ _ _ _ Hr H1) as (w1 & Hw1 & Hr1).
    destruct (IH _ Hr1) as (w2 & Hw2 & Hr2).
    exists w2. split; [| done]. simpl. unfold bind. by rewrite Hw1.
Qed.
End Simulation.

(** ** The refinement theorem *)



Lemma refines_unique (temp_folder : string) (w1 w2 : worker) (a : astate) :
  refines temp_folder w1 a -> refines temp_folder w2 a -> w1 = w2.
Proof.
  destruct w1, w2. intros (? & ? & ?) (? & ? & ?). simpl in *. f_equal; congruence.
Qed.

Section Refinement.
Context `{!MediaEnv}.

Lemma create_video_body_refines (input_folder : string) (z p s : Z) (w w' : worker) :
  create_video_body input_folder z p s w = (Ok tt, w') ->
  exists a', run_spec input_folder z p s (start_of w) a' /\
             refines (temp_of input_folder) w' a'.
Proof.
  intros Hrun.
  unfold create_video_body, os_listdir, os_makedirs_exist_ok, write_text, subprocess_run,
    log_callback, messagebox_showinfo, emit in Hrun.
  py_unfold. repeat case_match; simplify_eq/=.
  repeat match goal with u : unit |- _ => destruct u end.
  match goal with
  | Hl : for_enum _ _ _ _ = (Ok tt, _) |- _ =>
      eapply (loop_refines _ _ _ _ _ _ _ _ _ (loop_start input_folder (start_of w))) in Hl
        as (a1 & Hs & Hf & He & Hv); [| split_and!; reflexivity]
  end.
  rewrite Hf, Hv in *.
  repeat match goal with H : bool_decide _ = false |- _ => apply bool_decide_eq_false in H end.
  eexists. split.
  - econstructor; try eassumption. by apply dec_stable.
  - unfold refines, done_events. cbn. rewrite He, <- app_assoc. done.
Qed.

Lemma create_video_body_complete (input_folder : string) (z p s : Z) (w w' : worker)
    (a' : astate) :
  run_spec input_folder z p s (start_of w) a' ->
  refines (temp_of input_folder) w' a' ->
  create_video_body input_folder z p s w = (Ok tt, w').
Proof.
  intros [files d a1 fs' Hl Hd Ht Hs Hm Htd Hr] Hw'.
  destruct (loop_complete _ _ _ _ _ _ _
              (set_parts (set_fs w {| fs_files := fs_files (w_fs w);
                                      fs_dirs := {[temp_of input_folder]} ∪ fs_dirs (w_fs w) |})
                 []) _ _ Hs ltac:(split_and!; reflexivity)) as (w1 & Hloop & Hf & He & Hv).
  unfold create_video_body, os_listdir, os_makedirs_exist_ok, write_text, subprocess_run,
    log_callback, messagebox_showinfo, emit.
  py_unfold. rewrite Hl, Hd.
  unfold manifest_of, output_of, manifest_text, temp_of in *. cbn [start_of a_fs] in Ht.
  rewrite bool_decide_false by exact Ht. cbv beta iota zeta.
  rewrite Hloop. cbv beta iota zeta. rewrite Hf, Hv.
  rewrite bool_decide_false by exact Hm.
  rewrite bool_decide_false by (intros Hn; exact (Hn Htd)). cbv beta iota zeta.
  cbn [w_fs set_fs]. rewrite Hr. f_equal.
  eapply (refines_unique (temp_of input_folder)); [| exact Hw'].
  unfold refines, done_events. cbn. rewrite He, Hv, <- app_assoc. done.
Qed.

(** C9. The worker implements the abstract machine: it completes from [w] in
    [w'] exactly when the machine goes from [w] to a state [w'] refines.
    Each segment then contributes the block [segment_events] with the
    effect [choose_effect] picks, and the manifest lists exactly the keys
    whose clip exists right after their own render, in key order. *)
Theorem create_video_body_refinement (input_folder : string) (z p s : Z) (w w' : worker) :
  create_video_body input_folder z p s w = (Ok tt, w') <->
  exists a', run_spec input_folder z p s (start_of w) a' /\
             refines (temp_of input_folder) w' a'.
Proof.
  split; [apply create_video_body_refines |].
  intros (a' & Hs & Hr). by eapply create_video_body_complete.
Qed.
End Refinement.

(** ** A working environment completes the run *)

Section Completion.
Context `{!MediaEnv}.

(** Every MP3 file can be read, and the encoder always starts, writes the
    file named by its last argument and leaves the directories alone. *)
Hypothesis mp3_readable : forall mp3, exists dur, env_mp3_length mp3 = Ok dur.
Hypothesis encoder_writes : forall cmd fs out,
  last cmd = Some out ->
  exists fs', env_run cmd fs = Ok fs' /\ out ∈ dom (fs_files fs') /\ fs_dirs fs' = fs_dirs fs.

Lemma segs_total (images audios : gmap string string) (g : effect_groups)
    (temp_folder : string) (total : nat) (ks : list string) (i : nat) (a : astate) :
  (forall k, k ∈ ks -> k ∈ dom images /\ k ∈ dom audios) ->
  exists a', segs images audios g temp_folder total i ks a a' /\
    a_kept a' = a_kept a ++ ks /\ fs_dirs (a_fs a') = fs_dirs (a_fs a).
Proof.
  revert i a. induction ks as [|key ks IH]; intros i a Hdom.
  - exists a. rewrite app_nil_r. split_and!; [constructor | done ..].
  - destruct (Hdom key) as [[img Hi]%elem_of_dom [mp3 Ha]%elem_of_dom]; [set_solver |].
    destruct (mp3_readable mp3) as [dur Hd].
    destruct (encoder_writes
                (effect_cmd (choose_effect g key dur) img mp3 (env_float_str dur)
                   (part_path temp_folder key)) (a_fs a) _ (effect_cmd_last _ _ _ _ _))
      as (fs' & He & Hout & Hdirs).
    destruct (IH (S i) (seg_after temp_folder total i key (choose_effect g key dur) fs' a))
      as (a2 & Hs2 & Hk2 & Hd2); [set_solver |].
    exists a2. split_and!.
    + econstructor; [by econstructor | exact Hs2].
    + rewrite Hk2. unfold seg_after, path_exists. cbn [a_kept].
      rewrite bool_decide_true by done. by rewrite <- app_assoc.
    + by rewrite Hd2.
Qed.

End Completion.

(** ** The manifest under an encoder that renders some outputs

    An encoder run leaves the directories and every path but its output
    alone; its output exists afterwards when [renders] holds of it or when
    it existed before (the code does not check the exit status, and a
    failing run may leave an old file in place).  [renders] constant
    [false] is an encoder that never writes, constant [true] one that
    always does. *)

Lemma part_path_neq_temp (temp_folder key : string) : part_path temp_folder key <> temp_folder.
Proof. apply path_join_neq_l; [reflexivity | done]. Qed.

Section ByOutput.
Context `{!MediaEnv}.
Variable renders : string -> bool.
Hypothesis encoder_by_output : forall cmd fs fs' out,
  env_run cmd fs = Ok fs' -> last cmd = Some out ->
  fs_dirs fs' = fs_dirs fs /\
  (forall q, q <> out -> (q ∈ dom (fs_files fs') <-> q ∈ dom (fs_files fs))) /\
  (out ∈ dom (fs_files fs') <-> renders out = true \/ out ∈ dom (fs_files fs)).

Lemma path_exists_render (cmd : list string) (fs fs' : fsys) (out q : string) :
  env_run cmd fs = Ok fs' -> last cmd = Some out ->
  path_exists fs' q = if decide (q = out) then renders out || path_exists fs q
                      else path_exists fs q.
Proof.
  intros Hr Hl. destruct (encoder_by_output _ _ _ _ Hr Hl) as (Hd & Hq & Ho).
  unfold path_exists. rewrite Hd.
  case_decide as Heq; [subst q |]; apply eq_bool_prop_intro;
    rewrite ?orb_True, ?Is_true_true, ?bool_decide_eq_true; naive_solver.
Qed.

(** The segments keep the keys whose clip was rendered or was there at the
    start, and change no other path. *)
Lemma segs_by_output (images audios : gmap string string) (g : effect_groups)
    (temp_folder : string) (total : nat) (i : nat) (ks : list string) (a a' : astate) :
  segs images audios g temp_folder total i ks a a' -> NoDup ks ->
  a_kept a' = a_kept a ++ kept_by_output renders temp_folder (a_fs a) ks /\
  (forall q, (forall k, k ∈ ks -> q <> part_path temp_folder k) ->
     path_exists (a_fs a') q = path_exists (a_fs a) q).
Proof.
  unfold kept_by_output.
  induction 1 as [i a|i key ks a a1 a2 [img mp3 dur fs' _ _ _ He] _ IH];
    intros Hnd; [by rewrite app_nil_r |].
  apply NoDup_cons in Hnd as [Hkey Hnd]. destruct (IH Hnd) as [IHk IHq].
  pose proof (fun q => path_exists_render _ _ _ _ q He (effect_cmd_last _ _ _ _ _)) as Hx.
  cbn [seg_after a_fs a_kept] in *. split.
  - rewrite IHk, filter_cons, Hx, decide_True, <- app_assoc by done. f_equal.
    rewrite (filter_ext_in _ (fun k => renders (part_path temp_folder k)
                                      || path_exists (a_fs a) (part_path temp_folder k) = true));
      [by destruct (_ || _) |].
    intros k Hk. rewrite Hx, decide_False; [done |].
    rewrite part_path_eq. set_solver.
  - intros q Hq. rewrite IHq, Hx, decide_False; [done | | set_solver].
    apply Hq. by left.
Qed.

(** C11. When the encoder renders exactly the outputs [renders] accepts, the
    manifest of a completed run lists, in key order, exactly the keys whose
    clip was rendered or already existed before the run: a failed render
    drops its key unless a clip of an earlier run is still there. *)
Theorem encoder_by_output_manifest `{!MediaEnvLaws} (input_folder : string) (z p s : Z)
    (w w' : worker) :
  create_video_body input_folder z p s w = (Ok tt, w') ->
  exists files d,
    env_listdir input_folder = Ok files /\
    discover env_set_iter input_folder files = Ok d /\
    video_parts w' = map (part_line (temp_of input_folder))
      (kept_by_output renders (temp_of input_folder) (w_fs w) (keys d)).
Proof.
  intros Hb.
  apply create_video_body_refines in Hb as (a' & [files d a1 fs' Hl Hd _ Hs _ _ _] & _ & _ & Hv).
  apply segs_by_output in Hs as [Hk _]; [| exact (discover_keys_NoDup _ set_iter_perm _ _ _ Hd)].
  exists files, d. split_and!; [done | done |].
  rewrite Hv. cbn [a_kept]. rewrite Hk. cbn [loop_start a_kept a_fs start_of app].
  unfold kept_by_output.
  f_equal. apply list_filter_iff. intros k.
  pose proof (part_path_neq_temp (temp_of input_folder) k).
  unfold path_exists. cbn [fs_files fs_dirs]. rewrite !orb_true_iff, !bool_decide_eq_true.
  set_solver.
Qed.
End ByOutput.

(** ** The manifest read back *)

Lemma has_char_part_line (c : ascii) (temp_folder key : string) :
  has_char c temp_folder = false -> has_char c key = false -> has_char c "/" = false ->
  has_char c "file '" = false -> has_char c "part_" = false -> has_char c ".mp4" = false ->
  has_char c "'" = false ->
  has_char c (part_line temp_folder key) = false.
Proof.
  intros Ht Hk Hs H1 H2 H3 H4. unfold part_line, part_path.
  rewrite !has_char_app, has_char_path_join; rewrite ?has_char_app; by rewrite ?Ht, ?Hk, ?H1, ?H2, ?H3, ?H4.
Qed.

(** C28. The manifest round trip: the concat demuxer, reading
    [file_list.txt] line by line, reads back one entry per kept key, in
    order, when the folder's path and the keys hold no newline. *)
Theorem manifest_roundtrip (input_folder : string) (kept : list string) :
  kept <> [] -> has_char newline input_folder = false ->
  Forall (fun k => has_char newline k = false) kept ->
  lines (manifest_text input_folder kept) = map (part_line (temp_of input_folder)) kept.
Proof.
  intros Hne Hf Hk. unfold manifest_text. apply lines_str_join.
  - by destruct kept.
  - apply Forall_map. refine (Forall_impl _ _ _ Hk _). intros k Hk'.
    apply has_char_part_line; [unfold temp_of; by apply has_char_path_join | done ..].
Qed.


(** ** Witnesses *)


Lemma sample_env_mp3_readable : forall mp3, exists dur, @env_mp3_length sample_env mp3 = Ok dur.
Proof. intros mp3. exists 8%Q. reflexivity. Qed.

Lemma writing_encoder_writes : forall cmd fs out,
  last cmd = Some out ->
  exists fs', writing_encoder cmd fs = Ok fs' /\ out ∈ dom (fs_files fs') /\
              fs_dirs fs' = fs_dirs fs.
Proof.
  intros cmd fs out Hlast. unfold writing_encoder. rewrite Hlast.
  eexists. split_and!; [reflexivity | | reflexivity].
  apply elem_of_dom. cbn [fs_files]. rewrite lookup_insert_eq. by eexists.
Qed.




Lemma failing_env_laws : @MediaEnvLaws failing_env.
Proof. split; reflexivity. Qed.


Lemma failing_encoder_by_output : forall cmd fs fs' out,
  @env_run failing_env cmd fs = Ok fs' -> last cmd = Some out ->
  fs_dirs fs' = fs_dirs fs /\
  (forall q, q <> out -> (q ∈ dom (fs_files fs') <-> q ∈ dom (fs_files fs))) /\
  (out ∈ dom (fs_files fs') <-> renders_but_bad out = true \/ out ∈ dom (fs_files fs)).
Proof.
  intros cmd fs fs' out Hr Hl. cbn [env_run failing_env] in Hr.
  unfold failing_encoder in Hr. rewrite Hl in Hr. unfold renders_but_bad.
  destruct (String.eqb_spec out bad_clip) as [_|Hne]; injection Hr as <-; cbn [fs_files fs_dirs].
  - split_and!; [done | done | naive_solver].
  - rewrite dom_insert_L. split_and!; [done | set_solver |]. set_solver.
Qed.

Lemma encoder_by_output_manifest_witness :
  exists files d,
    @env_listdir failing_env "/in" = Ok files /\
    @discover (@env_set_iter failing_env) "/in" files = Ok d /\
    video_parts (snd (@create_video_body failing_env "/in" 1 1 1 (start_worker no_files)))
    = map (part_line (temp_of "/in"))
        (filter (fun k => renders_but_bad (part_path (temp_of "/in") k)
                          || path_exists (w_fs (start_worker no_files))
                               (part_path (temp_of "/in") k) = true) (keys d)).
Proof.
  apply (@encoder_by_output_manifest failing_env renders_but_bad failing_encoder_by_output
           failing_env_laws "/in" 1 1 1 (start_worker no_files)).
  vm_compute. reflexivity.
Defined.

(** In that scenario the run completes, the manifest lists the clips of
    keys 1 and 3 in that order, the failure of key 2 is logged and the
    progress reaches 100. *)
Lemma failed_render_scenario :
  match @create_video_body failing_env "/in" 1 1 1 (start_worker no_files) with
  | (r, w) =>
      r = Ok tt /\
      video_parts w = [part_line "/in/temp" "1"; part_line "/in/temp" "3"] /\
      Log ("❌ Failed to create video for segment " +:+ "2") ∈ w_events w /\
      last (progress_events (w_events w)) = Some (progress_value 2 3)
  end.
Proof.
  run_concrete. split_and!; try reflexivity.
  apply (bool_decide_unpack _). vm_compute. reflexivity.
Qed.
Lemma manifest_roundtrip_witness :
  lines (manifest_text "/in" ["1"; "2"]) = map (part_line (temp_of "/in")) ["1"; "2"].
Proof.
  apply manifest_roundtrip; [discriminate | reflexivity |].
  apply (bool_decide_unpack _). vm_compute. reflexivity.
Defined.

Lemma create_video_body_refinement_witness :
  exists a', @run_spec sample_env "/in" 1 0 0 (start_of (start_worker no_files)) a' /\
             refines (temp_of "/in") sample_final a'.
Proof.
  apply (proj1 (@create_video_body_refinement sample_env "/in" 1 0 0 (start_worker no_files)
                  sample_final)).
  vm_compute. reflexivity.
Defined.
