(* ===== verification/RunErrors.v ===== *)
(** * The runs that raise, as abstract runs

    [Refinement] describes the runs of [create_video_body] that complete.
    This file describes the others: the statement of lines 15-111 that
    raises, and what the run has done by then.  [seg_raise] is a segment
    that raises (a key missing from a dict, mutagen, or the encoder that
    cannot start), [segs_raise] the loop that raises in one of its
    segments after completing the ones before, [run_raise] the whole try
    block.  The local list [video_parts] dies with the exception, so a
    raising run is observed through its files and events only
    ([observes]).  [create_video_body_raise_refinement] shows that the
    worker raises [e] exactly when the abstract run does, and
    [worker_spec] puts both kinds of run together with the [except]
    handler of lines 115-117: the whole of [create_video_with_ffmpeg]. *)

From stdpp Require Import base list gmap sets strings.
From Stdlib Require Import Ascii String ZArith QArith.
From S2P Require Import Prelude PyStr PyInt Effects Discovery Render Pipeline Refinement.

(** ** Abstract runs that raise *)

(** The log line each segment starts with. *)
Definition processing_log (key : string) : ui_event :=
  Log (String newline ("🎞️ Processing segment: " +:+ key)).

(** An abstract state with more events. *)
Definition add_events (a : astate) (evs : list ui_event) : astate :=
  {| a_fs := a_fs a; a_events := a_events a ++ evs; a_kept := a_kept a |}.

Section SegmentRaise.
Context `{!MediaEnv}.
Variables (images audios : gmap string string) (g : effect_groups)
  (temp_folder : string) (total : nat).

(** A segment that raises, lines 34-54: after its first log line, at
    [images[key]], [audios[key]] or [get_duration]; or after the log line
    of its effect, when the encoder cannot be started. *)
Inductive seg_raise (key : string) (a : astate) : py_exc -> astate -> Prop :=
  | NoImage :
      images !! key = None ->
      seg_raise key a (PyExc KeyError (py_repr key)) (add_events a [processing_log key])
  | NoAudio img :
      images !! key = Some img -> audios !! key = None ->
      seg_raise key a (PyExc KeyError (py_repr key)) (add_events a [processing_log key])
  | Mp3Error img mp3 e :
      images !! key = Some img -> audios !! key = Some mp3 ->
      env_mp3_length mp3 = Raise e ->
      seg_raise key a e (add_events a [processing_log key])
  | EncoderError img mp3 dur e :
      images !! key = Some img -> audios !! key = Some mp3 ->
      env_mp3_length mp3 = Ok dur ->
      env_run (effect_cmd (choose_effect g key dur) img mp3 (env_float_str dur)
                 (part_path temp_folder key)) (a_fs a) = Raise e ->
      seg_raise key a e
        (add_events a [processing_log key; Log (effect_log (choose_effect g key dur) key)]).

(** The loop raises in one of its segments, the ones before it complete. *)
Inductive segs_raise : nat -> list string -> astate -> py_exc -> astate -> Prop :=
  | RaiseHere i key ks a e a' :
      seg_raise key a e a' -> segs_raise i (key :: ks) a e a'
  | RaiseLater i key ks a a1 e a' :
      seg_step images audios g temp_folder total i key a a1 ->
      segs_raise (S i) ks a1 e a' -> segs_raise i (key :: ks) a e a'.
End SegmentRaise.

Section RunRaise.
Context `{!MediaEnv}.

Definition makedirs_error (input_folder : string) : py_exc :=
  PyExc FileExistsError ("[Errno 17] File exists: " +:+ py_repr (temp_of input_folder)).

Definition manifest_is_dir (input_folder : string) : py_exc :=
  PyExc IsADirectoryError ("[Errno 21] Is a directory: " +:+ py_repr (manifest_of input_folder)).

Definition manifest_no_parent (input_folder : string) : py_exc :=
  PyExc FileNotFoundError
    ("[Errno 2] No such file or directory: " +:+ py_repr (manifest_of input_folder)).

(** The try block of lines 15-111 raises [e], leaving the abstract state
    [a']. *)
Inductive run_raise (input_folder : string) (z p s : Z) (a : astate) : py_exc -> astate -> Prop :=
  | ListdirError e :
      env_listdir input_folder = Raise e -> run_raise input_folder z p s a e a
  | DiscoverError files e :
      env_listdir input_folder = Ok files ->
      discover env_set_iter input_folder files = Raise e ->
      run_raise input_folder z p s a e a
  | TempIsFile files d :
      env_listdir input_folder = Ok files ->
      discover env_set_iter input_folder files = Ok d ->
      temp_of input_folder ∈ dom (fs_files (a_fs a)) ->
      run_raise input_folder z p s a (makedirs_error input_folder) a
  | SegmentError files d e a' :
      env_listdir input_folder = Ok files ->
      discover env_set_iter input_folder files = Ok d ->
      temp_of input_folder ∉ dom (fs_files (a_fs a)) ->
      segs_raise (images d) (audios d) (assign_effects (env_shuffle (keys d)) z p s)
        (temp_of input_folder) (List.length (keys d)) 0 (keys d) (loop_start input_folder a) e a' ->
      run_raise input_folder z p s a e a'
  | ManifestIsDir files d a1 :
      env_listdir input_folder = Ok files ->
      discover env_set_iter input_folder files = Ok d ->
      temp_of input_folder ∉ dom (fs_files (a_fs a)) ->
      segs (images d) (audios d) (assign_effects (env_shuffle (keys d)) z p s)
        (temp_of input_folder) (List.length (keys d)) 0 (keys d) (loop_start input_folder a) a1 ->
      manifest_of input_folder ∈ fs_dirs (a_fs a1) ->
      run_raise input_folder z p s a (manifest_is_dir input_folder) a1
  | ManifestNoParent files d a1 :
      env_listdir input_folder = Ok files ->
      discover env_set_iter input_folder files = Ok d ->
      temp_of input_folder ∉ dom (fs_files (a_fs a)) ->
      segs (images d) (audios d) (assign_effects (env_shuffle (keys d)) z p s)
        (temp_of input_folder) (List.length (keys d)) 0 (keys d) (loop_start input_folder a) a1 ->
      manifest_of input_folder ∉ fs_dirs (a_fs a1) ->
      temp_of input_folder ∉ fs_dirs (a_fs a1) ->
      run_raise input_folder z p s a (manifest_no_parent input_folder) a1
  | ConcatError files d a1 e :
      env_listdir input_folder = Ok files ->
      discover env_set_iter input_folder files = Ok d ->
      temp_of input_folder ∉ dom (fs_files (a_fs a)) ->
      segs (images d) (audios d) (assign_effects (env_shuffle (keys d)) z p s)
        (temp_of input_folder) (List.length (keys d)) 0 (keys d) (loop_start input_folder a) a1 ->
      manifest_of input_folder ∉ fs_dirs (a_fs a1) ->
      temp_of input_folder ∈ fs_dirs (a_fs a1) ->
      env_run (concat_cmd (manifest_of input_folder) (output_of input_folder))
        {| fs_files := <[manifest_of input_folder := manifest_text input_folder (a_kept a1)]>
                         (fs_files (a_fs a1));
           fs_dirs := fs_dirs (a_fs a1) |} = Raise e ->
      run_raise input_folder z p s a e
        {| a_fs := {| fs_files := <[manifest_of input_folder :=
                                      manifest_text input_folder (a_kept a1)]> (fs_files (a_fs a1));
                      fs_dirs := fs_dirs (a_fs a1) |};
           a_events := a_events a1; a_kept := a_kept a1 |}.
End RunRaise.

(** What is left of a run once its local variables are gone. *)
Definition observes (w : worker) (a : astate) : Prop :=
  w_fs w = a_fs a /\ w_events w = a_events a.

(** The events of the [except] handler, lines 116-117. *)
Definition error_events (e : py_exc) : list ui_event :=
  [Log ("Error: " +:+ exc_msg e); ShowError "Error" (exc_msg e)].

(** ** A segment that raises, both ways *)

Section SegmentRaiseSim.
Context `{!MediaEnv}.
Variables (images audios : gmap string string) (g : effect_groups)
  (temp_folder : string) (total : nat).

Lemma process_segment_raise_refines (i : nat) (key : string) (w w' : worker) (a : astate)
    (e : py_exc) :
  refines temp_folder w a ->
  process_segment images audios g temp_folder total i key w = (Raise e, w') ->
  exists a', seg_raise images audios g temp_folder key a e a' /\ observes w' a'.
Proof.
  intros (Hfs & Hev & _) Hrun.
  unfold process_segment, log_callback, progress_callback, emit, append_part, get_duration,
    dict_get in Hrun.
  py_unfold. repeat (rewrite render_segment_run in Hrun || case_match); simplify_eq/=.
  all: rewrite ?Hfs in *; eexists; split; [by econstructor |].
  all: unfold observes, add_events; cbn; by rewrite Hev, ?Hfs, <- ?app_assoc.
Qed.

Lemma process_segment_raise_complete (i : nat) (key : string) (w : worker) (a a' : astate)
    (e : py_exc) :
  refines temp_folder w a ->
  seg_raise images audios g temp_folder key a e a' ->
  exists w', process_segment images audios g temp_folder total i key w = (Raise e, w') /\
             observes w' a'.
Proof.
  intros (Hfs & Hev & _) Hs.
  unfold process_segment, log_callback, progress_callback, emit, append_part, get_duration,
    dict_get.
  py_unfold.
  destruct Hs as [Hi | img Hi Ha | img mp3 e' Hi Ha Hd | img mp3 dur e' Hi Ha Hd He];
    rewrite ?Hi, ?Ha, ?Hd, ?render_segment_run; cbn [w_fs add_event]; rewrite ?Hfs, ?He;
    (eexists; split; [reflexivity |]);
    unfold observes, add_events; cbn; by rewrite ?Hev, ?Hfs, <- ?app_assoc.
Qed.

Lemma loop_raise_refines (ks : list string) (i : nat) (w w' : worker) (a : astate) (e : py_exc) :
  refines temp_folder w a ->
  for_enum i ks (process_segment images audios g temp_folder total) w = (Raise e, w') ->
  exists a', segs_raise images audios g temp_folder total i ks a e a' /\ observes w' a'.
Proof.
  revert i w a. induction ks as [|key ks IH]; intros i w a Hr Hrun; [by injection Hrun |].
  apply for_enum_cons_inv in Hrun as [(w1 & H1 & Hrest) | (e' & H1 & [= ->])].
  - destruct (process_segment_refines _ _ _ _ _ _ _ _ _ _ Hr H1) as (a1 & Hs1 & Hr1).
    destruct (IH _ _ _ Hr1 Hrest) as (a2 & Hs2 & Ho).
    exists a2. split; [econstructor 2; eauto | done].
  - destruct (process_segment_raise_refines _ _ _ _ _ _ Hr H1) as (a' & Hs & Ho).
    exists a'. split; [by constructor | done].
Qed.

Lemma loop_raise_complete (ks : list string) (i : nat) (w : worker) (a a' : astate)
    (e : py_exc) :
  segs_raise images audios g temp_folder total i ks a e a' ->
  refines temp_folder w a ->
  exists w', for_enum i ks (process_segment images audios g temp_folder total) w = (Raise e, w')
             /\ observes w' a'.
Proof.
  intros Hs. revert w.
  induction Hs as [i key ks a e a' H1 | i key ks a a1 e a' H1 _ IH]; intros w Hr.
  - destruct (process_segment_raise_complete i _ _ _ _ _ Hr H1) as (w' & Hw & Ho).
    exists w'. split; [| done]. simpl. unfold bind. by rewrite Hw.
  - destruct (process_segment_complete _ _ _ _ _ _ _ _ _ _ Hr H1) as (w1 & Hw1 & Hr1).
    destruct (IH _ Hr1) as (w2 & Hw2 & Ho).
    exists w2. split; [| done]. simpl. unfold bind. by rewrite Hw1.
Qed.
End SegmentRaiseSim.

(** ** The whole try block *)

Section RunRaiseSim.
Context `{!MediaEnv}.

Lemma create_video_body_raise_refines (input_folder : string) (z p s : Z) (w w' : worker)
    (e : py_exc) :
  create_video_body input_folder z p s w = (Raise e, w') ->
  exists a', run_raise input_folder z p s (start_of w) e a' /\ observes w' a'.
Proof.
  intros Hrun.
  unfold create_video_body, os_listdir, os_makedirs_exist_ok, write_text, subprocess_run,
    log_callback, messagebox_showinfo, emit in Hrun.
  py_unfold. repeat case_match; simplify_eq/=.
  all: repeat match goal with u : unit |- _ => destruct u end.
  all: repeat match goal with
    | H : bool_decide _ = false |- _ => apply bool_decide_eq_false_1 in H
    | H : bool_decide _ = true |- _ => apply bool_decide_eq_true_1 in H
    end.
  (* the raise comes before the loop: nothing has changed *)
  all: try (exists (start_of w'); split; [econstructor; eassumption | split; reflexivity]).
  (* in the loop *)
  all: try (match goal with
    | Hl : for_enum _ _ _ _ = (Raise _, _) |- _ =>
        eapply (loop_raise_refines _ _ _ _ _ _ _ _ _ (loop_start input_folder (start_of w))) in Hl
          as (a' & Hs & Ho); [| split_and!; reflexivity]
    end; exists a'; split; [econstructor; eassumption | done]).
  (* after the loop *)
  all: match goal with
    | Hl : for_enum _ _ _ _ = (Ok tt, _) |- _ =>
        eapply (loop_refines _ _ _ _ _ _ _ _ _ (loop_start input_folder (start_of w))) in Hl
          as (a1 & Hs & Hf & He & Hv); [| split_and!; reflexivity]
    end.
  all: rewrite ?Hf, ?Hv in *.
  all: repeat match goal with H : ¬ (_ ∉ _) |- _ => apply dec_stable in H end.
  all: eexists; split;
    [first [eapply ConcatError; eassumption | eapply ManifestIsDir; eassumption
           | eapply ManifestNoParent; eassumption]
    | unfold observes; cbn; by rewrite ?He, ?Hf].
Qed.

Lemma create_video_body_raise_complete (input_folder : string) (z p s : Z) (w : worker)
    (e : py_exc) (a' : astate) :
  run_raise input_folder z p s (start_of w) e a' ->
  exists w', create_video_body input_folder z p s w = (Raise e, w') /\ observes w' a'.
Proof.
  unfold create_video_body, os_listdir, os_makedirs_exist_ok, write_text, subprocess_run,
    log_callback, messagebox_showinfo, emit.
  py_unfold. unfold makedirs_error, manifest_is_dir, manifest_no_parent.
  intros [e' Hl | files e' Hl Hd | files d Hl Hd Ht | files d e' a2 Hl Hd Ht Hs
         | files d a1 Hl Hd Ht Hs Hm | files d a1 Hl Hd Ht Hs Hm Htd
         | files d a1 e' Hl Hd Ht Hs Hm Htd Hr];
    rewrite Hl; [by eexists | rewrite Hd; by eexists |..]; rewrite Hd;
    cbn [start_of a_fs] in Ht.
  1: rewrite bool_decide_true by exact Ht; by eexists.
  1: rewrite bool_decide_false by exact Ht; cbv beta iota zeta;
    destruct (loop_raise_complete _ _ _ _ _ _ _
                (set_parts (set_fs w {| fs_files := fs_files (w_fs w);
                                        fs_dirs := {[temp_of input_folder]} ∪ fs_dirs (w_fs w) |})
                   []) _ _ _ Hs ltac:(split_and!; reflexivity)) as (w1 & Hloop & Ho);
    unfold temp_of in Hloop; rewrite Hloop; by eexists.
  all: rewrite bool_decide_false by exact Ht; cbv beta iota zeta.
  all: destruct (loop_complete _ _ _ _ _ _ _
                (set_parts (set_fs w {| fs_files := fs_files (w_fs w);
                                        fs_dirs := {[temp_of input_folder]} ∪ fs_dirs (w_fs w) |})
                   []) _ _ Hs ltac:(split_and!; reflexivity)) as (w1 & Hloop & Hf & He & Hv).
  all: unfold manifest_of, output_of, manifest_text, temp_of in *; rewrite Hloop;
    cbv beta iota zeta; rewrite Hf.
  - rewrite bool_decide_true by exact Hm. eexists; split; [reflexivity | done].
  - rewrite bool_decide_false by exact Hm. rewrite bool_decide_true by exact Htd.
    eexists; split; [reflexivity | done].
  - rewrite bool_decide_false by exact Hm.
    rewrite bool_decide_false by (intros Hn; exact (Hn Htd)). cbv beta iota zeta.
    cbn [w_fs set_fs]. rewrite Hv, Hr. eexists; split; [reflexivity |].
    unfold observes. cbn. by rewrite He.
Qed.
End RunRaiseSim.

(** ** The whole worker *)

Section Worker.
Context `{!MediaEnv}.

(** C13. The worker's try block raises [e] exactly when the abstract run raises
    [e], in the same files and events. *)
Theorem create_video_body_raise_refinement (input_folder : string) (z p s : Z) (w : worker)
    (e : py_exc) :
  (forall w', create_video_body input_folder z p s w = (Raise e, w') ->
     exists a', run_raise input_folder z p s (start_of w) e a' /\ observes w' a') /\
  (forall a', run_raise input_folder z p s (start_of w) e a' ->
     exists w', create_video_body input_folder z p s w = (Raise e, w') /\ observes w' a').
Proof.
  split; intros ?; [apply create_video_body_raise_refines | apply create_video_body_raise_complete].
Qed.

(** C12. [create_video_with_ffmpeg] as a whole: it never raises; it ends as a
    completed abstract run, or as an abstract run that raised [e] followed
    by the error line and box of [e]; and every abstract run of either
    kind is one the worker makes. *)
Theorem worker_spec (input_folder : string) (z p s : Z) (w : worker) :
  (forall r w', create_video_with_ffmpeg input_folder z p s w = (r, w') ->
     r = Ok tt /\
     ((exists a', run_spec input_folder z p s (start_of w) a' /\ observes w' a') \/
      (exists e a', run_raise input_folder z p s (start_of w) e a' /\
         w_fs w' = a_fs a' /\ w_events w' = a_events a' ++ error_events e))) /\
  (forall a', run_spec input_folder z p s (start_of w) a' ->
     exists w', create_video_with_ffmpeg input_folder z p s w = (Ok tt, w') /\ observes w' a') /\
  (forall e a', run_raise input_folder z p s (start_of w) e a' ->
     exists w', create_video_with_ffmpeg input_folder z p s w = (Ok tt, w') /\
       w_fs w' = a_fs a' /\ w_events w' = a_events a' ++ error_events e).
Proof.
  unfold create_video_with_ffmpeg, try_except, log_callback, messagebox_showerror, emit.
  py_unfold. split_and!.
  - intros r w' Hrun.
    destruct (create_video_body input_folder z p s w) as [[[]|e] w1] eqn:Hb;
      injection Hrun as <- <-; split; [done | left | done | right].
    + destruct (create_video_body_refines _ _ _ _ _ _ Hb) as (a' & Hs & Hf & He & _).
      by exists a'.
    + destruct (create_video_body_raise_refines _ _ _ _ _ _ _ Hb) as (a' & Hs & Hf & He).
      exists e, a'. cbn. unfold error_events. by rewrite Hf, He, <- app_assoc.
  - intros a' Hs.
    set (w' := {| w_fs := a_fs a'; w_events := a_events a';
                  video_parts := map (part_line (temp_of input_folder)) (a_kept a') |}).
    rewrite (create_video_body_complete _ _ _ _ w w' a' Hs ltac:(split_and!; reflexivity)).
    by exists w'.
  - intros e a' Hs.
    destruct (create_video_body_raise_complete _ _ _ _ _ _ _ Hs) as (w1 & Hb & Hf & He).
    rewrite Hb. eexists; split; [reflexivity |]. cbn. unfold error_events.
    by rewrite Hf, He, <- app_assoc.
Qed.
End Worker.

(** ** Witnesses *)

Section Witnesses.
#[local] Existing Instance sample_env.

(** A file named [temp] in the folder: the run raises at [os.makedirs]. *)
Lemma create_video_body_raise_refinement_witness :
  exists a', run_raise "/in" 1 0 0 (start_of (start_worker temp_is_file)) temp_exc a' /\
    observes (snd (create_video_body "/in" 1 0 0 (start_worker temp_is_file))) a'.
Proof.
  apply (proj1 (create_video_body_raise_refinement "/in" 1 0 0 (start_worker temp_is_file)
                  temp_exc)).
  vm_compute. reflexivity.
Defined.

Lemma worker_spec_witness :
  Ok tt = Ok tt /\
  ((exists a', run_spec "/in" 1 0 0 (start_of (start_worker temp_is_file)) a' /\
      observes (snd (create_video_with_ffmpeg "/in" 1 0 0 (start_worker temp_is_file))) a') \/
   (exists e a', run_raise "/in" 1 0 0 (start_of (start_worker temp_is_file)) e a' /\
      w_fs (snd (create_video_with_ffmpeg "/in" 1 0 0 (start_worker temp_is_file))) = a_fs a' /\
      w_events (snd (create_video_with_ffmpeg "/in" 1 0 0 (start_worker temp_is_file)))
        = a_events a' ++ error_events e)).
Proof.
  apply (proj1 (worker_spec "/in" 1 0 0 (start_worker temp_is_file))).
  vm_compute. reflexivity.
Defined.
End Witnesses.
