(* ===== verification/Gui.v ===== *)
(** * The form: [start_process] and the two callbacks

    Lines 121-146 of src/GHEP-VIDEO-ANH.py.  The button handler reads the
    folder and the three counts from the form, warns when the folder is
    empty, reports a [ValueError] of [int()] in an error box, and otherwise
    resets the progress bar and the log and starts the worker thread with
    [progress_callback] (set the bar) and [log_callback] (append the line
    and a newline to the text widget).  The widgets are the record [gui];
    the events of the worker are applied to it in the order the worker
    emits them, [replay].  [select_folder] and the initial contents of the
    form and widgets (lines 148-194) are modelled too; [Window] shows that
    the GUI setup builds exactly these.  Tk's own behaviour
    (layout, scrolling, the event loop, calls from the worker thread) is
    not modelled. *)

From stdpp Require Import base list strings.
From Stdlib Require Import Ascii String ZArith QArith.
From S2P Require Import Prelude PyStr PyInt Discovery Pipeline.

Record form := Form {
  folder_var : string;
  zoom_entry : string;
  pan_entry : string;
  shake_entry : string
}.

Record gui := Gui {
  progress_bar : Q;
  log_text : string;
  dialogs : list ui_event
}.

(** What the click leads to. *)
Inductive start_outcome :=
  | MissingInput
  | InvalidNumbers
  | HandlerRaised (e : py_exc)
  | Started (zoom_count pan_count shake_count : Z).

Definition add_dialog (g : gui) (ev : ui_event) : gui :=
  {| progress_bar := progress_bar g; log_text := log_text g; dialogs := dialogs g ++ [ev] |}.

(** [zoom_count = int(zoom_entry.get())], then pan, then shake. *)
Definition parse_counts (f : form) : pyres (Z * Z * Z) :=
  z <-! py_int (zoom_entry f) ;;
  p <-! py_int (pan_entry f) ;;
  s <-! py_int (shake_entry f) ;;
  Ok (z, p, s).

(** [start_process()]: the [except ValueError] catches only that class; any
    other exception would leave the handler. *)
Definition start_process (f : form) (g : gui) : start_outcome * gui :=
  if String.eqb (folder_var f) "" then
    (MissingInput, add_dialog g (ShowWarning "Missing Input" "Please select an input folder."))
  else
    match parse_counts f with
    | Raise e =>
        if decide (exc_cls e = ValueError) then
          (InvalidNumbers, add_dialog g (ShowError "Error" "Please enter valid numbers for effects."))
        else (HandlerRaised e, g)
    | Ok (z, p, s) =>
        (Started z p s, {| progress_bar := 0; log_text := ""; dialogs := dialogs g |})
    end.

(** [progress_callback], [log_callback] and the message boxes, on the
    widgets. *)
Definition gui_apply (g : gui) (ev : ui_event) : gui :=
  match ev with
  | Progress p => {| progress_bar := p; log_text := log_text g; dialogs := dialogs g |}
  | Log msg => {| progress_bar := progress_bar g;
                  log_text := log_text g +:+ msg +:+ String newline EmptyString;
                  dialogs := dialogs g |}
  | _ => add_dialog g ev
  end.

Definition replay (g : gui) (evs : list ui_event) : gui := foldl gui_apply g evs.

(** A click on "Create Video" followed by the whole run of the worker, the
    thread being joined before the widgets are looked at. *)
Definition click `{!MediaEnv} (f : form) (g : gui) (w : worker) : gui * worker :=
  match start_process f g with
  | (Started z p s, g') =>
      let '(_, w') := create_video_with_ffmpeg (folder_var f) z p s w in
      (replay g' (drop (List.length (w_events w)) (w_events w')), w')
  | (_, g') => (g', w)
  end.

(** ** The window as built, lines 148-194 *)

(** [select_folder()]: [filedialog.askdirectory()] returns the chosen
    folder, or [""] when the dialog is cancelled, which leaves the entry
    as it was. *)
Definition select_folder (chosen : string) (f : form) : form :=
  if String.eqb chosen "" then f
  else {| folder_var := chosen; zoom_entry := zoom_entry f; pan_entry := pan_entry f;
          shake_entry := shake_entry f |}.

(** The form at start-up: an empty [StringVar] and the three entries with
    ["2"] inserted. *)
Definition initial_form : form :=
  {| folder_var := ""; zoom_entry := "2"; pan_entry := "2"; shake_entry := "2" |}.

(** A new progress bar is at 0 and the text widget is empty. *)
Definition initial_gui : gui := {| progress_bar := 0; log_text := ""; dialogs := [] |}.

(** The last value the progress bar received. *)
Definition last_progress (evs : list ui_event) : option Q := last (progress_events evs).

(** A form and widgets for the examples. *)
Definition sample_form : form :=
  {| folder_var := "/in"; zoom_entry := "1"; pan_entry := "0"; shake_entry := "0" |}.

Definition blank_gui : gui := {| progress_bar := 0; log_text := ""; dialogs := [] |}.

(** ** Properties of the form handler *)

Lemma parse_counts_raises (f : form) (e : py_exc) :
  parse_counts f = Raise e -> exc_cls e = ValueError.
Proof.
  unfold parse_counts, rbind.
  repeat case_match; intros; simplify_eq; by eapply py_int_raises_ValueError.
Qed.

(** C24. The handler starts the worker exactly when a folder is chosen and the
    three counts parse; [except ValueError] catches every failure of
    [int()], so the handler itself never raises. *)
Theorem start_process_spec (f : form) (g : gui) :
  (start_process f g).1 =
    if String.eqb (folder_var f) "" then MissingInput
    else match parse_counts f with
         | Ok (z, p, s) => Started z p s
         | Raise _ => InvalidNumbers
         end.
Proof.
  unfold start_process. destruct (String.eqb (folder_var f) ""); [done |].
  destruct (parse_counts f) as [[[z p] s]|e] eqn:Hp; [done |].
  by rewrite decide_True by (by eapply parse_counts_raises).
Qed.

(** C30. A click with a chosen folder and three decimal literals (ASCII
    digits, at most 4300 of them) starts the worker with their values,
    sets the bar to 0 and empties the log. *)
Theorem start_process_digits (f : form) (g : gui) (zs ps ss : list ascii) :
  folder_var f <> "" ->
  zoom_entry f = of_chars zs -> pan_entry f = of_chars ps -> shake_entry f = of_chars ss ->
  decimal_literal zs -> decimal_literal ps -> decimal_literal ss ->
  start_process f g = (Started (digits_value zs) (digits_value ps) (digits_value ss),
                       {| progress_bar := 0; log_text := ""; dialogs := dialogs g |}).
Proof.
  intros Hf Hz Hp Hs Dz Dp Ds. unfold start_process, parse_counts.
  by rewrite (proj2 (String.eqb_neq _ _) Hf), Hz, Hp, Hs, !py_int_digits.
Qed.

(** Nothing checks the sign of a count: a zoom count of [-1] starts the
    worker, which then zooms every segment but one
    ([Effects.assign_effects_negative_zoom]). *)
Theorem start_process_negative_count :
  (start_process {| folder_var := "/in"; zoom_entry := "-1"; pan_entry := "0";
                    shake_entry := " 0 " |}
                 {| progress_bar := 0; log_text := ""; dialogs := [] |}).1
  = Started (-1) 0 0.
Proof. vm_compute. reflexivity. Qed.

(** At start-up a click warns that no folder is chosen; once a folder is
    chosen, a click starts a run with two zooms, two pans and two shakes;
    cancelling the dialog changes nothing. *)
Theorem initial_form_start (chosen : string) :
  (start_process initial_form initial_gui).1 = MissingInput /\
  (start_process (select_folder chosen initial_form) initial_gui).1
    = if String.eqb chosen "" then MissingInput else Started 2 2 2.
Proof.
  split; [reflexivity |]. unfold select_folder.
  destruct (String.eqb_spec chosen "") as [->|Hne]; [reflexivity |].
  unfold start_process. cbn [folder_var]. by rewrite (proj2 (String.eqb_neq _ _) Hne).
Qed.

(** ** The widgets after a run *)

Lemma replay_progress_bar (g : gui) (evs : list ui_event) :
  progress_bar (replay g evs) = default (progress_bar g) (last_progress evs).
Proof.
  unfold replay, last_progress, progress_events. revert g.
  induction evs as [|ev evs IH] using rev_ind; intros g; [done |].
  rewrite foldl_app, omap_app.
  destruct ev; simpl; rewrite ?app_nil_r, ?IH; try done. by rewrite last_snoc.
Qed.

Lemma start_process_started (f : form) (g g' : gui) (z p s : Z) :
  start_process f g = (Started z p s, g') -> progress_bar g' = 0 /\ log_text g' = "".
Proof. unfold start_process. repeat case_match; intros; simplify_eq/=; done. Qed.


(** ** Witnesses *)

Lemma start_process_digits_witness :
  start_process {| folder_var := "/in"; zoom_entry := "12"; pan_entry := "0"; shake_entry := "3" |}
    blank_gui
  = (Started (digits_value ["1"; "2"]%char) (digits_value ["0"]%char) (digits_value ["3"]%char),
     {| progress_bar := 0; log_text := ""; dialogs := [] |}).
Proof.
  apply (start_process_digits _ blank_gui); [discriminate | reflexivity .. | | |];
    (split; [discriminate | split; [apply (bool_decide_unpack _); reflexivity | apply Nat.leb_le; reflexivity]]).
Defined.

