(* ===== verification/Window.v ===== *)
(** * The window as built: lines 153-196

    The module-level code of src/GHEP-VIDEO-ANH.py creates the Tk root,
    a [StringVar] for the folder, two frames, the folder entry and its
    button, the three count entries with their labels, the "Create Video"
    button, the progress bar and the text widget, then enters
    [root.mainloop()].  [window_script] is that code, one [tk_stmt] per
    call, in order; widget handles are numbered in creation order (the
    root is 0) and [StringVar]s separately (the folder's is 0).
    [tk_exec] runs one call on the widget tree [tk_state] the way Tk
    does, and fails ([None], Tk's [TclError]) on a handle that names no
    widget of the right class or on a negative entry index;
    [Entry.insert] clamps a larger index to the end of the contents.  Padding, widths in pixels other than the entries' and the
    progress bar's, and colours are not kept.  [form_of] and [gui_of] read
    the widgets [start_process] and the callbacks use.  The event loop is
    [Gui.click]: one button press followed by the run of its thread. *)

From stdpp Require Import base list strings.
From Stdlib Require Import Ascii String ZArith QArith.
From S2P Require Import Prelude PyStr PyInt Discovery Pipeline Gui.

(** The two functions the buttons call. *)
Inductive callback := SelectFolderCb | StartProcessCb.

#[export] Instance callback_eq_dec : EqDecision callback.
Proof. solve_decision. Defined.

Inductive widget :=
  | TkRoot (title geometry : string)
  | TkFrame (parent : nat)
  | TkEntry (parent : nat) (textvariable : option nat) (width : Z) (contents : string)
  | TkButton (parent : nat) (text : string) (command : callback)
  | TkLabel (parent : nat) (text : string)
  | TkProgressbar (parent : nat) (length : Z) (value : Q)
  | TkText (parent : nat) (contents : string).

(** [pack()] (side [TOP] by default), [pack(side=tk.LEFT)], [grid(row, column)]. *)
Inductive placement := PackTop | PackLeft | GridAt (row column : Z).

#[export] Instance placement_eq_dec : EqDecision placement.
Proof. solve_decision. Defined.

Record tk_state := TkState {
  tk_widgets : list widget;
  tk_vars : list string;
  tk_placed : list (nat * placement)
}.

Inductive tk_stmt :=
  | NewRoot
  | SetTitle (w : nat) (title : string)
  | SetGeometry (w : nat) (geometry : string)
  | NewStringVar
  | NewFrame (parent : nat)
  | NewEntry (parent : nat) (textvariable : option nat) (width : Z)
  | NewButton (parent : nat) (text : string) (command : callback)
  | NewLabel (parent : nat) (text : string)
  | NewProgressbar (parent : nat) (length : Z)
  | NewText (parent : nat)
  | Insert (w : nat) (index : Z) (s : string)
  | Place (w : nat) (p : placement).

Definition tk_empty : tk_state := {| tk_widgets := []; tk_vars := []; tk_placed := [] |}.

(** [Entry.insert(index, s)] at a non-negative index, clamped to the end of
    the contents. *)
Definition entry_insert (c : string) (index : Z) (s : string) : string :=
  let n := Nat.min (Z.to_nat index) (String.length c) in
  substring 0 n c +:+ s +:+ substring n (String.length c - n) c.

Definition add_widget (st : tk_state) (w : widget) : tk_state :=
  {| tk_widgets := tk_widgets st ++ [w]; tk_vars := tk_vars st; tk_placed := tk_placed st |}.

Definition set_widget (st : tk_state) (h : nat) (w : widget) : tk_state :=
  {| tk_widgets := <[h := w]> (tk_widgets st); tk_vars := tk_vars st;
     tk_placed := tk_placed st |}.

(** A widget that can hold others. *)
Definition is_container (st : tk_state) (h : nat) : bool :=
  match tk_widgets st !! h with
  | Some (TkRoot _ _) | Some (TkFrame _) => true
  | _ => false
  end.

(** A child of [parent], when [parent] is a container. *)
Definition add_child (st : tk_state) (parent : nat) (w : widget) : option tk_state :=
  if is_container st parent then Some (add_widget st w) else None.

Definition tk_exec (st : tk_state) (c : tk_stmt) : option tk_state :=
  match c with
  | NewRoot => Some (add_widget st (TkRoot "tk" ""))
  | SetTitle h t =>
      match tk_widgets st !! h with
      | Some (TkRoot _ g) => Some (set_widget st h (TkRoot t g))
      | _ => None
      end
  | SetGeometry h g =>
      match tk_widgets st !! h with
      | Some (TkRoot t _) => Some (set_widget st h (TkRoot t g))
      | _ => None
      end
  | NewStringVar =>
      Some {| tk_widgets := tk_widgets st; tk_vars := tk_vars st ++ [""];
              tk_placed := tk_placed st |}
  | NewFrame p => add_child st p (TkFrame p)
  | NewEntry p v wd =>
      match v with
      | Some k => if bool_decide (k < List.length (tk_vars st))%nat
                  then add_child st p (TkEntry p v wd "") else None
      | None => add_child st p (TkEntry p None wd "")
      end
  | NewButton p t cb => add_child st p (TkButton p t cb)
  | NewLabel p t => add_child st p (TkLabel p t)
  | NewProgressbar p len => add_child st p (TkProgressbar p len 0)
  | NewText p => add_child st p (TkText p "")
  | Insert h i s =>
      if bool_decide (i < 0)%Z then None else
      match tk_widgets st !! h with
      | Some (TkEntry p (Some k) wd c) =>
          match tk_vars st !! k with
          | Some val => Some {| tk_widgets := tk_widgets st;
                                tk_vars := <[k := entry_insert val i s]> (tk_vars st);
                                tk_placed := tk_placed st |}
          | None => None
          end
      | Some (TkEntry p None wd c) => Some (set_widget st h (TkEntry p None wd (entry_insert c i s)))
      | _ => None
      end
  | Place h pl =>
      if bool_decide (h < List.length (tk_widgets st))%nat
      then Some {| tk_widgets := tk_widgets st; tk_vars := tk_vars st;
                   tk_placed := tk_placed st ++ [(h, pl)] |}
      else None
  end.

Fixpoint tk_run (st : tk_state) (l : list tk_stmt) : option tk_state :=
  match l with
  | [] => Some st
  | c :: l' => match tk_exec st c with Some st' => tk_run st' l' | None => None end
  end.

(** Lines 154-194, one call per statement. *)
Definition window_script : list tk_stmt :=
  [ NewRoot;                                           (* 0  root = tk.Tk() *)
    SetTitle 0 "FFmpeg Video Creator Tool";
    SetGeometry 0 "700x500";
    NewStringVar;                                      (* folder_var *)
    NewFrame 0; Place 1 PackTop;                       (* 1  frame *)
    NewEntry 1 (Some 0%nat) 50; Place 2 PackLeft;          (* 2  folder_entry *)
    NewButton 1 "Select Input Folder" SelectFolderCb; Place 3 PackLeft;
    NewFrame 0; Place 4 PackTop;                       (* 4  options_frame *)
    NewLabel 4 "Zoompan:"; Place 5 (GridAt 0 0);
    NewEntry 4 None 5; Insert 6 0 "2"; Place 6 (GridAt 0 1);   (* 6  zoom_entry *)
    NewLabel 4 "Pan Slide:"; Place 7 (GridAt 0 2);
    NewEntry 4 None 5; Insert 8 0 "2"; Place 8 (GridAt 0 3);   (* 8  pan_entry *)
    NewLabel 4 "Shake:"; Place 9 (GridAt 0 4);
    NewEntry 4 None 5; Insert 10 0 "2"; Place 10 (GridAt 0 5); (* 10 shake_entry *)
    NewButton 0 "Create Video" StartProcessCb; Place 11 PackTop;
    NewProgressbar 0 600; Place 12 PackTop;            (* 12 progress_bar *)
    NewText 0; Place 13 PackTop ].                     (* 13 log_text *)

(** The handles the module-level names are bound to. *)
Definition folder_var_h : nat := 0.
Definition zoom_entry_h : nat := 6.
Definition pan_entry_h : nat := 8.
Definition shake_entry_h : nat := 10.
Definition progress_bar_h : nat := 12.
Definition log_text_h : nat := 13.

Definition entry_get (st : tk_state) (h : nat) : option string :=
  match tk_widgets st !! h with
  | Some (TkEntry _ None _ c) => Some c
  | Some (TkEntry _ (Some k) _ _) => tk_vars st !! k
  | _ => None
  end.

(** What [start_process] reads: [folder_var.get()] and the three
    entries' [get()]. *)
Definition form_of (st : tk_state) : option form :=
  folder ← tk_vars st !! folder_var_h;
  z ← entry_get st zoom_entry_h;
  p ← entry_get st pan_entry_h;
  s ← entry_get st shake_entry_h;
  Some {| folder_var := folder; zoom_entry := z; pan_entry := p; shake_entry := s |}.

(** What the callbacks write: the bar's value and the text's contents. *)
Definition gui_of (st : tk_state) : option gui :=
  match tk_widgets st !! progress_bar_h, tk_widgets st !! log_text_h with
  | Some (TkProgressbar _ _ v), Some (TkText _ c) =>
      Some {| progress_bar := v; log_text := c; dialogs := [] |}
  | _, _ => None
  end.

(** The command of the button labelled [text]. *)
Definition button_command (st : tk_state) (text : string) : list callback :=
  omap (fun w => match w with
                 | TkButton _ t cb => if String.eqb t text then Some cb else None
                 | _ => None
                 end) (tk_widgets st).

(** The cells the children of [parent] are gridded to. *)
Definition grid_cells (st : tk_state) (parent : nat) : list (Z * Z) :=
  omap (fun '(h, pl) =>
          match pl, tk_widgets st !! h with
          | GridAt r c, Some w =>
              match w with
              | TkLabel p _ | TkEntry p _ _ _ => if Nat.eqb p parent then Some (r, c) else None
              | _ => None
              end
          | _, _ => None
          end) (tk_placed st).

(** ** The window the program builds *)

(** C40. Lines 154-194 run without a Tk error and build the window the
    handlers expect: [folder_var] empty, the three count entries holding
    ["2"], the bar at 0 and the log empty; the "Select Input Folder"
    button calls [select_folder] and the "Create Video" button
    [start_process], each the only button with its label; the six labels
    and entries of the options frame occupy distinct cells.  So a first
    click only warns, and once a folder is chosen a click starts a run
    with two zooms, two pans and two shakes. *)
Theorem window_start (chosen : string) :
  exists st, tk_run tk_empty window_script = Some st /\
    form_of st = Some initial_form /\ gui_of st = Some initial_gui /\
    button_command st "Select Input Folder" = [SelectFolderCb] /\
    button_command st "Create Video" = [StartProcessCb] /\
    NoDup (grid_cells st 4) /\
    (start_process initial_form initial_gui).1 = MissingInput /\
    (start_process (select_folder chosen initial_form) initial_gui).1
      = if String.eqb chosen "" then MissingInput else Started 2 2 2.
Proof.
  destruct (initial_form_start chosen) as [H1 H2].
  eexists. split; [vm_compute; reflexivity |].
  split_and!; [vm_compute; reflexivity .. | | done | done].
  apply (bool_decide_unpack _). vm_compute. reflexivity.
Qed.
