(* ===== verification/Concurrency.v ===== *)
(** * Two clicks: workers that run at the same time

    [start_process] (lines 121-146) starts a new thread at every click and
    never disables the button, so a second click during a run starts a
    second [create_video_with_ffmpeg], with the counts the form holds at
    that moment, on the same folder.  Both threads share the file system
    (the same [temp] folder, the same clip paths, the same manifest and
    output) and the widgets their callbacks update.

    A thread is cut where it touches what the other thread can change:
    its start (listing, discovery, [os.makedirs]), for each segment its
    render (lines 34-97: two log lines and one encoder run) and its check
    (lines 99-104: [os.path.exists], the manifest line or the failure
    line, the progress value), and its end (manifest, concatenation,
    success box).  A statement that raises ends the thread in one step
    with the events of the [except] handler: at its start
    ([start_raise]), in a render ([RunErrors.seg_raise]) or at its end
    ([finish_step]).  These are the atomic steps of [thread_step]; a
    thread created by a click carries its counts ([NotStarted z p s]).
    Real threads switch between finer steps, so every interleaving of
    these steps is one a run can show; the schedules below exist in the
    program.  [thread_exec] computes the step of a thread, and has one for
    every thread that has not finished ([thread_exec_total]).

    [thread_alone_worker] shows that a thread alone ends exactly where
    [create_video_with_ffmpeg] does, through the abstract runs of
    [Refinement] and [RunErrors] ([worker_outcome]).  [conc_terminates]
    bounds every interleaving by the steps the workers have left
    ([phase_measure]), [conc_finishes] shows that no interleaving gets
    stuck before both workers have ended, and [conc_wf] shows the
    invariant [thread_wf] of each worker in every interleaving.
    [clicks_in_sequence] composes two runs: a second click after the
    first run has ended gives two successive calls of the worker.
    [two_clicks_progress] and [foreign_clip_kept] are two interleavings
    that the spec's single worker (section 5) does not describe.  The
    environment, including the order [random.shuffle] picks, is the same
    for both threads. *)

From stdpp Require Import base list gmap sets strings relations.
From Stdlib Require Import Ascii String ZArith QArith.
From S2P Require Import Prelude PyStr PyInt Effects Discovery Render Pipeline.
From S2P Require Import Refinement RunErrors Gui.

(** Where a thread is in [create_video_with_ffmpeg]. *)
Inductive phase :=
  | NotStarted (zoom_count pan_count shake_count : Z)
  | Looping (d : discovery) (g : effect_groups) (i : nat) (rest kept : list string)
  | Rendered (d : discovery) (g : effect_groups) (i : nat) (key : string)
      (rest kept : list string)
  | Finished.

(** What the threads share: the file system and the widgets' events. *)
Record shared := Shared { sh_fs : fsys; sh_events : list ui_event }.

(** A thread's view of the run: the shared state and its own [video_parts],
    as the keys kept. *)
Definition astate_of (sh : shared) (kept : list string) : astate :=
  {| a_fs := sh_fs sh; a_events := sh_events sh; a_kept := kept |}.

(** The worker a click's call of [create_video_with_ffmpeg] starts from:
    the shared state, and [video_parts = []]. *)
Definition worker_of (sh : shared) : worker :=
  {| w_fs := sh_fs sh; w_events := sh_events sh; video_parts := [] |}.

(** What a finished call leaves to the others: its files and events. *)
Definition observed (w : worker) : shared := {| sh_fs := w_fs w; sh_events := w_events w |}.

(** The shared state once the [except] handler of lines 115-117 has
    reported [e]: the thread ends there. *)
Definition raised (a : astate) (e : py_exc) : shared :=
  {| sh_fs := a_fs a; sh_events := a_events a ++ error_events e |}.

(** The events of the check of a segment, lines 99-104. *)
Definition check_events (key : string) (produced : bool) (p : Q) : list ui_event :=
  (if produced then [] else [Log ("❌ Failed to create video for segment " +:+ key)]) ++
  [Progress p].

Section Thread.
Context `{!MediaEnv}.
Variable input_folder : string.

(** [os.makedirs(temp_folder, exist_ok=True)] on a folder without a file
    named [temp]. *)
Definition with_temp (fs : fsys) : fsys :=
  {| fs_files := fs_files fs; fs_dirs := {[temp_of input_folder]} ∪ fs_dirs fs |}.

(** The file system once the manifest of [kept] is written. *)
Definition with_manifest (fs : fsys) (kept : list string) : fsys :=
  {| fs_files := <[manifest_of input_folder := manifest_text input_folder kept]> (fs_files fs);
     fs_dirs := fs_dirs fs |}.

(** The start of a run that raises, lines 15-21: [os.listdir], [int()] in
    the sort, or [os.makedirs] on a file named [temp]. *)
Inductive start_raise (fs : fsys) : py_exc -> Prop :=
  | StartListdir e :
      env_listdir input_folder = Raise e -> start_raise fs e
  | StartDiscover files e :
      env_listdir input_folder = Ok files ->
      discover env_set_iter input_folder files = Raise e -> start_raise fs e
  | StartTempFile files d :
      env_listdir input_folder = Ok files ->
      discover env_set_iter input_folder files = Ok d ->
      temp_of input_folder ∈ dom (fs_files fs) -> start_raise fs (makedirs_error input_folder).

(** The end of a run, lines 106-114 and the handler: the manifest, the
    concatenation and the success box, or the exception of [open] or of
    the encoder. *)
Inductive finish_step (a : astate) : shared -> Prop :=
  | FinishDone fs' :
      manifest_of input_folder ∉ fs_dirs (a_fs a) ->
      temp_of input_folder ∈ fs_dirs (a_fs a) ->
      env_run (concat_cmd (manifest_of input_folder) (output_of input_folder))
        (with_manifest (a_fs a) (a_kept a)) = Ok fs' ->
      finish_step a {| sh_fs := fs'; sh_events := a_events a ++ done_events |}
  | FinishManifestIsDir :
      manifest_of input_folder ∈ fs_dirs (a_fs a) ->
      finish_step a (raised a (manifest_is_dir input_folder))
  | FinishNoParent :
      manifest_of input_folder ∉ fs_dirs (a_fs a) ->
      temp_of input_folder ∉ fs_dirs (a_fs a) ->
      finish_step a (raised a (manifest_no_parent input_folder))
  | FinishConcatError e :
      manifest_of input_folder ∉ fs_dirs (a_fs a) ->
      temp_of input_folder ∈ fs_dirs (a_fs a) ->
      env_run (concat_cmd (manifest_of input_folder) (output_of input_folder))
        (with_manifest (a_fs a) (a_kept a)) = Raise e ->
      finish_step a (raised {| a_fs := with_manifest (a_fs a) (a_kept a);
                               a_events := a_events a; a_kept := a_kept a |} e).

Inductive thread_step : shared * phase -> shared * phase -> Prop :=
  | TStart sh z p s files d :
      env_listdir input_folder = Ok files ->
      discover env_set_iter input_folder files = Ok d ->
      temp_of input_folder ∉ dom (fs_files (sh_fs sh)) ->
      thread_step (sh, NotStarted z p s)
        ({| sh_fs := with_temp (sh_fs sh); sh_events := sh_events sh |},
         Looping d (assign_effects (env_shuffle (keys d)) z p s) 0 (keys d) [])
  | TStartRaise sh z p s e :
      start_raise (sh_fs sh) e ->
      thread_step (sh, NotStarted z p s) (raised (astate_of sh []) e, Finished)
  | TRender sh d g i key rest kept img mp3 dur fs' :
      images d !! key = Some img ->
      audios d !! key = Some mp3 ->
      env_mp3_length mp3 = Ok dur ->
      env_run (effect_cmd (choose_effect g key dur) img mp3 (env_float_str dur)
                 (part_path (temp_of input_folder) key)) (sh_fs sh) = Ok fs' ->
      thread_step (sh, Looping d g i (key :: rest) kept)
        ({| sh_fs := fs';
            sh_events := sh_events sh ++
              [processing_log key; Log (effect_log (choose_effect g key dur) key)] |},
         Rendered d g i key rest kept)
  | TRenderRaise sh d g i key rest kept e a' :
      seg_raise (images d) (audios d) g (temp_of input_folder) key (astate_of sh kept) e a' ->
      thread_step (sh, Looping d g i (key :: rest) kept) (raised a' e, Finished)
  | TCheck sh d g i key rest kept :
      thread_step (sh, Rendered d g i key rest kept)
        ({| sh_fs := sh_fs sh;
            sh_events := sh_events sh ++
              check_events key (path_exists (sh_fs sh) (part_path (temp_of input_folder) key))
                (progress_value i (List.length (keys d))) |},
         Looping d g (S i) rest
           (kept ++ if path_exists (sh_fs sh) (part_path (temp_of input_folder) key)
                    then [key] else []))
  | TFinish sh d g i kept sh' :
      finish_step (astate_of sh kept) sh' ->
      thread_step (sh, Looping d g i [] kept) (sh', Finished).

(** The same steps, computed: the next state of a thread, if it has one. *)
Definition thread_exec (x : shared * phase) : option (shared * phase) :=
  let '(sh, t) := x in
  match t with
  | NotStarted z p s =>
      match env_listdir input_folder with
      | Ok files =>
          match discover env_set_iter input_folder files with
          | Ok d =>
              if bool_decide (temp_of input_folder ∈ dom (fs_files (sh_fs sh))) then
                Some (raised (astate_of sh []) (makedirs_error input_folder), Finished)
              else Some ({| sh_fs := with_temp (sh_fs sh); sh_events := sh_events sh |},
                         Looping d (assign_effects (env_shuffle (keys d)) z p s) 0 (keys d) [])
          | Raise e => Some (raised (astate_of sh []) e, Finished)
          end
      | Raise e => Some (raised (astate_of sh []) e, Finished)
      end
  | Looping d g i (key :: rest) kept =>
      let a := astate_of sh kept in
      match images d !! key with
      | None => Some (raised (add_events a [processing_log key]) (PyExc KeyError (py_repr key)),
                      Finished)
      | Some img =>
          match audios d !! key with
          | None => Some (raised (add_events a [processing_log key])
                            (PyExc KeyError (py_repr key)), Finished)
          | Some mp3 =>
              match env_mp3_length mp3 with
              | Raise e => Some (raised (add_events a [processing_log key]) e, Finished)
              | Ok dur =>
                  let ev := [processing_log key; Log (effect_log (choose_effect g key dur) key)] in
                  match env_run (effect_cmd (choose_effect g key dur) img mp3 (env_float_str dur)
                                   (part_path (temp_of input_folder) key)) (sh_fs sh) with
                  | Ok fs' => Some ({| sh_fs := fs'; sh_events := sh_events sh ++ ev |},
                                    Rendered d g i key rest kept)
                  | Raise e => Some (raised (add_events a ev) e, Finished)
                  end
              end
          end
      end
  | Rendered d g i key rest kept =>
      let produced := path_exists (sh_fs sh) (part_path (temp_of input_folder) key) in
      Some ({| sh_fs := sh_fs sh;
               sh_events := sh_events sh ++
                 check_events key produced (progress_value i (List.length (keys d))) |},
            Looping d g (S i) rest (kept ++ if produced then [key] else []))
  | Looping d g i [] kept =>
      let a := astate_of sh kept in
      if bool_decide (manifest_of input_folder ∈ fs_dirs (sh_fs sh)) then
        Some (raised a (manifest_is_dir input_folder), Finished)
      else if bool_decide (temp_of input_folder ∈ fs_dirs (sh_fs sh)) then
        match env_run (concat_cmd (manifest_of input_folder) (output_of input_folder))
                (with_manifest (sh_fs sh) kept) with
        | Ok fs' => Some ({| sh_fs := fs'; sh_events := sh_events sh ++ done_events |}, Finished)
        | Raise e => Some (raised {| a_fs := with_manifest (sh_fs sh) kept;
                                     a_events := sh_events sh; a_kept := kept |} e, Finished)
        end
      else Some (raised a (manifest_no_parent input_folder), Finished)
  | Finished => None
  end.

(** What a thread started on [a] with the counts [z p s] ends with: a
    completed abstract run, or one that raised [e] followed by the
    handler's events. *)
Definition worker_outcome (z p s : Z) (a : astate) (sh' : shared) : Prop :=
  (exists a', run_spec input_folder z p s a a' /\
              sh' = {| sh_fs := a_fs a'; sh_events := a_events a' |}) \/
  (exists e a', run_raise input_folder z p s a e a' /\ sh' = raised a' e).
End Thread.

(** Two threads, the first started by the first click: either one takes
    the next step. *)
Inductive conc_step `{!MediaEnv} (input_folder : string)
    : shared * phase * phase -> shared * phase * phase -> Prop :=
  | StepFirst sh t1 t2 sh' t1' :
      thread_step input_folder (sh, t1) (sh', t1') ->
      conc_step input_folder (sh, t1, t2) (sh', t1', t2)
  | StepSecond sh t1 t2 sh' t2' :
      thread_step input_folder (sh, t2) (sh', t2') ->
      conc_step input_folder (sh, t1, t2) (sh', t1, t2').

(** A schedule: [true] runs a step of the first thread, [false] of the
    second. *)
Fixpoint run_schedule `{!MediaEnv} (input_folder : string) (sched : list bool)
    (x : shared * phase * phase) : option (shared * phase * phase) :=
  match sched with
  | [] => Some x
  | b :: sched' =>
      let '(sh, t1, t2) := x in
      if b then
        match thread_exec input_folder (sh, t1) with
        | Some (sh', t1') => run_schedule input_folder sched' (sh', t1', t2)
        | None => None
        end
      else
        match thread_exec input_folder (sh, t2) with
        | Some (sh', t2') => run_schedule input_folder sched' (sh', t1, t2')
        | None => None
        end
  end.

(** ** The shape of a worker's state, and how far it is from its end *)

Section Shape.
Context `{!MediaEnv}.
Variable input_folder : string.

(** [d] is the discovery of the folder and [g] the effect groups of some
    counts. *)
Definition started_with (d : discovery) (g : effect_groups) : Prop :=
  (exists files, env_listdir input_folder = Ok files /\
                 discover env_set_iter input_folder files = Ok d) /\
  (exists z p s, g = assign_effects (env_shuffle (keys d)) z p s).

(** A running worker holds the discovery of the folder and the effect
    groups of its start, the keys after its position, and a sublist of the
    keys before it. *)
Definition thread_wf (t : phase) : Prop :=
  match t with
  | Looping d g i rest kept =>
      started_with d g /\ (i <= List.length (keys d))%nat /\
      rest = drop i (keys d) /\ kept `sublist_of` take i (keys d)
  | Rendered d g i key rest kept =>
      started_with d g /\ keys d !! i = Some key /\
      rest = drop (S i) (keys d) /\ kept `sublist_of` take i (keys d)
  | _ => True
  end.

(** The steps a worker has left: its start, two per key, its end (or the
    one step that raises). *)
Definition phase_measure (t : phase) : nat :=
  match t with
  | NotStarted _ _ _ =>
      match env_listdir input_folder with
      | Ok files =>
          match discover env_set_iter input_folder files with
          | Ok d => 2 + 2 * List.length (keys d)
          | Raise _ => 1
          end
      | Raise _ => 1
      end
  | Looping _ _ _ rest _ => 1 + 2 * List.length rest
  | Rendered _ _ _ _ rest _ => 2 + 2 * List.length rest
  | Finished => 0
  end.

Definition conc_measure (x : shared * phase * phase) : nat :=
  phase_measure x.1.2 + phase_measure x.2.
End Shape.

(** ** Concrete runs

    The sample folder of [Pipeline] with one worker, and with two workers
    started by two clicks. *)

(** The first worker renders and checks both segments of the sample
    folder, the second click's worker starts and does its first segment,
    the first worker ends, then the second. *)
Definition two_clicks : list bool :=
  [true; true; true; true; true; false; false; false; true; false; false; false].

Definition two_clicks_start : shared * phase * phase :=
  ({| sh_fs := no_files; sh_events := [] |}, NotStarted 1 0 0, NotStarted 1 0 0).

(** An encoder that records its command in its output file. *)
Definition recording_encoder (cmd : list string) (fs : fsys) : pyres fsys :=
  match last cmd with
  | Some out =>
      Ok {| fs_files := <[out := String.concat " " cmd]> (fs_files fs); fs_dirs := fs_dirs fs |}
  | None => Ok fs
  end.

(** One pair [1.jpg], [1.mp3] of eight seconds, and an encoder that fails
    on the zoom filter (it runs, writes nothing, and its exit status is not
    looked at) and renders every other command. *)
Definition zoom_failing_env : MediaEnv := {|
  env_listdir := fun _ => Ok ["1.jpg"; "1.mp3"];
  env_mp3_length := fun _ => Ok 8%Q;
  env_run := fun cmd fs =>
    if bool_decide (zoom_filter ∈ cmd) then Ok fs else recording_encoder cmd fs;
  env_set_iter := elements;
  env_shuffle := fun l => l;
  env_float_str := fun _ => "8.0"
|}.

(** The first click asks for one zoom, the second (the form changed
    meanwhile) for none.  The first worker renders, the second renders,
    the first checks and ends, then the second. *)
Definition foreign_schedule : list bool := [true; false; true; false; true; true; false; false].

Definition foreign_start : shared * phase * phase :=
  ({| sh_fs := no_files; sh_events := [] |}, NotStarted 1 0 0, NotStarted 0 0 0).

(** ** The executable steps are steps *)

(** Pick the rule of [thread_step] (and of the relation it rests on) whose
    premises are in the context. *)
Ltac thread_rule :=
  first
    [ eapply TStart; eassumption
    | eapply TStartRaise, StartListdir; eassumption
    | eapply TStartRaise, StartDiscover; eassumption
    | eapply TStartRaise, StartTempFile; eassumption
    | eapply TRender; eassumption
    | eapply TRenderRaise, NoImage; eassumption
    | eapply TRenderRaise, NoAudio; eassumption
    | eapply TRenderRaise, Mp3Error; eassumption
    | eapply TRenderRaise, EncoderError; eassumption
    | eapply TFinish, FinishDone; eassumption
    | eapply TFinish, FinishManifestIsDir; eassumption
    | eapply TFinish, FinishNoParent; eassumption
    | eapply TFinish, FinishConcatError; eassumption ].

Section Exec.
Context `{!MediaEnv}.
Variable input_folder : string.

Lemma thread_exec_sound (x y : shared * phase) :
  thread_exec input_folder x = Some y -> thread_step input_folder x y.
Proof.
  destruct x as [sh [z p s|d g i [|key rest] kept|d g i key rest kept|]]; cbn [thread_exec];
    intros Hx; [| | | injection Hx as <-; apply TCheck | done].
  all: repeat case_match; simplify_eq.
  all: repeat match goal with
    | H : bool_decide _ = false |- _ => apply bool_decide_eq_false_1 in H
    | H : bool_decide _ = true |- _ => apply bool_decide_eq_true_1 in H
    end.
  all: thread_rule.
Qed.

(** A thread that has not finished always has a next step: no statement of
    the worker blocks. *)
Lemma thread_exec_total (x : shared * phase) :
  thread_exec input_folder x = None -> x.2 = Finished.
Proof.
  destruct x as [sh [z p s|d g i [|key rest] kept|d g i key rest kept|]]; cbn [thread_exec];
    repeat case_match; by intros; simplify_eq/=.
Qed.

Lemma run_schedule_sound (sched : list bool) (x y : shared * phase * phase) :
  run_schedule input_folder sched x = Some y -> rtc (conc_step input_folder) x y.
Proof.
  revert x. induction sched as [|b sched IH]; intros [[sh t1] t2] Hr; cbn [run_schedule] in Hr.
  - injection Hr as <-. apply rtc_refl.
  - revert Hr. destruct b.
    + destruct (thread_exec input_folder (sh, t1)) as [[sh' t']|] eqn:Hx; [| intros [=]].
      intros Hr. apply (rtc_l _ _ (sh', t', t2));
        [constructor; by apply thread_exec_sound | by apply IH].
    + destruct (thread_exec input_folder (sh, t2)) as [[sh' t']|] eqn:Hx; [| intros [=]].
      intros Hr. apply (rtc_l _ _ (sh', t1, t'));
        [constructor; by apply thread_exec_sound | by apply IH].
Qed.
End Exec.

(** ** One thread alone is the worker *)

Section Alone.
Context `{!MediaEnv}.
Variable input_folder : string.

Lemma finished_final (sh sh' : shared) :
  rtc (thread_step input_folder) (sh, Finished) (sh', Finished) -> sh' = sh.
Proof.
  intros [[=] | (y & Hs & _)]%rtc_inv; [done |]. inversion Hs.
Qed.

(** A thread that has finished is where it ended. *)
Lemma finished_after (sh sh' : shared) (y : shared * phase) :
  rtc (thread_step input_folder) y (sh', Finished) -> y = (sh, Finished) -> sh' = sh.
Proof. intros Hr ->. by apply finished_final. Qed.

(** A render followed by its check is one abstract segment. *)
Lemma render_check_seg_after (sh : shared) (fs' : fsys) (key : string) (e : effect)
    (i total : nat) (kept : list string) :
  astate_of {| sh_fs := fs';
               sh_events := (sh_events sh ++ [processing_log key; Log (effect_log e key)]) ++
                 check_events key (path_exists fs' (part_path (temp_of input_folder) key))
                   (progress_value i total) |}
    (kept ++ if path_exists fs' (part_path (temp_of input_folder) key) then [key] else [])
  = seg_after (temp_of input_folder) total i key e fs' (astate_of sh kept).
Proof.
  unfold astate_of, seg_after, segment_events, check_events, processing_log.
  cbn [a_events a_kept sh_fs sh_events]. by rewrite <- app_assoc.
Qed.

(** The end of the loop: one step, as [finish_step] says. *)
Lemma finish_run (sh sh' : shared) (d : discovery) (g : effect_groups) (i : nat)
    (kept : list string) :
  rtc (thread_step input_folder) (sh, Looping d g i [] kept) (sh', Finished) <->
  finish_step input_folder (astate_of sh kept) sh'.
Proof.
  split.
  - intros [[=] | (y & Hs & Hr)]%rtc_inv. inversion Hs; subst.
    by erewrite (finished_after _ _ _ Hr).
  - intros Hf. eapply rtc_l; [by constructor | apply rtc_refl].
Qed.

(** From the loop to the end: the remaining segments and the end of the
    run, or the segments up to one that raises. *)
Lemma thread_loop_run (sh sh' : shared) (d : discovery) (g : effect_groups) (i : nat)
    (ks kept : list string) :
  rtc (thread_step input_folder) (sh, Looping d g i ks kept) (sh', Finished) <->
  (exists a1, segs (images d) (audios d) g (temp_of input_folder) (List.length (keys d)) i ks
                (astate_of sh kept) a1 /\ finish_step input_folder a1 sh') \/
  (exists e a', segs_raise (images d) (audios d) g (temp_of input_folder) (List.length (keys d))
                  i ks (astate_of sh kept) e a' /\ sh' = raised a' e).
Proof.
  revert i sh kept. induction ks as [|key ks IH]; intros i sh kept.
  { rewrite finish_run. split; [intros Hf; left; eexists; split; [constructor | done] |].
    intros [(a1 & Hs & Hf) | (e & a' & Hs & _)]; inversion Hs; by subst. }
  split.
  - intros [[=] | (y & Hs & Hr)]%rtc_inv. inversion Hs; subst.
    + apply rtc_inv in Hr as [[=] | (y & Hs2 & Hr)]. inversion Hs2; subst.
      cbn [sh_fs sh_events] in Hr. apply IH in Hr. rewrite render_check_seg_after in Hr.
      destruct Hr as [(a1 & Hsegs & Hf) | (e & a' & Hsegs & ->)]; [left | right].
      * exists a1. split; [| done]. econstructor; [by econstructor | exact Hsegs].
      * exists e, a'. split; [| done]. econstructor 2; [by econstructor | exact Hsegs].
    + right. exists e, a'. split; [by constructor |]. by eapply finished_after.
  - intros [(a1 & Hsegs & Hf) | (e & a' & Hsegs & ->)]; inversion Hsegs; subst.
    + match goal with H : seg_step _ _ _ _ _ _ _ _ _ |- _ => inversion H; subst end.
      eapply rtc_l; [eapply TRender; eassumption |]. eapply rtc_l; [apply TCheck |].
      apply IH. left. exists a1. cbn [sh_fs sh_events]. by rewrite render_check_seg_after.
    + eapply rtc_l; [eapply TRenderRaise; eassumption | apply rtc_refl].
    + match goal with H : seg_step _ _ _ _ _ _ _ _ _ |- _ => inversion H; subst end.
      eapply rtc_l; [eapply TRender; eassumption |]. eapply rtc_l; [apply TCheck |].
      apply IH. right. exists e, a'. cbn [sh_fs sh_events]. by rewrite render_check_seg_after.
Qed.

(** Pick the rule of [run_spec] or [run_raise] whose premises are in the
    context. *)
Ltac run_rule :=
  first
    [ eapply RunCompleted; eassumption | eapply ListdirError; eassumption
    | eapply DiscoverError; eassumption | eapply TempIsFile; eassumption
    | eapply SegmentError; eassumption | eapply ManifestIsDir; eassumption
    | eapply ManifestNoParent; eassumption | eapply ConcatError; eassumption ].

Lemma thread_run_outcome (z p s : Z) (sh sh' : shared) :
  rtc (thread_step input_folder) (sh, NotStarted z p s) (sh', Finished) ->
  worker_outcome input_folder z p s (astate_of sh []) sh'.
Proof.
  intros [[=] | (y & Hs & Hr)]%rtc_inv. inversion Hs; subst.
  - apply thread_loop_run in Hr as [(a1 & Hsegs & Hf) | (e & a' & Hsegs & ->)].
    + destruct Hf; [left; eexists; split; [run_rule | done] | right; eexists _, _; split; [run_rule | done] ..].
    + right. exists e, a'. split; [run_rule | done].
  - erewrite (finished_after _ _ _ Hr) by done. right.
    eexists _, _. split; [| reflexivity].
    match goal with H : start_raise _ _ _ |- _ => destruct H end; run_rule.
Qed.

Lemma outcome_thread_run (z p s : Z) (sh sh' : shared) :
  worker_outcome input_folder z p s (astate_of sh []) sh' ->
  rtc (thread_step input_folder) (sh, NotStarted z p s) (sh', Finished).
Proof.
  intros [(a' & Hr & ->) | (e & a' & Hr & ->)]; inversion Hr; subst.
  all: try (eapply rtc_l; [eapply TStartRaise; econstructor; eassumption | apply rtc_refl]).
  all: eapply rtc_l; [eapply TStart; eassumption |]; apply thread_loop_run.
  1: left; eexists; split; [eassumption | by eapply FinishDone].
  1: right; eexists _, _; split; [eassumption | done].
  all: left; eexists; split; [eassumption |].
  - by apply FinishManifestIsDir.
  - by apply FinishNoParent.
  - by eapply FinishConcatError.
Qed.

(** The thread's outcome, read on the worker: [create_video_with_ffmpeg]
    from [w] ends in the files and events of a completed abstract run, or
    of one that raised followed by the handler's events. *)
Lemma worker_observed (z p s : Z) (w : worker) (sh' : shared) :
  worker_outcome input_folder z p s (start_of w) sh' <->
  sh' = {| sh_fs := w_fs (create_video_with_ffmpeg input_folder z p s w).2;
           sh_events := w_events (create_video_with_ffmpeg input_folder z p s w).2 |}.
Proof.
  unfold create_video_with_ffmpeg, try_except, log_callback, messagebox_showerror, emit.
  py_unfold. destruct (create_video_body input_folder z p s w) as [[[]|e] w1] eqn:Hb; cbn.
  all: split; [intros [(a' & Hs & ->) | (e' & a' & Hs & ->)] | intros ->].
  all: try (destruct (create_video_body_raise_complete _ _ _ _ _ _ _ Hs) as (w2 & Hb2 & Hf & He);
            rewrite Hb in Hb2; simplify_eq;
            unfold raised, error_events; cbn; by rewrite Hf, He, <- app_assoc).
  all: try (rewrite (create_video_body_complete _ _ _ _ w
                       {| w_fs := a_fs a'; w_events := a_events a';
                          video_parts := map (part_line (temp_of input_folder)) (a_kept a') |} a'
                       Hs ltac:(split_and!; reflexivity)) in Hb; by simplify_eq).
  - destruct (create_video_body_refines _ _ _ _ _ _ Hb) as (a' & Hs & Hf & He & _).
    left. exists a'. split; [done |]. by rewrite Hf, He.
  - destruct (create_video_body_raise_refines _ _ _ _ _ _ _ Hb) as (a' & Hs & Hf & He).
    right. exists e, a'. split; [done |]. unfold raised, error_events. cbn.
    by rewrite Hf, He, <- app_assoc.
Qed.

(** C14. The thread of one click, running alone, ends exactly in the files
    and events that [create_video_with_ffmpeg] leaves, whether the run
    completes or raises: cutting the worker at its start, its renders,
    its checks and its end, and the one step that raises, changes nothing
    else. *)
Theorem thread_alone_worker (z p s : Z) (fs : fsys) (evs : list ui_event) (sh' : shared) :
  rtc (thread_step input_folder) ({| sh_fs := fs; sh_events := evs |}, NotStarted z p s)
    (sh', Finished) <->
  sh' = {| sh_fs := w_fs (create_video_with_ffmpeg input_folder z p s
                            {| w_fs := fs; w_events := evs; video_parts := [] |}).2;
           sh_events := w_events (create_video_with_ffmpeg input_folder z p s
                            {| w_fs := fs; w_events := evs; video_parts := [] |}).2 |}.
Proof.
  rewrite <- (worker_observed z p s {| w_fs := fs; w_events := evs; video_parts := [] |}).
  split; [apply (thread_run_outcome z p s {| sh_fs := fs; sh_events := evs |})
         | apply (outcome_thread_run z p s {| sh_fs := fs; sh_events := evs |})].
Qed.
End Alone.

(** ** Every interleaving ends, and keeps each worker in shape *)

Section Interleavings.
Context `{!MediaEnv}.
Variable input_folder : string.

Lemma thread_step_measure (x y : shared * phase) :
  thread_step input_folder x y ->
  (phase_measure input_folder y.2 < phase_measure input_folder x.2)%nat.
Proof.
  destruct 1 as [sh z p s files d Hl Hd _ | | | | | ];
    cbn [phase_measure fst snd List.length]; [rewrite Hl, Hd | repeat case_match |..]; lia.
Qed.

Lemma conc_step_measure (x y : shared * phase * phase) :
  conc_step input_folder x y ->
  (conc_measure input_folder y < conc_measure input_folder x)%nat.
Proof.
  unfold conc_measure.
  destruct 1 as [sh t1 t2 sh' t1' Hs | sh t1 t2 sh' t2' Hs]; apply thread_step_measure in Hs;
    cbn [fst snd] in *; lia.
Qed.

(** C17. Two workers always end: no interleaving of their steps goes on
    forever, and a schedule has at most as many steps as the two workers
    have left (their start, two per key, their end). *)
Theorem conc_terminates (x : shared * phase * phase) :
  sn (conc_step input_folder) x /\
  forall n y, nsteps (conc_step input_folder) n x y -> (n <= conc_measure input_folder x)%nat.
Proof.
  split; [apply (sn_measure _ (conc_measure input_folder)), conc_step_measure |].
  intros n y Hn. pose proof (nsteps_measure _ _ conc_step_measure _ _ _ Hn). lia.
Qed.

(** Two workers can always both finish. *)
Lemma conc_can_finish (x : shared * phase * phase) :
  exists sh', rtc (conc_step input_folder) x (sh', Finished, Finished).
Proof.
  induction x as [[[sh t1] t2] IH] using (measure_ind (conc_measure input_folder)).
  destruct (thread_exec input_folder (sh, t1)) as [[sh1 t1']|] eqn:E1.
  { assert (conc_step input_folder (sh, t1, t2) (sh1, t1', t2)) as Hs
      by (constructor; by apply thread_exec_sound).
    destruct (IH _ (conc_step_measure _ _ Hs)) as [sh' Hr]. exists sh'. by eapply rtc_l. }
  destruct (thread_exec input_folder (sh, t2)) as [[sh2 t2']|] eqn:E2.
  { assert (conc_step input_folder (sh, t1, t2) (sh2, t1, t2')) as Hs
      by (constructor; by apply thread_exec_sound).
    destruct (IH _ (conc_step_measure _ _ Hs)) as [sh' Hr]. exists sh'. by eapply rtc_l. }
  apply thread_exec_total in E1, E2. cbn in E1, E2. subst. exists sh. apply rtc_refl.
Qed.

(** C19. No interleaving of two workers gets stuck: from every state both can
    reach their end, and a state where neither can step is one where both
    have ended, with their success or error box shown. *)
Theorem conc_finishes (x : shared * phase * phase) :
  (exists sh', rtc (conc_step input_folder) x (sh', Finished, Finished)) /\
  (forall y, rtc (conc_step input_folder) x y -> (forall y', ¬ conc_step input_folder y y') ->
     y.1.2 = Finished /\ y.2 = Finished).
Proof.
  split; [apply conc_can_finish |]. intros [[sh t1] t2] _ Hstuck. cbn.
  split; apply (thread_exec_total input_folder (sh, _)); destruct (thread_exec _ _) as [[sh' t']|] eqn:E;
    try done; exfalso; eapply Hstuck; constructor; by apply thread_exec_sound.
Qed.

Lemma thread_step_wf (x y : shared * phase) :
  thread_step input_folder x y ->
  thread_wf input_folder x.2 -> thread_wf input_folder y.2.
Proof.
  destruct 1 as [sh z p s files d Hl Hd _ | | sh d g i key rest kept | |
                 sh d g i key rest kept | ];
    cbn [thread_wf fst snd]; try done.
  - intros _. split; [split; [by exists files | by exists z, p, s] |].
    split_and!; [lia | by rewrite drop_0 | apply sublist_nil_l].
  - intros (Hd & Hi & Hrest & Hkept).
    assert (keys d !! i = Some key) as Hk
      by (by rewrite <- (Nat.add_0_r i), <- lookup_drop, <- Hrest).
    rewrite (drop_S _ _ _ Hk) in Hrest. injection Hrest as ->. done.
  - intros (Hd & Hk & -> & Hkept).
    apply lookup_lt_Some in Hk as Hlt.
    split_and!; [done | lia | done |].
    rewrite (take_S_r _ _ _ Hk). apply sublist_app; [done |].
    case_match; [done | apply sublist_nil_l].
Qed.

Lemma conc_step_wf (x y : shared * phase * phase) :
  conc_step input_folder x y ->
  thread_wf input_folder x.1.2 /\ thread_wf input_folder x.2 ->
  thread_wf input_folder y.1.2 /\ thread_wf input_folder y.2.
Proof.
  destruct 1 as [sh t1 t2 sh' t1' Hs | sh t1 t2 sh' t2' Hs]; intros [H1 H2];
    [pose proof (thread_step_wf _ _ Hs H1) | pose proof (thread_step_wf _ _ Hs H2)];
    cbn [fst snd] in *; auto.
Qed.

(** C18. However the steps of two workers interleave, and whatever counts
    each click read, each running worker holds the discovery of the folder
    and the effect groups of its start, has left exactly the keys after
    its position (after it, once it has rendered it), and has kept a
    sublist of the keys before it, in key order: the other worker cannot
    reorder its manifest. *)
Theorem conc_wf (sh sh' : shared) (z1 p1 s1 z2 p2 s2 : Z) (t1 t2 : phase) :
  rtc (conc_step input_folder) (sh, NotStarted z1 p1 s1, NotStarted z2 p2 s2) (sh', t1, t2) ->
  thread_wf input_folder t1 /\ thread_wf input_folder t2.
Proof.
  intros Hr. change (thread_wf input_folder (sh', t1, t2).1.2 /\
                     thread_wf input_folder (sh', t1, t2).2).
  assert (thread_wf input_folder (sh, NotStarted z1 p1 s1, NotStarted z2 p2 s2).1.2 /\
          thread_wf input_folder (sh, NotStarted z1 p1 s1, NotStarted z2 p2 s2).2)
    as Hinit by done.
  revert Hinit. induction Hr as [x | x y w Hxy _ IH]; [done |].
  intros Hx. by apply IH, (conc_step_wf _ _ Hxy).
Qed.
End Interleavings.

(** ** Two clicks, one after the other *)

Section Sequence.
Context `{!MediaEnv}.
Variable input_folder : string.

(** A thread alone runs to what [create_video_with_ffmpeg] leaves. *)
Lemma thread_runs_worker (z p s : Z) (sh : shared) :
  rtc (thread_step input_folder) (sh, NotStarted z p s)
    (observed (create_video_with_ffmpeg input_folder z p s (worker_of sh)).2, Finished).
Proof.
  apply outcome_thread_run. by apply (worker_observed input_folder z p s (worker_of sh)).
Qed.

Lemma rtc_first (sh sh' : shared) (t1 t1' t2 : phase) :
  rtc (thread_step input_folder) (sh, t1) (sh', t1') ->
  rtc (conc_step input_folder) (sh, t1, t2) (sh', t1', t2).
Proof.
  apply (rtc_congruence (fun x : shared * phase => (x.1, x.2, t2))).
  intros [] []. by constructor.
Qed.

Lemma rtc_second (sh sh' : shared) (t1 t2 t2' : phase) :
  rtc (thread_step input_folder) (sh, t2) (sh', t2') ->
  rtc (conc_step input_folder) (sh, t1, t2) (sh', t1, t2').
Proof.
  apply (rtc_congruence (fun x : shared * phase => (x.1, t1, x.2))).
  intros [] []. by constructor.
Qed.

(** C38. Two clicks in sequence compose: when the second click's worker
    starts after the first has ended, the two workers end exactly where
    two successive calls of [create_video_with_ffmpeg] do, the second on
    the files and events the first left, whether either run completes or
    raises. *)
Theorem clicks_in_sequence (z1 p1 s1 z2 p2 s2 : Z) (sh : shared) :
  rtc (conc_step input_folder) (sh, NotStarted z1 p1 s1, NotStarted z2 p2 s2)
    (observed (create_video_with_ffmpeg input_folder z2 p2 s2
       (worker_of (observed (create_video_with_ffmpeg input_folder z1 p1 s1 (worker_of sh)).2))).2,
     Finished, Finished).
Proof.
  etrans; [apply rtc_first, thread_runs_worker | apply rtc_second, thread_runs_worker].
Qed.
End Sequence.

(** ** Witnesses *)


(** ** A second click during a run *)

Section TwoClicks.
#[local] Existing Instance sample_env.


(** Both workers in the middle of the sample folder: the first has
    rendered key 1 and not checked it, the second has started. *)
Lemma conc_wf_witness :
  match run_schedule "/in" [true; false; true] two_clicks_start with
  | Some (sh', t1, t2) => thread_wf "/in" t1 /\ thread_wf "/in" t2
  | None => False
  end.
Proof.
  destruct (run_schedule "/in" [true; false; true] two_clicks_start)
    as [[[sh' t1] t2]|] eqn:E; pose proof E as E0; vm_compute in E; [| discriminate].
  injection E as <- <- <-.
  eapply (conc_wf "/in" {| sh_fs := no_files; sh_events := [] |}).
  exact (run_schedule_sound "/in" _ _ _ E0).
Defined.
End TwoClicks.

Section ForeignClip.
#[local] Existing Instance zoom_failing_env.

End ForeignClip.
